(** * KUBE platform backend: the controllers, embedded and verified

    The Express controllers of [backend/src/controllers] are embedded as
    functions from a request and a database snapshot to an HTTP response
    (and, for the writing handlers, the next snapshot).  Each [prisma.*]
    call is a function on the tables of the snapshot that either resolves
    or rejects; a handler's [try { ... } catch] is the elimination of that
    outcome at the end of its body. *)

From Stdlib Require Import ZArith QArith List String Ascii Bool Lia.
From Stdlib Require Import Sorting.Sorted DecimalString SpecFloat.
Import ListNotations.

Open Scope string_scope.
Open Scope Z_scope.

(* ================================================================== *)
(** * Part I.  The embedding                                          *)
(* ================================================================== *)

(** ** JavaScript values that arrive in a request *)

Module Js.

(** What [express.json()] can put in [req.body].  A number is given by
    the integer numeral the request writes for it; numerals with a
    fraction or an exponent are not part of the embedding. *)
#[local] Unset Elimination Schemes.
Inductive json : Type :=
| JNull
| JBool (b : bool)
| JNum (n : Z)
| JStr (s : string)
| JArr (items : list json)
| JObj (fields : list (string * json)).
#[local] Set Elimination Schemes.

(** [obj.key]; [None] is [undefined]. *)
Fixpoint field (key : string) (fields : list (string * json)) : option json :=
  match fields with
  | [] => None
  | (k, v) :: rest => if String.eqb k key then Some v else field key rest
  end.

(** ToBoolean on a defined value. *)
Definition truthy_value (v : json) : bool :=
  match v with
  | JNull => false
  | JBool b => b
  | JNum n => negb (n =? 0)
  | JStr s => negb (String.eqb s "")
  | JArr _ => true
  | JObj _ => true
  end.

(** ToBoolean on a possibly [undefined] value: the test behind
    [!x], [x && ...] and [x ? ... : ...]. *)
Definition truthy (v : option json) : bool :=
  match v with
  | None => false
  | Some v => truthy_value v
  end.

(** ToBoolean on a query-string parameter. *)
Definition truthy_str (v : option string) : bool :=
  match v with
  | None => false
  | Some s => negb (String.eqb s "")
  end.

(** *** Numbers

    A JavaScript number is an IEEE 754 binary64 value. *)

Definition number : Type := spec_float.

(** The number an integer converts to: the nearest binary64 value, the
    integer itself up to 2^53 in magnitude. *)
Definition Number (n : Z) : number := binary_normalize 53 1024 n 0 false.

(** *** [JSON.stringify] *)

(** The double-quote character, as a string. *)
Definition dquote : string := String (ascii_of_nat 34) EmptyString.

Definition hex_digit (n : nat) : ascii :=
  ascii_of_nat (if Nat.ltb n 10 then 48 + n else 87 + n).

(** One code unit inside a quoted string: the two-character escapes,
    [\u00XX] for the other control characters, the character itself
    otherwise. *)
Definition escape_char (c : ascii) : string :=
  let n := nat_of_ascii c in
  if Nat.eqb n 8 then "\b"
  else if Nat.eqb n 9 then "\t"
  else if Nat.eqb n 10 then "\n"
  else if Nat.eqb n 12 then "\f"
  else if Nat.eqb n 13 then "\r"
  else if Nat.eqb n 34 then "\" ++ dquote
  else if Nat.eqb n 92 then "\\"
  else if Nat.ltb n 32
       then "\u00" ++ String (hex_digit (Nat.div n 16)) (String (hex_digit (Nat.modulo n 16)) "")
  else String c "".

Fixpoint escape (s : string) : string :=
  match s with
  | EmptyString => ""
  | String c rest => escape_char c ++ escape rest
  end.

(** QuoteJSONString *)
Definition quote (s : string) : string := dquote ++ escape s ++ dquote.

Definition number_to_string (n : Z) : string := NilZero.string_of_int (Z.to_int n).

Fixpoint join (sep : string) (parts : list string) : string :=
  match parts with
  | [] => ""
  | [p] => p
  | p :: rest => p ++ sep ++ join sep rest
  end.

(** The text [JSON.stringify] writes for a number.  An integer of at
    most 2^53 in magnitude is held exactly and written digit by digit.
    A larger one is held as the nearest binary64 number, and the text
    is what [toString] ([Number.prototype.toString]) gives for that
    number: the shortest numeral that reads back as it, in exponent
    notation from 10^21 on. *)
Definition stringify_number (toString : number -> string) (n : Z) : string :=
  if Z.abs n <=? 2 ^ 53 then number_to_string n else toString (Number n).

(** [JSON.stringify(v)] with no replacer and no indentation; the
    fields of an object come in the order the object lists them. *)
Fixpoint JSON_stringify (toString : number -> string) (v : json) : string :=
  match v with
  | JNull => "null"
  | JBool true => "true"
  | JBool false => "false"
  | JNum n => stringify_number toString n
  | JStr s => quote s
  | JArr items => "[" ++ join "," (map (JSON_stringify toString) items) ++ "]"
  | JObj fields =>
      "{" ++ join "," (map (fun kv => match kv with
                                      | (k, x) =>
                                          quote k ++ ":" ++ JSON_stringify toString x
                                      end) fields) ++ "}"
  end.

(** [typeof v === 'string' ? v : JSON.stringify(v)] *)
Definition string_or_stringify (toString : number -> string) (v : json) : string :=
  match v with
  | JStr s => s
  | _ => JSON_stringify toString v
  end.

(** *** Arithmetic and [toFixed(1)]

    [/] and [*] are the correctly rounded operations of binary64. *)

Definition number_div (x y : number) : number := SFdiv 53 1024 x y.

Definition number_mul (x y : number) : number := SFmul 53 1024 x y.

(** The positive number [m * 2^e] as the fraction [scaled_num / scaled_den]. *)
Definition scaled_num (m : positive) (e : Z) : Z := Zpos m * 2 ^ Z.max e 0.
Definition scaled_den (e : Z) : Z := 2 ^ Z.max (- e) 0.

(** [m * 2^e < 10^21] *)
Definition below_1e21 (m : positive) (e : Z) : bool :=
  scaled_num m e <? 10 ^ 21 * scaled_den e.

(** The integer [n] for which [n / 10 - m * 2^e] is as close to zero as
    possible, the larger one if there are two. *)
Definition tenths (m : positive) (e : Z) : Z :=
  (2 * (10 * scaled_num m e) + scaled_den e) / (2 * scaled_den e).

(** The digits of [n] with a point before the last one, after a zero
    is put in front of a single digit. *)
Definition fixed1 (n : Z) : string :=
  let m := number_to_string n in
  let k := String.length m in
  let m := if Nat.leb k 1 then "0" ++ m else m in
  let k := String.length m in
  substring 0 (k - 1) m ++ "." ++ substring (k - 1) 1 m.

(** [x.toFixed(1)]; [toString] is [Number.prototype.toString], which
    takes over from 10^21 on. *)
Definition toFixed1 (toString : number -> string) (x : number) : string :=
  match x with
  | S754_nan => "NaN"
  | S754_infinity false => "Infinity"
  | S754_infinity true => "-Infinity"
  | S754_zero _ => fixed1 0
  | S754_finite s m e =>
      (if s then "-" else "")
      ++ (if below_1e21 m e then fixed1 (tenths m e)
          else toString (S754_finite false m e))
  end.

(** *** Rounding to one decimal place, as a relation

    The number [m * 2^e] and what it means for [n] tenths to be its
    rounding: [n / 10] is the decimal nearest to it, and the larger of
    the two when it lies midway. *)

Definition value (m : positive) (e : Z) : Q :=
  scaled_num m e # Z.to_pos (scaled_den e).

Definition rounds_to_tenths (m : positive) (e : Z) (n : Z) : Prop :=
  (10 * value m e - (1 # 2) < inject_Z n)%Q /\
  (inject_Z n <= 10 * value m e + (1 # 2))%Q.

End Js.
Import Js.

(** ** Promises: a query resolves or rejects *)

Inductive outcome (A : Type) : Type :=
| Resolved (a : A)
| Rejected.
Arguments Resolved {A} a.
Arguments Rejected {A}.

Definition bind {A B : Type} (m : outcome A) (k : A -> outcome B) : outcome B :=
  match m with
  | Resolved a => k a
  | Rejected => Rejected
  end.

Notation "x <- m ;; k" := (bind m (fun x => k))
  (at level 61, m at next level, right associativity).

(** [Promise.all] over a pair: it resolves when both do, and rejects as
    soon as one rejects. *)
Definition both {A B : Type} (p : outcome A) (q : outcome B) : outcome (A * B) :=
  match p, q with
  | Resolved a, Resolved b => Resolved (a, b)
  | _, _ => Rejected
  end.

(** What the handlers cannot see: the clock, the id the database gives
    the next row it creates, the library functions they call
    ([new Date(v)], with [None] for an invalid date; [JSON.parse], with
    [None] where it throws; [bcrypt.compare] on a password and a stored
    hash; [jwt.sign] on the payload id, email and role;
    [Number.prototype.toString]), and whether the
    persistence layer rejects the n-th query a handler issues (numbered
    in source order from 0): a lost connection, a violated constraint, a
    value the schema refuses. *)
Record Runtime : Type := {
  now : Z;
  newId : string;
  newDate : json -> option Z;
  jsonParse : string -> option json;
  bcryptCompare : string -> string -> bool;
  jwtSign : string -> string -> string -> string;
  numberToString : number -> string;
  rejects : nat -> bool
}.

Definition query {A : Type} (rt : Runtime) (n : nat) (result : outcome A) : outcome A :=
  if rejects rt n then Rejected else result.

(** One of the first [k] queries of a handler is rejected. *)
Definition some_rejected (rt : Runtime) (k : nat) : Prop :=
  exists n, (n < k)%nat /\ rejects rt n = true.

(** The first [k] queries of a handler all resolve. *)
Definition all_resolve (rt : Runtime) (k : nat) : Prop :=
  forall n, (n < k)%nat -> rejects rt n = false.

(** ** HTTP responses: the envelope [{ success, message?, data? }] *)

Record Response (D : Type) : Type := {
  statusCode : Z;
  success : bool;
  message : option string;
  data : option D
}.
Arguments statusCode {D} _.
Arguments success {D} _.
Arguments message {D} _.
Arguments data {D} _.

(** [res.json({ success: true, data })] *)
Definition ok {D : Type} (d : D) : Response D :=
  {| statusCode := 200; success := true; message := None; data := Some d |}.

(** [res.json({ success: true, message, data })] and its [status(201)] form *)
Definition ok_msg {D : Type} (code : Z) (m : string) (d : D) : Response D :=
  {| statusCode := code; success := true; message := Some m; data := Some d |}.

(** [res.status(code).json({ success: false, message })] *)
Definition fail {D : Type} (code : Z) (m : string) : Response D :=
  {| statusCode := code; success := false; message := Some m; data := None |}.

(** ** Requests *)

Definition Id : Type := string.

(** [req.user], as the auth middleware decodes it from the bearer token. *)
Record AuthUser : Type := {
  auth_id : Id;
  auth_role : string
}.

Record Request : Type := {
  user : option AuthUser;
  params : list (string * string);
  query_string : list (string * string);
  body : list (string * json)
}.

Fixpoint lookup (key : string) (l : list (string * string)) : option string :=
  match l with
  | [] => None
  | (k, v) :: rest => if String.eqb k key then Some v else lookup key rest
  end.

(** [req.user?.id] *)
Definition userId (req : Request) : option Id :=
  match user req with
  | Some u => Some (auth_id u)
  | None => None
  end.

(** [req.user?.role !== 'ADMIN'] *)
Definition notAdmin (req : Request) : bool :=
  match user req with
  | Some u => negb (String.eqb (auth_role u) "ADMIN")
  | None => true
  end.

(** [req.user?.role === 'ADMIN'] *)
Definition isAdmin (req : Request) : bool := negb (notAdmin req).

(** [req.params.id]: the route always binds it. *)
Definition param (key : string) (req : Request) : string :=
  match lookup key (params req) with
  | Some v => v
  | None => ""
  end.

(** ** The persistence layer

    One list of rows per table, in insertion order.  Timestamps are
    milliseconds since the epoch.  The columns are the ones the handlers
    read, write or filter on; ids are the opaque strings Prisma
    generates. *)

Record User : Type := {
  user_id : Id;
  user_email : string;
  user_password : string;
  user_firstName : string;
  user_lastName : string;
  user_role : string;
  user_status : string;
  user_services : option string;
  user_lastLoginAt : option Z
}.

Record Farm : Type := {
  farm_id : Id;
  farm_name : string;
  farm_description : option string;
  farm_location : string;
  farm_latitude : Z;
  farm_longitude : Z;
  farm_area : Z;
  farm_ownerId : Id;
  farm_createdAt : Z
}.

Record Herd : Type := {
  herd_id : Id;
  herd_name : string;
  herd_description : option string;
  herd_animalType : string;
  herd_totalCount : Z;
  herd_healthyCount : Z;
  herd_sickCount : Z;
  herd_missingCount : Z;
  herd_farmId : Id;
  herd_createdAt : Z;
  herd_updatedAt : Z
}.

Record Animal : Type := {
  animal_id : Id;
  animal_tagId : string;
  animal_status : string;
  animal_herdId : Id;
  animal_createdAt : Z
}.

Record HealthEvent : Type := {
  event_id : Id;
  event_type : string;
  event_animalId : Id;
  event_detectedAt : Z
}.

Record Park : Type := {
  park_id : Id;
  park_name : string;
  park_managerId : Id;
  park_createdAt : Z
}.

Record WildlifePopulation : Type := {
  population_id : Id;
  population_species : string;
  population_estimatedCount : Z;
  population_parkId : Id
}.

Record Patrol : Type := {
  patrol_id : Id;
  patrol_status : string;
  patrol_parkId : Id
}.

Record Incident : Type := {
  incident_id : Id;
  incident_status : string;
  incident_parkId : Id;
  incident_reportedAt : Z
}.

Record WildlifeSighting : Type := {
  sighting_id : Id;
  sighting_populationId : Id;
  sighting_count : Z;
  sighting_timestamp : Z
}.

Record LandZone : Type := {
  zone_id : Id;
  zone_name : string;
  zone_region : string;
  zone_degradationLevel : option Q;
  zone_createdAt : Z
}.

Record LandChange : Type := {
  change_id : Id;
  change_zoneId : Id;
  change_detectedAt : Z
}.

Record LandSurvey : Type := {
  survey_id : Id;
  survey_zoneId : Id;
  survey_ndvi : option Q;
  survey_healthScore : option Q;
  survey_surveyDate : Z
}.

Record Alert : Type := {
  alert_id : Id;
  alert_type : string;
  alert_severity : string;
  alert_title : string;
  alert_message : string;
  alert_module : string;
  alert_status : string;
  alert_farmId : option Id;
  alert_assignedToId : option Id;
  alert_actionTaken : option string;
  alert_resolvedBy : option Id;
  alert_resolvedAt : option Z;
  alert_createdAt : Z
}.

Record Report : Type := {
  report_id : Id;
  report_title : string;
  report_type : string;
  report_module : string;
  report_description : option string;
  report_periodStart : option Z;
  report_periodEnd : option Z;
  report_dataSnapshot : string;
  report_charts : option string;
  report_generatedById : Id;
  report_generatedAt : Z
}.

Record Activity : Type := {
  activity_id : Id;
  activity_userId : Id;
  activity_timestamp : Z
}.

Record Db : Type := {
  users : list User;
  farms : list Farm;
  herds : list Herd;
  animals : list Animal;
  healthEvents : list HealthEvent;
  parks : list Park;
  wildlifePopulations : list WildlifePopulation;
  patrols : list Patrol;
  incidents : list Incident;
  wildlifeSightings : list WildlifeSighting;
  landZones : list LandZone;
  landChanges : list LandChange;
  landSurveys : list LandSurvey;
  alerts : list Alert;
  reports : list Report;
  activities : list Activity
}.

(** *** [where] clauses

    A clause is [None] when the source leaves it out: the spread of a
    falsy guard ([...(cond && { ... })]) or a column compared with
    [undefined], which Prisma ignores. *)

Definition clause : Type := option bool.

(** [...(cond && { c })] *)
Definition spread (cond : bool) (c : clause) : clause :=
  if cond then c else None.

(** [{ column: value }] on a required column *)
Definition equals (value : option string) (column : string) : clause :=
  match value with
  | Some v => Some (String.eqb column v)
  | None => None
  end.

(** [{ column: value }] on a nullable column: a null never equals a value *)
Definition equals_nullable (value : option string) (column : option string) : clause :=
  match value, column with
  | Some v, Some c => Some (String.eqb c v)
  | Some _, None => Some false
  | None, _ => None
  end.

(** [{ column: { not: value } }] *)
Definition isNot (value : string) (column : string) : clause :=
  Some (negb (String.eqb column value)).

(** The clauses of one [where] object hold together. *)
Definition AND (cs : list clause) : bool :=
  forallb (fun c => match c with Some b => b | None => true end) cs.

(** [{ OR: [ ... ] }] *)
Definition OR (cs : list clause) : clause :=
  Some (existsb (fun c => match c with Some b => b | None => false end) cs).

(** *** Relations: the row a foreign key points to *)

Definition farmOf (db : Db) (fid : Id) : option Farm :=
  find (fun f => String.eqb (farm_id f) fid) (farms db).

Definition herdOf (db : Db) (hid : Id) : option Herd :=
  find (fun h => String.eqb (herd_id h) hid) (herds db).

Definition animalOf (db : Db) (aid : Id) : option Animal :=
  find (fun a => String.eqb (animal_id a) aid) (animals db).

Definition parkOf (db : Db) (pid : Id) : option Park :=
  find (fun p => String.eqb (park_id p) pid) (parks db).

(** [{ farm: { ownerId: uid } }]: the related farm exists and is owned
    by [uid]. *)
Definition farm_ownedBy (db : Db) (uid : option Id) (fid : option Id) : clause :=
  match uid with
  | None => None
  | Some _ =>
      match fid with
      | None => Some false
      | Some fid =>
          match farmOf db fid with
          | Some f => equals uid (farm_ownerId f)
          | None => Some false
          end
      end
  end.

(** [{ herd: { farm: { ownerId: uid } } }] *)
Definition herd_farm_ownedBy (db : Db) (uid : option Id) (hid : Id) : clause :=
  match uid with
  | None => None
  | Some _ =>
      match herdOf db hid with
      | Some h => farm_ownedBy db uid (Some (herd_farmId h))
      | None => Some false
      end
  end.

(** [{ animal: { herd: { farm: { ownerId: uid } } } }] *)
Definition animal_herd_farm_ownedBy (db : Db) (uid : option Id) (aid : Id) : clause :=
  match uid with
  | None => None
  | Some _ =>
      match animalOf db aid with
      | Some a => herd_farm_ownedBy db uid (animal_herdId a)
      | None => Some false
      end
  end.

(** [{ park: { managerId: uid } }] *)
Definition park_managedBy (db : Db) (uid : option Id) (pid : Id) : clause :=
  match uid with
  | None => None
  | Some _ =>
      match parkOf db pid with
      | Some p => equals uid (park_managerId p)
      | None => Some false
      end
  end.

(** *** [orderBy], [take], [findMany], [findUnique], [count], [update] *)

(** [before x y]: [x] may come before [y] in the requested order. *)
Fixpoint insert_by {A : Type} (before : A -> A -> bool) (x : A) (l : list A) : list A :=
  match l with
  | [] => [x]
  | y :: rest => if before x y then x :: l else y :: insert_by before x rest
  end.

(** Rows that tie on every key stay in table order. *)
Definition orderBy {A : Type} (before : A -> A -> bool) (l : list A) : list A :=
  fold_right (insert_by before) [] l.

(** [orderBy: { key: 'desc' }] *)
Definition desc {A : Type} (key : A -> Z) (x y : A) : bool := key y <=? key x.

(** [orderBy: [{ k1: 'desc' }, { k2: 'desc' }]] *)
Definition desc2 {A : Type} (k1 k2 : A -> Z) (x y : A) : bool :=
  (k1 y <? k1 x) || ((k1 y =? k1 x) && (k2 y <=? k2 x)).

Definition take {A : Type} (n : nat) (l : list A) : list A := firstn n l.

Definition count {A : Type} (where_ : A -> bool) (table : list A) : Z :=
  Z.of_nat (List.length (filter where_ table)).

(** [findUnique({ where: { id } })]; [None] is [null]. *)
Definition findUnique {A : Type} (id_of : A -> Id) (id : Id) (table : list A) : option A :=
  find (fun r => String.eqb (id_of r) id) table.

(** [update({ where: { id }, data })]: the row with that id is replaced
    and returned; without such a row the call rejects. *)
Fixpoint update {A : Type} (id_of : A -> Id) (id : Id) (change : A -> A) (table : list A)
  : outcome (A * list A) :=
  match table with
  | [] => Rejected
  | r :: rest =>
      if String.eqb (id_of r) id then Resolved (change r, change r :: rest)
      else
        match update id_of id change rest with
        | Resolved (r', rest') => Resolved (r', r :: rest')
        | Rejected => Rejected
        end
  end.

(** [create({ data })]: the row is appended; an id that is already in
    the table violates the primary key and the call rejects. *)
Definition create {A : Type} (id_of : A -> Id) (row : A) (table : list A)
  : outcome (A * list A) :=
  if existsb (fun r => String.eqb (id_of r) (id_of row)) table then Rejected
  else Resolved (row, (table ++ [row])%list).

(** A request value written to a string column: Prisma takes a string
    and refuses any other value. *)
Definition asString (v : option json) : outcome string :=
  match v with
  | Some (JStr s) => Resolved s
  | _ => Rejected
  end.

(** A request value written to a numeric column. *)
Definition asNumber (v : option json) : outcome Z :=
  match v with
  | Some (JNum n) => Resolved n
  | _ => Rejected
  end.

(** A required column given [undefined] is refused. *)
Definition required {A : Type} (v : option A) : outcome A :=
  match v with
  | Some a => Resolved a
  | None => Rejected
  end.

(** A request value written to a nullable string column.  The outer
    [None] is [undefined], which leaves the column as it is; [null]
    clears it; a string sets it. *)
Definition asOptionalString (v : option json) : outcome (option (option string)) :=
  match v with
  | None => Resolved None
  | Some JNull => Resolved (Some None)
  | Some (JStr s) => Resolved (Some (Some s))
  | Some _ => Rejected
  end.

(** One entry of a [data] object: [undefined] keeps the stored value. *)
Definition written {A : Type} (value : option A) (stored : A) : A :=
  match value with
  | Some v => v
  | None => stored
  end.

(** What the schema fixes and the handlers rely on: the place of each
    alert severity in the order the database sorts the column by. *)
Record Schema : Type := {
  severityRank : string -> Z
}.

Definition set_alerts (db : Db) (l : list Alert) : Db :=
  {| users := users db; farms := farms db; herds := herds db; animals := animals db;
     healthEvents := healthEvents db; parks := parks db;
     wildlifePopulations := wildlifePopulations db; patrols := patrols db;
     incidents := incidents db; wildlifeSightings := wildlifeSightings db;
     landZones := landZones db; landChanges := landChanges db;
     landSurveys := landSurveys db; alerts := l; reports := reports db;
     activities := activities db |}.

(** ** Alert controller *)

Module AlertController.

(** The [where] object of [getAlerts]. *)
Definition getAlerts_where (req : Request) (db : Db) (a : Alert) : bool :=
  let status := lookup "status" (query_string req) in
  let type := lookup "type" (query_string req) in
  let severity := lookup "severity" (query_string req) in
  let module := lookup "module" (query_string req) in
  let userId := userId req in
  AND [ spread (truthy_str status) (equals status (alert_status a));
        spread (truthy_str type) (equals type (alert_type a));
        spread (truthy_str severity) (equals severity (alert_severity a));
        spread (truthy_str module) (equals module (alert_module a));
        spread (notAdmin req)
          (OR [ equals_nullable userId (alert_assignedToId a);
                farm_ownedBy db userId (alert_farmId a) ]) ].

(** [orderBy: [{ severity: 'desc' }, { createdAt: 'desc' }]] *)
Definition getAlerts_order (sc : Schema) : Alert -> Alert -> bool :=
  desc2 (fun a => severityRank sc (alert_severity a)) alert_createdAt.

(** The order [getAlerts] asks for: higher severity first, and among
    alerts of one severity the most recently created first. *)
Definition severity_then_newest (sc : Schema) (a b : Alert) : Prop :=
  severityRank sc (alert_severity b) < severityRank sc (alert_severity a) \/
  (severityRank sc (alert_severity b) = severityRank sc (alert_severity a) /\
   alert_createdAt b <= alert_createdAt a).

Definition getAlerts (rt : Runtime) (sc : Schema) (req : Request) (db : Db)
  : Response (list Alert) :=
  match
    query rt 0
      (Resolved (take 100 (orderBy (getAlerts_order sc)
                             (filter (getAlerts_where req db) (alerts db)))))
  with
  | Resolved alerts => ok alerts
  | Rejected => fail 500 "Failed to get alerts"
  end.

Definition getAlertById (rt : Runtime) (req : Request) (db : Db) : Response Alert :=
  let id := param "id" req in
  match query rt 0 (Resolved (findUnique alert_id id (alerts db))) with
  | Resolved None => fail 404 "Alert not found"
  | Resolved (Some alert) => ok alert
  | Rejected => fail 500 "Failed to get alert"
  end.

(** The [data] object of [updateAlertStatus], applied to the stored row. *)
Definition updateAlertStatus_data (rt : Runtime) (req : Request)
    (status : string) (actionTaken : option (option string)) (a : Alert) : Alert :=
  let resolved := String.eqb status "RESOLVED" in
  {| alert_id := alert_id a;
     alert_type := alert_type a;
     alert_severity := alert_severity a;
     alert_title := alert_title a;
     alert_message := alert_message a;
     alert_module := alert_module a;
     alert_status := status;
     alert_farmId := alert_farmId a;
     alert_assignedToId := alert_assignedToId a;
     alert_actionTaken := written actionTaken (alert_actionTaken a);
     alert_resolvedBy :=
       if resolved
       then written (option_map Some (userId req)) (alert_resolvedBy a)
       else alert_resolvedBy a;
     alert_resolvedAt := if resolved then Some (now rt) else alert_resolvedAt a;
     alert_createdAt := alert_createdAt a |}.

Definition updateAlertStatus (rt : Runtime) (req : Request) (db : Db)
  : Response Alert * Db :=
  let id := param "id" req in
  let status := field "status" (body req) in
  let actionTaken := field "actionTaken" (body req) in
  if negb (truthy status) then (fail 400 "Status is required", db)
  else
    match
      query rt 0
        (s <- asString status ;;
         t <- asOptionalString actionTaken ;;
         update alert_id id (updateAlertStatus_data rt req s t) (alerts db))
    with
    | Resolved (alert, alerts') =>
        (ok_msg 200 "Alert updated successfully" alert, set_alerts db alerts')
    | Rejected => (fail 500 "Failed to update alert", db)
    end.

(** The [data] object of [assignAlert], applied to the stored row. *)
Definition assignAlert_data (assignedToId : Id) (a : Alert) : Alert :=
  {| alert_id := alert_id a;
     alert_type := alert_type a;
     alert_severity := alert_severity a;
     alert_title := alert_title a;
     alert_message := alert_message a;
     alert_module := alert_module a;
     alert_status := "ACKNOWLEDGED";
     alert_farmId := alert_farmId a;
     alert_assignedToId := Some assignedToId;
     alert_actionTaken := alert_actionTaken a;
     alert_resolvedBy := alert_resolvedBy a;
     alert_resolvedAt := alert_resolvedAt a;
     alert_createdAt := alert_createdAt a |}.

Definition assignAlert (rt : Runtime) (req : Request) (db : Db)
  : Response Alert * Db :=
  let id := param "id" req in
  let assignedToId := field "assignedToId" (body req) in
  if negb (truthy assignedToId) then (fail 400 "User ID is required", db)
  else
    match
      query rt 0
        (uid <- asString assignedToId ;;
         update alert_id id (assignAlert_data uid) (alerts db))
    with
    | Resolved (alert, alerts') =>
        (ok_msg 200 "Alert assigned successfully" alert, set_alerts db alerts')
    | Rejected => (fail 500 "Failed to assign alert", db)
    end.

End AlertController.

Definition set_farms (db : Db) (l : list Farm) : Db :=
  {| users := users db; farms := l; herds := herds db; animals := animals db;
     healthEvents := healthEvents db; parks := parks db;
     wildlifePopulations := wildlifePopulations db; patrols := patrols db;
     incidents := incidents db; wildlifeSightings := wildlifeSightings db;
     landZones := landZones db; landChanges := landChanges db;
     landSurveys := landSurveys db; alerts := alerts db; reports := reports db;
     activities := activities db |}.

Definition set_herds (db : Db) (l : list Herd) : Db :=
  {| users := users db; farms := farms db; herds := l; animals := animals db;
     healthEvents := healthEvents db; parks := parks db;
     wildlifePopulations := wildlifePopulations db; patrols := patrols db;
     incidents := incidents db; wildlifeSightings := wildlifeSightings db;
     landZones := landZones db; landChanges := landChanges db;
     landSurveys := landSurveys db; alerts := alerts db; reports := reports db;
     activities := activities db |}.

(** ** Farm controller

    An [include] option attaches related rows to each row a query
    returns; it selects no rows, and the responses below carry the rows
    without their attachments. *)

Module FarmController.

(** The [where] object of [getFarms]. *)
Definition getFarms_where (req : Request) (f : Farm) : bool :=
  let userId := userId req in
  AND [ spread (notAdmin req) (equals userId (farm_ownerId f)) ].

Definition getFarms (rt : Runtime) (req : Request) (db : Db) : Response (list Farm) :=
  match
    query rt 0
      (Resolved (orderBy (desc farm_createdAt) (filter (getFarms_where req) (farms db))))
  with
  | Resolved farms => ok farms
  | Rejected => fail 500 "Failed to get farms"
  end.

Definition getFarmById (rt : Runtime) (req : Request) (db : Db) : Response Farm :=
  let id := param "id" req in
  match query rt 0 (Resolved (findUnique farm_id id (farms db))) with
  | Resolved None => fail 404 "Farm not found"
  | Resolved (Some farm) => ok farm
  | Rejected => fail 500 "Failed to get farm"
  end.

Definition createFarm (rt : Runtime) (req : Request) (db : Db) : Response Farm * Db :=
  let name := field "name" (body req) in
  let description := field "description" (body req) in
  let location := field "location" (body req) in
  let latitude := field "latitude" (body req) in
  let longitude := field "longitude" (body req) in
  let area := field "area" (body req) in
  let ownerId := userId req in
  if negb (truthy name) || negb (truthy location)
     || negb (truthy latitude) || negb (truthy longitude)
  then (fail 400 "Please provide all required fields", db)
  else
    match
      query rt 0
        (name <- asString name ;;
         description <- asOptionalString description ;;
         location <- asString location ;;
         latitude <- asNumber latitude ;;
         longitude <- asNumber longitude ;;
         area <- asNumber (if truthy area then area else Some (JNum 0)) ;;
         ownerId <- required ownerId ;;
         create farm_id
                  {| farm_id := newId rt;
                     farm_name := name;
                     farm_description := written description None;
                     farm_location := location;
                     farm_latitude := latitude;
                     farm_longitude := longitude;
                     farm_area := area;
                     farm_ownerId := ownerId;
                     farm_createdAt := now rt |}
                  (farms db))
    with
    | Resolved (farm, farms') =>
        (ok_msg 201 "Farm created successfully" farm, set_farms db farms')
    | Rejected => (fail 500 "Failed to create farm", db)
    end.

Definition getHerds (rt : Runtime) (req : Request) (db : Db) : Response (list Herd) :=
  let farmId := param "farmId" req in
  match
    query rt 0
      (Resolved (orderBy (desc herd_createdAt)
                   (filter (fun h => AND [ equals (Some farmId) (herd_farmId h) ]) (herds db))))
  with
  | Resolved herds => ok herds
  | Rejected => fail 500 "Failed to get herds"
  end.

Definition createHerd (rt : Runtime) (req : Request) (db : Db) : Response Herd * Db :=
  let farmId := param "farmId" req in
  let name := field "name" (body req) in
  let description := field "description" (body req) in
  let animalType := field "animalType" (body req) in
  let totalCount := field "totalCount" (body req) in
  if negb (truthy name) || negb (truthy animalType) || negb (truthy totalCount)
  then (fail 400 "Please provide all required fields", db)
  else
    match
      query rt 0
        (name <- asString name ;;
         description <- asOptionalString description ;;
         animalType <- asString animalType ;;
         totalCount <- asNumber totalCount ;;
         create herd_id
                  {| herd_id := newId rt;
                     herd_name := name;
                     herd_description := written description None;
                     herd_animalType := animalType;
                     herd_totalCount := totalCount;
                     herd_healthyCount := totalCount;
                     herd_sickCount := 0;
                     herd_missingCount := 0;
                     herd_farmId := farmId;
                     herd_createdAt := now rt;
                     herd_updatedAt := now rt |}
                  (herds db))
    with
    | Resolved (herd, herds') =>
        (ok_msg 201 "Herd created successfully" herd, set_herds db herds')
    | Rejected => (fail 500 "Failed to create herd", db)
    end.

Definition getAnimals (rt : Runtime) (req : Request) (db : Db) : Response (list Animal) :=
  let herdId := param "herdId" req in
  match
    query rt 0
      (Resolved (orderBy (desc animal_createdAt)
                   (filter (fun a => AND [ equals (Some herdId) (animal_herdId a) ])
                      (animals db))))
  with
  | Resolved animals => ok animals
  | Rejected => fail 500 "Failed to get animals"
  end.

Definition getAnimalById (rt : Runtime) (req : Request) (db : Db) : Response Animal :=
  let id := param "id" req in
  match query rt 0 (Resolved (findUnique animal_id id (animals db))) with
  | Resolved None => fail 404 "Animal not found"
  | Resolved (Some animal) => ok animal
  | Rejected => fail 500 "Failed to get animal"
  end.

End FarmController.

(** ** Park controller *)

Module ParkController.

(** The [where] object of [getParks]. *)
Definition getParks_where (req : Request) (p : Park) : bool :=
  let userId := userId req in
  AND [ spread (notAdmin req) (equals userId (park_managerId p)) ].

Definition getParks (rt : Runtime) (req : Request) (db : Db) : Response (list Park) :=
  match
    query rt 0
      (Resolved (orderBy (desc park_createdAt) (filter (getParks_where req) (parks db))))
  with
  | Resolved parks => ok parks
  | Rejected => fail 500 "Failed to get parks"
  end.

Definition getParkById (rt : Runtime) (req : Request) (db : Db) : Response Park :=
  let id := param "id" req in
  match query rt 0 (Resolved (findUnique park_id id (parks db))) with
  | Resolved None => fail 404 "Park not found"
  | Resolved (Some park) => ok park
  | Rejected => fail 500 "Failed to get park"
  end.

End ParkController.

(** ** A database to run the handlers on

    A small database in the shape of what [utils/seed.ts] inserts:
    the users, three farms with herds and a few animals, a park, four
    land zones and five alerts. *)

Module Seed.

Definition mkUser (id email firstName lastName role status : string) : User :=
  {| user_id := id; user_email := email; user_password := "hash:" ++ firstName;
     user_firstName := firstName; user_lastName := lastName; user_role := role;
     user_status := status; user_services := None; user_lastLoginAt := None |}.

Definition admin : User := mkUser "u-admin" "admin@kube.africa" "System" "Admin" "ADMIN" "ACTIVE".
Definition farmer1 : User := mkUser "u-farmer1" "farmer@kube.africa" "Jean" "Mugabo" "FARMER" "ACTIVE".
Definition farmer2 : User := mkUser "u-farmer2" "farmer2@kube.africa" "Grace" "Uwase" "FARMER" "ACTIVE".
Definition ranger : User := mkUser "u-ranger" "ranger@kube.africa" "Patrick" "Habimana" "RANGER" "ACTIVE".
Definition analyst : User :=
  mkUser "u-analyst" "analyst@kube.africa" "Sarah" "Ingabire" "ANALYST" "SUSPENDED".

Definition mkFarm (id name location owner : string) (createdAt : Z) : Farm :=
  {| farm_id := id; farm_name := name; farm_description := None;
     farm_location := location; farm_latitude := -2; farm_longitude := 30;
     farm_area := 250; farm_ownerId := owner; farm_createdAt := createdAt |}.

Definition farm1 : Farm :=
  mkFarm "f-1" "Bugesera Valley Farm" "Bugesera District, Eastern Province" "u-farmer1" 1000.
Definition farm2 : Farm :=
  mkFarm "f-2" "Kayonza Livestock Center" "Kayonza District, Eastern Province" "u-farmer2" 2000.
Definition farm3 : Farm :=
  mkFarm "f-3" "Nyagatare Cattle Ranch" "Nyagatare District, Eastern Province" "u-admin" 3000.

Definition mkHerd (id name farm : string) (total : Z) (updatedAt : Z) : Herd :=
  {| herd_id := id; herd_name := name; herd_description := None;
     herd_animalType := "CATTLE"; herd_totalCount := total; herd_healthyCount := total;
     herd_sickCount := 0; herd_missingCount := 0; herd_farmId := farm;
     herd_createdAt := updatedAt; herd_updatedAt := updatedAt |}.

Definition herd1 : Herd := mkHerd "h-1" "Ankole Herd A" "f-1" 3 1100.
Definition herd2 : Herd := mkHerd "h-2" "Friesian Dairy Herd" "f-2" 2 2100.

Definition mkAnimal (id status herd : string) (createdAt : Z) : Animal :=
  {| animal_id := id; animal_tagId := "TAG-" ++ id; animal_status := status;
     animal_herdId := herd; animal_createdAt := createdAt |}.

Definition animal1 : Animal := mkAnimal "a-1" "SICK" "h-1" 1201.
Definition animal2 : Animal := mkAnimal "a-2" "HEALTHY" "h-1" 1202.
Definition animal3 : Animal := mkAnimal "a-3" "HEALTHY" "h-1" 1203.
Definition animal4 : Animal := mkAnimal "a-4" "HEALTHY" "h-2" 2201.
Definition animal5 : Animal := mkAnimal "a-5" "MISSING" "h-2" 2202.

Definition park1 : Park :=
  {| park_id := "p-1"; park_name := "Akagera National Park";
     park_managerId := "u-ranger"; park_createdAt := 4000 |}.

Definition mkZone (id name : string) (degradation : Q) (createdAt : Z) : LandZone :=
  {| zone_id := id; zone_name := name; zone_region := "Eastern Province";
     zone_degradationLevel := Some degradation; zone_createdAt := createdAt |}.

Definition zone1 : LandZone := mkZone "z-1" "Bugesera Agricultural Zone" (38 # 1) 5000.
Definition zone2 : LandZone := mkZone "z-2" "Nyagatare Rangeland" (22 # 1) 5100.
Definition zone3 : LandZone := mkZone "z-3" "Gishwati Forest Buffer" (12 # 1) 5200.
Definition zone4 : LandZone := mkZone "z-4" "Kirehe Dry Corridor" (60 # 1) 5300.

Definition mkAlert (id severity title module status : string)
    (farm assignee : option Id) (createdAt : Z) : Alert :=
  {| alert_id := id; alert_type := "HEALTH"; alert_severity := severity;
     alert_title := title; alert_message := title; alert_module := module;
     alert_status := status; alert_farmId := farm; alert_assignedToId := assignee;
     alert_actionTaken := None; alert_resolvedBy := None; alert_resolvedAt := None;
     alert_createdAt := createdAt |}.

Definition alert1 : Alert :=
  mkAlert "al-1" "CRITICAL" "Fever Detected in Multiple Animals" "farm" "NEW"
    (Some "f-1") None 6000.
Definition alert2 : Alert :=
  mkAlert "al-2" "WARNING" "Missing Animals Detected" "farm" "ACKNOWLEDGED"
    (Some "f-1") (Some "u-farmer1") 6100.
Definition alert3 : Alert :=
  mkAlert "al-3" "WARNING" "Pasture Degradation Warning" "farm" "NEW"
    (Some "f-1") None 6200.
Definition alert4 : Alert :=
  mkAlert "al-4" "CRITICAL" "Potential Poaching Activity" "park" "IN_PROGRESS"
    None (Some "u-ranger") 6300.
Definition alert5 : Alert :=
  mkAlert "al-5" "WARNING" "Land Degradation Detected" "land" "RESOLVED"
    None None 6400.

Definition db : Db :=
  {| users := [admin; farmer1; farmer2; ranger; analyst];
     farms := [farm1; farm2; farm3];
     herds := [herd1; herd2];
     animals := [animal1; animal2; animal3; animal4; animal5];
     healthEvents := [];
     parks := [park1];
     wildlifePopulations := [];
     patrols := [];
     incidents := [];
     wildlifeSightings := [];
     landZones := [zone1; zone2; zone3; zone4];
     landChanges := [];
     landSurveys := [];
     alerts := [alert1; alert2; alert3; alert4; alert5];
     reports := [];
     activities := [] |}.

(** A persistence layer that takes every query. *)
Definition rt : Runtime :=
  {| now := 7000;
     newId := "new-1";
     newDate := fun v => match v with JNum ms => Some ms | _ => None end;
     jsonParse := fun _ => None;
     bcryptCompare := fun password hash => String.eqb ("hash:" ++ password) hash;
     jwtSign := fun id email role => "jwt:" ++ id ++ ":" ++ role;
     numberToString := fun _ => "1e+21";
     rejects := fun _ => false |}.

(** The alert severities in the order the enum lists them. *)
Definition schema : Schema :=
  {| severityRank := fun s =>
       if String.eqb s "CRITICAL" then 2
       else if String.eqb s "WARNING" then 1
       else 0 |}.

(** The request of user [u] with the given route parameters, query
    string and body. *)
Definition request_of (u : User) (params query : list (string * string))
    (body : list (string * json)) : Request :=
  {| user := Some {| auth_id := user_id u; auth_role := user_role u |};
     params := params; query_string := query; body := body |}.

(** The same runtime, with the persistence layer rejecting query [k]. *)
Definition rt_rejecting (k : nat) : Runtime :=
  {| now := now rt;
     newId := newId rt;
     newDate := newDate rt;
     jsonParse := jsonParse rt;
     bcryptCompare := bcryptCompare rt;
     jwtSign := jwtSign rt;
     numberToString := numberToString rt;
     rejects := Nat.eqb k |}.

(** A login request: no bearer token, the credentials in the body. *)
Definition login_as (email password : string) : Request :=
  {| user := None; params := []; query_string := [];
     body := [("email", JStr email); ("password", JStr password)] |}.

End Seed.

Definition set_reports (db : Db) (l : list Report) : Db :=
  {| users := users db; farms := farms db; herds := herds db; animals := animals db;
     healthEvents := healthEvents db; parks := parks db;
     wildlifePopulations := wildlifePopulations db; patrols := patrols db;
     incidents := incidents db; wildlifeSightings := wildlifeSightings db;
     landZones := landZones db; landChanges := landChanges db;
     landSurveys := landSurveys db; alerts := alerts db; reports := l;
     activities := activities db |}.

(** ** Report controller *)

Module ReportController.

Definition getReports (rt : Runtime) (req : Request) (db : Db) : Response (list Report) :=
  let userId := userId req in
  let isAdmin := isAdmin req in
  match
    query rt 0
      (Resolved (orderBy (desc report_generatedAt)
                   (filter (fun r => if negb isAdmin
                                     then AND [ equals userId (report_generatedById r) ]
                                     else true)
                      (reports db))))
  with
  | Resolved reports => ok reports
  | Rejected => fail 500 "Failed to get reports"
  end.


(** [v ? new Date(v) : undefined], written to a nullable date column *)
Definition optionalDate (rt : Runtime) (v : option json) : outcome (option Z) :=
  match v with
  | Some x =>
      if truthy_value x
      then match newDate rt x with
           | Some t => Resolved (Some t)
           | None => Rejected
           end
      else Resolved None
  | None => Resolved None
  end.

Definition generateReport (rt : Runtime) (req : Request) (db : Db)
  : Response Report * Db :=
  let title := field "title" (body req) in
  let type := field "type" (body req) in
  let module := field "module" (body req) in
  let description := field "description" (body req) in
  let periodStart := field "periodStart" (body req) in
  let periodEnd := field "periodEnd" (body req) in
  let dataSnapshot := field "dataSnapshot" (body req) in
  let charts := field "charts" (body req) in
  let userId := userId req in
  if negb (truthy title) || negb (truthy type)
     || negb (truthy module) || negb (truthy dataSnapshot)
  then (fail 400 "Please provide all required fields", db)
  else
    match
      query rt 0
        (title <- asString title ;;
         type <- asString type ;;
         module <- asString module ;;
         description <- asOptionalString description ;;
         periodStart <- optionalDate rt periodStart ;;
         periodEnd <- optionalDate rt periodEnd ;;
         dataSnapshot <- required (option_map (string_or_stringify (numberToString rt))
                                     dataSnapshot) ;;
         generatedById <- required userId ;;
         create report_id
                  {| report_id := newId rt;
                     report_title := title;
                     report_type := type;
                     report_module := module;
                     report_description := written description None;
                     report_periodStart := periodStart;
                     report_periodEnd := periodEnd;
                     report_dataSnapshot := dataSnapshot;
                     report_charts :=
                       if truthy charts
                       then option_map (string_or_stringify (numberToString rt)) charts
                       else None;
                     report_generatedById := generatedById;
                     report_generatedAt := now rt |}
                  (reports db))
    with
    | Resolved (report, reports') =>
        (ok_msg 201 "Report generated successfully" report, set_reports db reports')
    | Rejected => (fail 500 "Failed to generate report", db)
    end.

End ReportController.

Definition set_users (db : Db) (l : list User) : Db :=
  {| users := l; farms := farms db; herds := herds db; animals := animals db;
     healthEvents := healthEvents db; parks := parks db;
     wildlifePopulations := wildlifePopulations db; patrols := patrols db;
     incidents := incidents db; wildlifeSightings := wildlifeSightings db;
     landZones := landZones db; landChanges := landChanges db;
     landSurveys := landSurveys db; alerts := alerts db; reports := reports db;
     activities := activities db |}.

(** ** Authentication controller *)

Module AuthController.

(** The user as [login] returns it: the row without its password, the
    services parsed. *)
Record UserData : Type := {
  data_id : Id;
  data_email : string;
  data_firstName : string;
  data_lastName : string;
  data_role : string;
  data_status : string;
  data_services : json;
  data_lastLoginAt : option Z
}.

Record LoginData : Type := {
  login_user : UserData;
  login_token : string
}.

(** [data: { lastLoginAt: new Date() }] *)
Definition login_data (rt : Runtime) (u : User) : User :=
  {| user_id := user_id u;
     user_email := user_email u;
     user_password := user_password u;
     user_firstName := user_firstName u;
     user_lastName := user_lastName u;
     user_role := user_role u;
     user_status := user_status u;
     user_services := user_services u;
     user_lastLoginAt := Some (now rt) |}.

(** [userData.services ? JSON.parse(userData.services) : []] *)
Definition parsedServices (rt : Runtime) (u : User) : outcome json :=
  match user_services u with
  | Some s => if String.eqb s "" then Resolved (JArr []) else required (jsonParse rt s)
  | None => Resolved (JArr [])
  end.

Definition login (rt : Runtime) (req : Request) (db : Db) : Response LoginData * Db :=
  let email := field "email" (body req) in
  let password := field "password" (body req) in
  if negb (truthy email) || negb (truthy password)
  then (fail 400 "Please provide email and password", db)
  else
    match
      query rt 0
        (email <- asString email ;;
         Resolved (find (fun u => String.eqb (user_email u) email) (users db)))
    with
    | Rejected => (fail 500 "Login failed", db)
    | Resolved None => (fail 401 "Invalid credentials", db)
    | Resolved (Some user) =>
        match
          password <- asString password ;;
          Resolved (bcryptCompare rt password (user_password user))
        with
        | Rejected => (fail 500 "Login failed", db)
        | Resolved false => (fail 401 "Invalid credentials", db)
        | Resolved true =>
            if negb (String.eqb (user_status user) "ACTIVE")
            then (fail 401 "Account is not active", db)
            else
              match query rt 1 (update user_id (user_id user) (login_data rt) (users db)) with
              | Rejected => (fail 500 "Login failed", db)
              | Resolved (_, users') =>
                  let token := jwtSign rt (user_id user) (user_email user) (user_role user) in
                  match parsedServices rt user with
                  | Rejected => (fail 500 "Login failed", set_users db users')
                  | Resolved services =>
                      (ok_msg 200 "Login successful"
                         {| login_user :=
                              {| data_id := user_id user;
                                 data_email := user_email user;
                                 data_firstName := user_firstName user;
                                 data_lastName := user_lastName user;
                                 data_role := user_role user;
                                 data_status := user_status user;
                                 data_services := services;
                                 data_lastLoginAt := user_lastLoginAt user |};
                            login_token := token |},
                       set_users db users')
                  end
              end
        end
    end.

End AuthController.

(** ** Dashboard controller *)

(** [Promise.all([p, q, ...])], built from the pair. *)
Notation "p <&> q" := (both p q) (at level 60, right associativity).

(** [cond ? where : undefined] *)
Definition unless (isAdmin : bool) (c : clause) : bool :=
  if negb isAdmin then AND [c] else true.

(** [{ column: { gte: value } }] *)
Definition gte (value column : Z) : clause := Some (value <=? column).

(** [{ column: { in: values } }] *)
Definition isIn (values : list string) (column : string) : clause :=
  Some (existsb (String.eqb column) values).

(** [groupBy({ by: [key] })]: one group per value of the key, with the
    rows that carry it.  The query fixes no order of the groups; here
    they come in the order in which the values last occur. *)
Definition groupBy {A : Type} (key : A -> string) (rows : list A) : list (string * list A) :=
  map (fun k => (k, filter (fun r => String.eqb (key r) k) rows))
      (nodup string_dec (map key rows)).

Definition sum (l : list Z) : Z := fold_right Z.add 0 l.

(** [_avg] over a nullable column: the mean of the values that are not
    null, as an exact fraction; null when there is none. *)
Definition avg (l : list (option Q)) : option Q :=
  let values := flat_map (fun v => match v with Some q => [q] | None => [] end) l in
  match values with
  | [] => None
  | _ => Some (fold_right Qplus (0 # 1) values / inject_Z (Z.of_nat (List.length values)))%Q
  end.

Module DashboardController.

Record OverviewStats : Type := {
  stat_farms : Z;
  stat_herds : Z;
  stat_animals : Z;
  stat_parks : Z;
  stat_wildlife : Z;
  stat_landZones : Z;
  stat_activeAlerts : Z
}.

Record Overview : Type := {
  overview_stats : OverviewStats;
  overview_recentActivities : list Activity
}.

Definition getOverviewStats (rt : Runtime) (req : Request) (db : Db) : Response Overview :=
  let userId := userId req in
  let isAdmin := isAdmin req in
  match
    query rt 0
      (Resolved (count (fun f => unless isAdmin (equals userId (farm_ownerId f))) (farms db)))
    <&> query rt 1
      (Resolved (count (fun h => unless isAdmin (farm_ownedBy db userId (Some (herd_farmId h))))
                   (herds db)))
    <&> query rt 2
      (Resolved (count (fun a => unless isAdmin (herd_farm_ownedBy db userId (animal_herdId a)))
                   (animals db)))
    <&> query rt 3
      (Resolved (count (fun p => unless isAdmin (equals userId (park_managerId p))) (parks db)))
    <&> query rt 4
      (Resolved (count (fun w => unless isAdmin (park_managedBy db userId (population_parkId w)))
                   (wildlifePopulations db)))
    <&> query rt 5 (Resolved (count (fun _ => true) (landZones db)))
    <&> query rt 6
      (Resolved (count (fun a => AND [ isNot "RESOLVED" (alert_status a);
                                       spread (negb isAdmin)
                                         (equals_nullable userId (alert_assignedToId a)) ])
                   (alerts db)))
    <&> query rt 7
      (Resolved (take 10 (orderBy (desc activity_timestamp)
                            (filter (fun a => unless isAdmin (equals userId (activity_userId a)))
                               (activities db)))))
  with
  | Resolved (farmsCount, (herdsCount, (animalsCount, (parksCount, (wildlifeCount,
              (landZonesCount, (activeAlerts, recentActivities))))))) =>
      ok {| overview_stats :=
              {| stat_farms := farmsCount;
                 stat_herds := herdsCount;
                 stat_animals := animalsCount;
                 stat_parks := parksCount;
                 stat_wildlife := wildlifeCount;
                 stat_landZones := landZonesCount;
                 stat_activeAlerts := activeAlerts |};
            overview_recentActivities := recentActivities |}
  | Rejected => fail 500 "Failed to get overview statistics"
  end.

(** [total > 0 ? ((part / total) * 100).toFixed(1) : '0'] *)
Definition healthRate (rt : Runtime) (part total : Z) : string :=
  if 0 <? total
  then toFixed1 (numberToString rt)
         (number_mul (number_div (Number part) (Number total)) (Number 100))
  else "0".

Record FarmStats : Type := {
  stat_totalAnimals : Z;
  stat_healthyAnimals : Z;
  stat_sickAnimals : Z;
  stat_missingAnimals : Z;
  stat_healthRate : string
}.

Record FarmDashboard : Type := {
  farm_stats : FarmStats;
  farm_herds : list Herd;
  farm_recentAlerts : list Alert;
  farm_healthTrend : list (string * Z)
}.

Definition days (n : Z) : Z := n * 24 * 60 * 60 * 1000.

Definition getFarmDashboard (rt : Runtime) (req : Request) (db : Db)
  : Response FarmDashboard :=
  let userId := userId req in
  let isAdmin := isAdmin req in
  let animal_owned a := spread (negb isAdmin) (herd_farm_ownedBy db userId (animal_herdId a)) in
  match
    query rt 0
      (Resolved (count (fun a => unless isAdmin (herd_farm_ownedBy db userId (animal_herdId a)))
                   (animals db)))
    <&> query rt 1
      (Resolved (count (fun a => AND [ equals (Some "HEALTHY") (animal_status a); animal_owned a ])
                   (animals db)))
    <&> query rt 2
      (Resolved (count (fun a => AND [ equals (Some "SICK") (animal_status a); animal_owned a ])
                   (animals db)))
    <&> query rt 3
      (Resolved (count (fun a => AND [ equals (Some "MISSING") (animal_status a); animal_owned a ])
                   (animals db)))
    <&> query rt 4
      (Resolved (take 10 (orderBy (desc herd_updatedAt)
                            (filter (fun h => unless isAdmin
                                                (farm_ownedBy db userId (Some (herd_farmId h))))
                               (herds db)))))
    <&> query rt 5
      (Resolved (take 5 (orderBy (desc alert_createdAt)
                           (filter (fun a => AND [ equals (Some "farm") (alert_module a);
                                                   isNot "RESOLVED" (alert_status a);
                                                   spread (negb isAdmin)
                                                     (farm_ownedBy db userId (alert_farmId a)) ])
                              (alerts db)))))
    <&> query rt 6
      (Resolved (map (fun g => (fst g, Z.of_nat (List.length (snd g))))
                   (groupBy event_type
                      (filter (fun e => AND [ gte (now rt - days 7) (event_detectedAt e);
                                              spread (negb isAdmin)
                                                (animal_herd_farm_ownedBy db userId
                                                   (event_animalId e)) ])
                         (healthEvents db)))))
  with
  | Resolved (totalAnimals, (healthyAnimals, (sickAnimals, (missingAnimals,
              (herds, (recentAlerts, healthTrend)))))) =>
      ok {| farm_stats :=
              {| stat_totalAnimals := totalAnimals;
                 stat_healthyAnimals := healthyAnimals;
                 stat_sickAnimals := sickAnimals;
                 stat_missingAnimals := missingAnimals;
                 stat_healthRate := healthRate rt healthyAnimals totalAnimals |};
            farm_herds := herds;
            farm_recentAlerts := recentAlerts;
            farm_healthTrend := healthTrend |}
  | Rejected => fail 500 "Failed to get farm dashboard data"
  end.

Record ParkStats : Type := {
  stat_parksCount : Z;
  stat_wildlifeSpecies : Z;
  stat_activePatrols : Z;
  stat_incidentsCount : Z
}.

Record ParkDashboard : Type := {
  park_stats : ParkStats;
  park_recentIncidents : list Incident;
  park_wildlifePopulations : list WildlifePopulation;
  park_censusData : list (string * Z)
}.

Definition getParkDashboard (rt : Runtime) (req : Request) (db : Db)
  : Response ParkDashboard :=
  let userId := userId req in
  let isAdmin := isAdmin req in
  match
    query rt 0
      (Resolved (count (fun p => unless isAdmin (equals userId (park_managerId p))) (parks db)))
    <&> query rt 1
      (Resolved (count (fun w => unless isAdmin (park_managedBy db userId (population_parkId w)))
                   (wildlifePopulations db)))
    <&> query rt 2
      (Resolved (count (fun p => AND [ isIn ["SCHEDULED"; "IN_PROGRESS"] (patrol_status p);
                                       spread (negb isAdmin)
                                         (park_managedBy db userId (patrol_parkId p)) ])
                   (patrols db)))
    <&> query rt 3
      (Resolved (take 5 (orderBy (desc incident_reportedAt)
                           (filter (fun i => AND [ isNot "resolved" (incident_status i);
                                                   spread (negb isAdmin)
                                                     (park_managedBy db userId
                                                        (incident_parkId i)) ])
                              (incidents db)))))
    <&> query rt 4
      (Resolved (take 10 (orderBy (desc population_estimatedCount)
                            (filter (fun w => unless isAdmin
                                                (park_managedBy db userId (population_parkId w)))
                               (wildlifePopulations db)))))
    <&> query rt 5
      (Resolved (map (fun g => (fst g, sum (map sighting_count (snd g))))
                   (groupBy sighting_populationId
                      (filter (fun s => AND [ gte (now rt - days 30) (sighting_timestamp s) ])
                         (wildlifeSightings db)))))
  with
  | Resolved (parksCount, (wildlifeSpecies, (activePatrols, (recentIncidents,
              (wildlifePopulations, censusData))))) =>
      ok {| park_stats :=
              {| stat_parksCount := parksCount;
                 stat_wildlifeSpecies := wildlifeSpecies;
                 stat_activePatrols := activePatrols;
                 stat_incidentsCount := Z.of_nat (List.length recentIncidents) |};
            park_recentIncidents := recentIncidents;
            park_wildlifePopulations := wildlifePopulations;
            park_censusData := censusData |}
  | Rejected => fail 500 "Failed to get park dashboard data"
  end.

Record LandStats : Type := {
  stat_totalZones : Z;
  stat_healthyZones : Z;
  stat_degradedZones : Z;
  stat_landHealthRate : string
}.

Record VegetationTrend : Type := {
  trend_zoneId : Id;
  trend_ndvi : option Q;
  trend_healthScore : option Q
}.

Record LandDashboard : Type := {
  land_stats : LandStats;
  land_recentChanges : list LandChange;
  land_vegetationTrend : list VegetationTrend;
  land_zones : list LandZone
}.

(** [{ degradationLevel: { lt: 30 } }]; a comparison never matches a
    null. *)
Definition healthyZone (z : LandZone) : bool :=
  match zone_degradationLevel z with
  | Some level => negb (Qle_bool (30 # 1) level)
  | None => false
  end.

(** [{ degradationLevel: { gte: 60 } }] *)
Definition degradedZone (z : LandZone) : bool :=
  match zone_degradationLevel z with
  | Some level => Qle_bool (60 # 1) level
  | None => false
  end.

(** The zones the two filters leave out: a level from 30 up to, not
    including, 60, and no level at all. *)
Definition betweenZone (z : LandZone) : bool :=
  match zone_degradationLevel z with
  | Some level => Qle_bool (30 # 1) level && negb (Qle_bool (60 # 1) level)
  | None => false
  end.

Definition unmeasuredZone (z : LandZone) : bool :=
  match zone_degradationLevel z with
  | Some _ => false
  | None => true
  end.

Definition getLandDashboard (rt : Runtime) (req : Request) (db : Db)
  : Response LandDashboard :=
  match
    query rt 0 (Resolved (count (fun _ => true) (landZones db)))
    <&> query rt 1 (Resolved (count (fun z => AND [ Some (healthyZone z) ]) (landZones db)))
    <&> query rt 2 (Resolved (count (fun z => AND [ Some (degradedZone z) ]) (landZones db)))
    <&> query rt 3 (Resolved (take 5 (orderBy (desc change_detectedAt) (landChanges db))))
    <&> query rt 4
      (Resolved (map (fun g => {| trend_zoneId := fst g;
                                  trend_ndvi := avg (map survey_ndvi (snd g));
                                  trend_healthScore := avg (map survey_healthScore (snd g)) |})
                   (groupBy survey_zoneId
                      (filter (fun s => AND [ gte (now rt - days 365) (survey_surveyDate s) ])
                         (landSurveys db)))))
    <&> query rt 5 (Resolved (take 20 (landZones db)))
  with
  | Resolved (totalZones, (healthyZones, (degradedZones, (recentChanges,
              (vegetationTrend, zones))))) =>
      ok {| land_stats :=
              {| stat_totalZones := totalZones;
                 stat_healthyZones := healthyZones;
                 stat_degradedZones := degradedZones;
                 stat_landHealthRate := healthRate rt healthyZones totalZones |};
            land_recentChanges := recentChanges;
            land_vegetationTrend := vegetationTrend;
            land_zones := zones |}
  | Rejected => fail 500 "Failed to get land dashboard data"
  end.

End DashboardController.

(** ** Alert controller: statistics *)

Module AlertStatistics.

Record AlertStats : Type := {
  stats_total : Z;
  stats_new : Z;
  stats_acknowledged : Z;
  stats_inProgress : Z;
  stats_resolved : Z
}.

(** [{ status, ...(req.user?.role !== 'ADMIN' && { assignedToId: userId }) }] *)
Definition withStatus (req : Request) (status : string) (a : Alert) : bool :=
  AND [ equals (Some status) (alert_status a);
        spread (notAdmin req) (equals_nullable (userId req) (alert_assignedToId a)) ].

Definition getAlertStats (rt : Runtime) (req : Request) (db : Db) : Response AlertStats :=
  let userId := userId req in
  match
    query rt 0
      (Resolved (count (fun a => if notAdmin req
                                 then AND [ equals_nullable userId (alert_assignedToId a) ]
                                 else true)
                   (alerts db)))
    <&> query rt 1 (Resolved (count (withStatus req "NEW") (alerts db)))
    <&> query rt 2 (Resolved (count (withStatus req "ACKNOWLEDGED") (alerts db)))
    <&> query rt 3 (Resolved (count (withStatus req "IN_PROGRESS") (alerts db)))
    <&> query rt 4 (Resolved (count (withStatus req "RESOLVED") (alerts db)))
  with
  | Resolved (total, (newAlerts, (acknowledged, (inProgress, resolved)))) =>
      ok {| stats_total := total;
            stats_new := newAlerts;
            stats_acknowledged := acknowledged;
            stats_inProgress := inProgress;
            stats_resolved := resolved |}
  | Rejected => fail 500 "Failed to get alert statistics"
  end.

End AlertStatistics.

(** ** Authentication controller: changing the password *)

Module PasswordChange.

(** What [changePassword] calls besides the runtime: [bcrypt.hash] with
    cost 10, and what [obj.length < 6] evaluates to when the new
    password arrives as an object. *)
Record Library : Type := {
  bcryptHash : string -> string;
  objectLengthBelow6 : list (string * json) -> bool
}.

(** [newPassword.length < 6] on a truthy value: the length of a string
    or of an array; a number or a boolean has no length, and
    [undefined < 6] is false. *)
Definition lengthBelow6 (lib : Library) (v : json) : bool :=
  match v with
  | JStr s => Nat.ltb (String.length s) 6
  | JArr items => Nat.ltb (List.length items) 6
  | JObj fields => objectLengthBelow6 lib fields
  | _ => false
  end.

(** [res.json({ success: true, message })] *)
Definition done (m : string) : Response unit :=
  {| statusCode := 200; success := true; message := Some m; data := None |}.

(** [data: { password: hashedPassword }] *)
Definition changePassword_data (hashedPassword : string) (u : User) : User :=
  {| user_id := user_id u;
     user_email := user_email u;
     user_password := hashedPassword;
     user_firstName := user_firstName u;
     user_lastName := user_lastName u;
     user_role := user_role u;
     user_status := user_status u;
     user_services := user_services u;
     user_lastLoginAt := user_lastLoginAt u |}.

Definition changePassword (lib : Library) (rt : Runtime) (req : Request) (db : Db)
  : Response unit * Db :=
  match user req with
  | None => (fail 401 "Not authenticated", db)
  | Some requester =>
      let currentPassword := field "currentPassword" (body req) in
      let newPassword := field "newPassword" (body req) in
      if negb (truthy currentPassword) || negb (truthy newPassword)
      then (fail 400 "Current password and new password are required", db)
      else if match newPassword with Some v => lengthBelow6 lib v | None => false end
      then (fail 400 "New password must be at least 6 characters", db)
      else
        match query rt 0 (Resolved (findUnique user_id (auth_id requester) (users db))) with
        | Rejected => (fail 500 "Failed to change password", db)
        | Resolved None => (fail 404 "User not found", db)
        | Resolved (Some user) =>
            match
              currentPassword <- asString currentPassword ;;
              Resolved (bcryptCompare rt currentPassword (user_password user))
            with
            | Rejected => (fail 500 "Failed to change password", db)
            | Resolved false => (fail 401 "Current password is incorrect", db)
            | Resolved true =>
                match
                  newPassword <- asString newPassword ;;
                  query rt 1
                    (update user_id (auth_id requester)
                       (changePassword_data (bcryptHash lib newPassword)) (users db))
                with
                | Rejected => (fail 500 "Failed to change password", db)
                | Resolved (_, users') =>
                    (done "Password changed successfully", set_users db users')
                end
            end
        end
  end.

End PasswordChange.

(** ** Orders that properties are stated in *)

(** Newest first, by the given timestamp. *)
Definition newest_first {A : Type} (key : A -> Z) (a b : A) : Prop := key b <= key a.

(** ** Scopes that properties are stated in *)

(** The animals the farm dashboard counts for a requester: the [where]
    of its totalAnimals query. *)
Definition animal_in_scope (req : Request) (db : Db) (a : Animal) : bool :=
  unless (isAdmin req) (herd_farm_ownedBy db (userId req) (animal_herdId a)).

(** The alerts the statistics count for a requester: the [where] of
    their total query. *)
Definition alert_counted (req : Request) (a : Alert) : bool :=
  if notAdmin req then AND [ equals_nullable (userId req) (alert_assignedToId a) ] else true.

(** The incidents the park dashboard lists for a requester: the [where]
    of its recentIncidents query. *)
Definition incident_listed (req : Request) (db : Db) (i : Incident) : bool :=
  AND [ isNot "resolved" (incident_status i);
        spread (negb (isAdmin req)) (park_managedBy db (userId req) (incident_parkId i)) ].

(** The health events the farm dashboard groups for a requester: the
    [where] of its healthTrend query. *)
Definition event_in_trend (rt : Runtime) (req : Request) (db : Db) (e : HealthEvent) : bool :=
  AND [ gte (now rt - DashboardController.days 7) (event_detectedAt e);
        spread (negb (isAdmin req))
          (animal_herd_farm_ownedBy db (userId req) (event_animalId e)) ].

(** The sightings the park dashboard sums: the [where] of its
    censusData query. *)
Definition sighting_in_census (rt : Runtime) (s : WildlifeSighting) : bool :=
  AND [ gte (now rt - DashboardController.days 30) (sighting_timestamp s) ].

(** ** Land controller: the lists of a zone *)

Module LandController.

Definition getSurveys (rt : Runtime) (req : Request) (db : Db)
  : Response (list LandSurvey) :=
  let zoneId := param "zoneId" req in
  match
    query rt 0
      (Resolved (orderBy (desc survey_surveyDate)
                   (filter (fun s => AND [ equals (Some zoneId) (survey_zoneId s) ])
                      (landSurveys db))))
  with
  | Resolved surveys => ok surveys
  | Rejected => fail 500 "Failed to get surveys"
  end.

Definition getChanges (rt : Runtime) (req : Request) (db : Db)
  : Response (list LandChange) :=
  let zoneId := param "zoneId" req in
  match
    query rt 0
      (Resolved (orderBy (desc change_detectedAt)
                   (filter (fun c => AND [ equals (Some zoneId) (change_zoneId c) ])
                      (landChanges db))))
  with
  | Resolved changes => ok changes
  | Rejected => fail 500 "Failed to get changes"
  end.

End LandController.

(** The surveys the land dashboard averages: the [where] of its
    vegetationTrend query. *)
Definition survey_in_trend (rt : Runtime) (s : LandSurvey) : bool :=
  AND [ gte (now rt - DashboardController.days 365) (survey_surveyDate s) ].

(** By how much a status update that writes [status] over the alert
    [old] changes the count of the alerts with status [s] that
    [viewer] is shown. *)
Definition moved (viewer : Request) (old : Alert) (status s : string) : Z :=
  Z.b2z (String.eqb status s && alert_counted viewer old)
  - Z.b2z (String.eqb (alert_status old) s && alert_counted viewer old).

(** ** A busier database

    The seed database with the tables it leaves empty filled in, and
    with two more alerts: one that was resolved and stamped, one whose
    status is none of the four the statistics count. *)

Module Scenario.

(** [bcrypt.hash], as [Seed.rt] compares. *)
Definition lib : PasswordChange.Library :=
  {| PasswordChange.bcryptHash := fun password => "hash:" ++ password;
     PasswordChange.objectLengthBelow6 := fun _ => false |}.

Definition mkEvent (id type animal : string) (detectedAt : Z) : HealthEvent :=
  {| event_id := id; event_type := type; event_animalId := animal;
     event_detectedAt := detectedAt |}.

Definition event1 : HealthEvent := mkEvent "e-1" "FEVER" "a-1" 6900.
Definition event2 : HealthEvent := mkEvent "e-2" "INJURY" "a-2" 6910.
Definition event3 : HealthEvent := mkEvent "e-3" "FEVER" "a-4" 6920.
Definition event4 : HealthEvent := mkEvent "e-4" "FEVER" "a-3" (-700000000).

Definition population1 : WildlifePopulation :=
  {| population_id := "w-1"; population_species := "Plains zebra";
     population_estimatedCount := 1200; population_parkId := "p-1" |}.
Definition population2 : WildlifePopulation :=
  {| population_id := "w-2"; population_species := "African elephant";
     population_estimatedCount := 130; population_parkId := "p-1" |}.
Definition population3 : WildlifePopulation :=
  {| population_id := "w-3"; population_species := "Roan antelope";
     population_estimatedCount := 60; population_parkId := "p-1" |}.

Definition patrol1 : Patrol :=
  {| patrol_id := "pt-1"; patrol_status := "SCHEDULED"; patrol_parkId := "p-1" |}.
Definition patrol2 : Patrol :=
  {| patrol_id := "pt-2"; patrol_status := "COMPLETED"; patrol_parkId := "p-1" |}.

Definition mkIncident (id status : string) (reportedAt : Z) : Incident :=
  {| incident_id := id; incident_status := status; incident_parkId := "p-1";
     incident_reportedAt := reportedAt |}.

Definition incident1 : Incident := mkIncident "i-1" "reported" 6010.
Definition incident2 : Incident := mkIncident "i-2" "resolved" 6020.
Definition incident3 : Incident := mkIncident "i-3" "investigating" 6030.
Definition incident4 : Incident := mkIncident "i-4" "reported" 6040.
Definition incident5 : Incident := mkIncident "i-5" "reported" 6050.
Definition incident6 : Incident := mkIncident "i-6" "investigating" 6060.
Definition incident7 : Incident := mkIncident "i-7" "reported" 6070.

Definition mkSighting (id population : string) (n timestamp : Z) : WildlifeSighting :=
  {| sighting_id := id; sighting_populationId := population; sighting_count := n;
     sighting_timestamp := timestamp |}.

Definition sighting1 : WildlifeSighting := mkSighting "s-1" "w-1" 12 6000.
Definition sighting2 : WildlifeSighting := mkSighting "s-2" "w-2" 3 6100.
Definition sighting3 : WildlifeSighting := mkSighting "s-3" "w-1" 8 6200.
Definition sighting4 : WildlifeSighting := mkSighting "s-4" "w-1" 40 (-3000000000).
Definition sighting5 : WildlifeSighting := mkSighting "s-5" "w-3" 0 6300.

Definition mkChange (id zone : string) (detectedAt : Z) : LandChange :=
  {| change_id := id; change_zoneId := zone; change_detectedAt := detectedAt |}.

Definition change1 : LandChange := mkChange "c-1" "z-1" 5600.
Definition change2 : LandChange := mkChange "c-2" "z-2" 5610.
Definition change3 : LandChange := mkChange "c-3" "z-1" 5620.
Definition change4 : LandChange := mkChange "c-4" "z-3" 5630.
Definition change5 : LandChange := mkChange "c-5" "z-1" 5640.
Definition change6 : LandChange := mkChange "c-6" "z-2" 5650.

Definition mkSurvey (id zone : string) (ndvi healthScore : option Q) (surveyDate : Z)
  : LandSurvey :=
  {| survey_id := id; survey_zoneId := zone; survey_ndvi := ndvi;
     survey_healthScore := healthScore; survey_surveyDate := surveyDate |}.

Definition survey1 : LandSurvey := mkSurvey "sv-1" "z-1" (Some (31 # 50)) (Some (70 # 1)) 6000.
Definition survey2 : LandSurvey := mkSurvey "sv-2" "z-1" (Some (29 # 50)) None 6500.
Definition survey3 : LandSurvey := mkSurvey "sv-3" "z-2" None None 6600.
Definition survey4 : LandSurvey :=
  mkSurvey "sv-4" "z-3" (Some (1 # 2)) (Some (50 # 1)) (-40000000000).

(** Alert al-6 was resolved by the administrator; al-7 carries a status
    of its own. *)
Definition alert6 : Alert :=
  {| alert_id := "al-6"; alert_type := "HEALTH"; alert_severity := "INFO";
     alert_title := "Vaccination due"; alert_message := "Vaccination due";
     alert_module := "farm"; alert_status := "RESOLVED"; alert_farmId := Some "f-2";
     alert_assignedToId := Some "u-farmer2"; alert_actionTaken := Some "Herd vaccinated";
     alert_resolvedBy := Some "u-admin"; alert_resolvedAt := Some 6450;
     alert_createdAt := 6410 |}.
Definition alert7 : Alert :=
  Seed.mkAlert "al-7" "INFO" "Water trough empty" "farm" "DISMISSED"
    (Some "f-1") (Some "u-farmer1") 6420.

Definition mkReport (id title author : string) (generatedAt : Z) : Report :=
  {| report_id := id; report_title := title; report_type := "MONTHLY";
     report_module := "farm"; report_description := None; report_periodStart := None;
     report_periodEnd := None; report_dataSnapshot := "{}"; report_charts := None;
     report_generatedById := author; report_generatedAt := generatedAt |}.

Definition report1 : Report := mkReport "r-1" "Herd health, March" "u-farmer1" 6500.
Definition report2 : Report := mkReport "r-2" "Milk yield, March" "u-farmer2" 6600.
Definition report3 : Report := mkReport "r-3" "Herd health, April" "u-farmer1" 6700.

Definition mkActivity (id user : string) (timestamp : Z) : Activity :=
  {| activity_id := id; activity_userId := user; activity_timestamp := timestamp |}.

Definition activityLog : list Activity :=
  [ mkActivity "act-1" "u-farmer1" 6801; mkActivity "act-2" "u-admin" 6802;
    mkActivity "act-3" "u-farmer1" 6803; mkActivity "act-4" "u-admin" 6804;
    mkActivity "act-5" "u-ranger" 6805; mkActivity "act-6" "u-admin" 6806;
    mkActivity "act-7" "u-farmer1" 6807; mkActivity "act-8" "u-admin" 6808;
    mkActivity "act-9" "u-ranger" 6809; mkActivity "act-10" "u-admin" 6810;
    mkActivity "act-11" "u-farmer2" 6811; mkActivity "act-12" "u-admin" 6812 ].

Definition db : Db :=
  {| users := users Seed.db;
     farms := farms Seed.db;
     herds := herds Seed.db;
     animals := animals Seed.db;
     healthEvents := [event1; event2; event3; event4];
     parks := parks Seed.db;
     wildlifePopulations := [population1; population2; population3];
     patrols := [patrol1; patrol2];
     incidents := [incident1; incident2; incident3; incident4; incident5; incident6;
                   incident7];
     wildlifeSightings := [sighting1; sighting2; sighting3; sighting4; sighting5];
     landZones := landZones Seed.db;
     landChanges := [change1; change2; change3; change4; change5; change6];
     landSurveys := [survey1; survey2; survey3; survey4];
     alerts := (alerts Seed.db ++ [alert6; alert7])%list;
     reports := [report1; report2; report3];
     activities := activityLog |}.

(** A herd of [total] animals, the first [healthy] of them healthy and
    the others sick, and the seed database with these for its animals. *)
Definition herd_of (healthy total : nat) : list Animal :=
  map (fun k => Seed.mkAnimal ("t-" ++ number_to_string (Z.of_nat k))
                  (if Nat.ltb k healthy then "HEALTHY" else "SICK") "h-1" (Z.of_nat k))
      (seq 0 total).

Definition with_animals (l : list Animal) : Db :=
  {| users := users Seed.db; farms := farms Seed.db; herds := herds Seed.db;
     animals := l; healthEvents := healthEvents Seed.db; parks := parks Seed.db;
     wildlifePopulations := wildlifePopulations Seed.db; patrols := patrols Seed.db;
     incidents := incidents Seed.db; wildlifeSightings := wildlifeSightings Seed.db;
     landZones := landZones Seed.db; landChanges := landChanges Seed.db;
     landSurveys := landSurveys Seed.db; alerts := alerts Seed.db;
     reports := reports Seed.db; activities := activities Seed.db |}.

(** The seed database with the given land zones. *)
Definition with_zones (l : list LandZone) : Db :=
  {| users := users Seed.db; farms := farms Seed.db; herds := herds Seed.db;
     animals := animals Seed.db; healthEvents := healthEvents Seed.db;
     parks := parks Seed.db; wildlifePopulations := wildlifePopulations Seed.db;
     patrols := patrols Seed.db; incidents := incidents Seed.db;
     wildlifeSightings := wildlifeSightings Seed.db; landZones := l;
     landChanges := landChanges Seed.db; landSurveys := landSurveys Seed.db;
     alerts := alerts Seed.db; reports := reports Seed.db;
     activities := activities Seed.db |}.

(** A zone as [createLandZone] leaves it: no degradation level. *)
Definition zone5 : LandZone :=
  {| zone_id := "z-5"; zone_name := "Rusizi Wetland"; zone_region := "Western Province";
     zone_degradationLevel := None; zone_createdAt := 5400 |}.

(** A request to change the password, from [u]. *)
Definition changePassword_as (u : User) (currentPassword newPassword : string) : Request :=
  Seed.request_of u [] []
    [("currentPassword", JStr currentPassword); ("newPassword", JStr newPassword)].

End Scenario.

(** ** Filters that properties are stated in *)

(** The alert has the status, type, severity and module that the query
    string asks for, for each of these that it gives a non-empty value
    for. *)
Definition passes_filters (req : Request) (a : Alert) : Prop :=
  forall key column,
    In (key, column)
       [("status", alert_status a); ("type", alert_type a);
        ("severity", alert_severity a); ("module", alert_module a)] ->
    forall v, lookup key (query_string req) = Some v -> v <> "" -> column = v.

(* ================================================================== *)
(** * Part II.  Properties                                            *)
(* ================================================================== *)

Import AlertController FarmController ParkController.
Import ReportController AuthController DashboardController.

(** ** The persistence layer's combinators *)

Section Tables.

Context {A : Type} (id_of : A -> Id).

Lemma update_resolved (id : Id) (change : A -> A) (table : list A) (r : A) (table' : list A) :
  (forall x, id_of (change x) = id_of x) ->
  update id_of id change table = Resolved (r, table') ->
  exists old,
    findUnique id_of id table = Some old /\
    r = change old /\
    findUnique id_of id table' = Some (change old) /\
    (forall other, other <> id -> findUnique id_of other table' = findUnique id_of other table) /\
    List.length table' = List.length table.
Proof.
  intros Hid. revert r table'.
  induction table as [|x rest IH]; intros r table' H; simpl in H; [discriminate|].
  unfold findUnique in *. simpl.
  destruct (String.eqb (id_of x) id) eqn:E.
  - inversion H; subst. exists x. simpl. rewrite Hid, E.
    repeat split; auto.
    intros other Hne. destruct (String.eqb (id_of x) other) eqn:E'; auto.
    apply String.eqb_eq in E, E'. congruence.
  - destruct (update id_of id change rest) as [[r0 rest0]|] eqn:U; [|discriminate].
    inversion H; subst. destruct (IH _ _ eq_refl) as (old & F & R & F' & Fr & L).
    exists old. simpl. rewrite E. repeat split; auto.
    intros other Hne. destruct (String.eqb (id_of x) other); auto.
Qed.

Lemma update_found (id : Id) (change : A -> A) (table : list A) (old : A) :
  findUnique id_of id table = Some old ->
  exists table', update id_of id change table = Resolved (change old, table').
Proof.
  unfold findUnique. induction table as [|x rest IH]; simpl; [discriminate|].
  destruct (String.eqb (id_of x) id).
  - intros H; inversion H; subst. eauto.
  - intros H. destruct (IH H) as (t' & ->). eauto.
Qed.

End Tables.

(** ** Alert lifecycle *)

Section AlertLifecycle.

Import AlertController.

Lemma alert_id_kept_by_assign (uid : Id) (a : Alert) :
  alert_id (assignAlert_data uid a) = alert_id a.
Proof. reflexivity. Qed.

Lemma truthy_JStr (s : string) : truthy (Some (JStr s)) = true <-> s <> "".
Proof.
  simpl. destruct (String.eqb_spec s ""); simpl; split; intros; congruence.
Qed.

(** C6.  Whatever the status of an alert was (NEW, ACKNOWLEDGED,
    IN_PROGRESS, RESOLVED or anything else the column holds), an assign
    request on it succeeds exactly when the request carries a non-empty
    user id and the persistence layer takes the write, and a successful
    assign leaves the alert with status ACKNOWLEDGED and with
    assignedToId equal to the supplied user id. *)
Theorem assignAlert_forces_acknowledged
    (rt : Runtime) (req : Request) (db : Db) (old : Alert) :
  findUnique alert_id (param "id" req) (alerts db) = Some old ->
  let r := assignAlert rt req db in
  (statusCode (fst r) = 200 <->
     rejects rt 0%nat = false /\
     exists uid, field "assignedToId" (body req) = Some (JStr uid) /\ uid <> "") /\
  (statusCode (fst r) = 200 ->
     exists uid new,
       field "assignedToId" (body req) = Some (JStr uid) /\
       data (fst r) = Some new /\
       findUnique alert_id (param "id" req) (alerts (snd r)) = Some new /\
       alert_status new = "ACKNOWLEDGED" /\
       alert_assignedToId new = Some uid).
Proof.
  intros Hold r. subst r. unfold assignAlert, query.
  destruct (field "assignedToId" (body req)) as [v|] eqn:Hf.
  2:{ simpl. split; [split|]; try discriminate.
      intros (_ & uid & Hu & _). discriminate. }
  destruct (truthy (Some v)) eqn:Ht; cbn [negb].
  2:{ simpl. split; [split|]; try discriminate.
      intros (_ & uid & Hu & Hne). inversion Hu; subst.
      apply truthy_JStr in Hne. congruence. }
  destruct (rejects rt 0%nat) eqn:Hr.
  { simpl. split; [split|]; try discriminate. intros (? & _). discriminate. }
  destruct v as [| b | n | uid | items | fields];
    try (simpl; split; [split|]; try discriminate;
         intros (_ & uid & Hu & _); discriminate).
  cbn [asString bind].
  destruct (update_found alert_id (param "id" req) (assignAlert_data uid) _ _ Hold)
    as (table' & Hup).
  rewrite Hup. cbn [fst snd statusCode ok_msg data set_alerts alerts].
  destruct (update_resolved alert_id _ _ _ _ _ (alert_id_kept_by_assign uid) Hup)
    as (old' & Hold' & _ & Hnew & _).
  split.
  - split; [intros _|reflexivity]. split; [reflexivity|].
    exists uid. split; [reflexivity|]. now apply truthy_JStr.
  - intros _. exists uid, (assignAlert_data uid old).
    rewrite Hold in Hold'. inversion Hold'; subst old'.
    repeat split; auto.
Qed.

Lemma alert_id_kept_by_update (rt : Runtime) (req : Request) (s : string)
    (t : option (option string)) (a : Alert) :
  alert_id (updateAlertStatus_data rt req s t a) = alert_id a.
Proof. reflexivity. Qed.

(** C7.  A status update by an authenticated requester on a stored
    alert succeeds exactly when the request carries a non-empty status
    string, actionTaken is absent, null or a string, and the persistence
    layer takes the write.  A successful update writes the requested
    status; it writes resolvedBy (the requester's id) and resolvedAt (the
    time of the call) when the new status is RESOLVED, and leaves both as
    they were for every other status.  actionTaken is the only other
    column that can change; every other column of the alert, every other
    alert and every other table stay as they were. *)
Theorem updateAlertStatus_stamps_iff_resolved
    (rt : Runtime) (req : Request) (db : Db) (u : AuthUser) (old : Alert) :
  user req = Some u ->
  findUnique alert_id (param "id" req) (alerts db) = Some old ->
  let r := updateAlertStatus rt req db in
  (statusCode (fst r) = 200 <->
     rejects rt 0%nat = false /\
     (exists status, field "status" (body req) = Some (JStr status) /\ status <> "") /\
     (exists t, asOptionalString (field "actionTaken" (body req)) = Resolved t)) /\
  (statusCode (fst r) = 200 ->
   exists status new,
    field "status" (body req) = Some (JStr status) /\
    data (fst r) = Some new /\
    findUnique alert_id (param "id" req) (alerts (snd r)) = Some new /\
    alert_status new = status /\
    (status = "RESOLVED" ->
       alert_resolvedBy new = Some (auth_id u) /\ alert_resolvedAt new = Some (now rt)) /\
    (status <> "RESOLVED" ->
       alert_resolvedBy new = alert_resolvedBy old /\
       alert_resolvedAt new = alert_resolvedAt old) /\
    (field "actionTaken" (body req) = None -> alert_actionTaken new = alert_actionTaken old) /\
    (alert_id new = alert_id old /\ alert_type new = alert_type old /\
     alert_severity new = alert_severity old /\ alert_title new = alert_title old /\
     alert_message new = alert_message old /\ alert_module new = alert_module old /\
     alert_farmId new = alert_farmId old /\
     alert_assignedToId new = alert_assignedToId old /\
     alert_createdAt new = alert_createdAt old) /\
    (forall other, other <> param "id" req ->
       findUnique alert_id other (alerts (snd r)) = findUnique alert_id other (alerts db)) /\
    snd r = set_alerts db (alerts (snd r))).
Proof.
  intros Hu Hold r. subst r. unfold updateAlertStatus, query.
  destruct (field "status" (body req)) as [v|] eqn:Hf.
  2:{ simpl. split; [split|]; try discriminate.
      intros (_ & (status & Hs & _) & _). discriminate. }
  destruct (truthy (Some v)) eqn:Ht; cbn [negb].
  2:{ simpl. split; [split|]; try discriminate.
      intros (_ & (status & Hs & Hne) & _). inversion Hs; subst.
      apply truthy_JStr in Hne. congruence. }
  destruct (rejects rt 0%nat) eqn:Hr.
  { simpl. split; [split|]; try discriminate. intros (? & _). discriminate. }
  destruct v as [| b | n | status | items | fields];
    try (simpl; split; [split|]; try discriminate;
         intros (_ & (status & Hs & _) & _); discriminate).
  cbn [asString bind].
  destruct (asOptionalString (field "actionTaken" (body req))) as [t|] eqn:Ha.
  2:{ simpl. split; [split|]; try discriminate.
      intros (_ & _ & (t & Ht')). discriminate. }
  cbn [bind].
  destruct (update_found alert_id (param "id" req)
              (updateAlertStatus_data rt req status t) _ _ Hold) as (table' & Hup).
  rewrite Hup. cbn [fst snd statusCode ok_msg data set_alerts alerts].
  destruct (update_resolved alert_id _ _ _ _ _
              (alert_id_kept_by_update rt req status t) Hup)
    as (old' & Hold' & _ & Hnew & Hframe & _).
  rewrite Hold in Hold'. inversion Hold'; subst old'.
  split.
  { split; [intros _|reflexivity]. split; [reflexivity|]. split.
    - exists status. split; [reflexivity|]. now apply truthy_JStr.
    - exists t. reflexivity. }
  intros _. exists status, (updateAlertStatus_data rt req status t old).
  split; [reflexivity|]. split; [reflexivity|]. split; [assumption|].
  split; [reflexivity|].
  cbn [updateAlertStatus_data alert_resolvedBy alert_resolvedAt alert_actionTaken].
  split.
  { intros ->. unfold userId. rewrite Hu. split; reflexivity. }
  split.
  { intros Hne. apply String.eqb_neq in Hne. rewrite Hne. split; reflexivity. }
  split.
  { intros Hn. rewrite Hn in Ha. inversion Ha; subst. reflexivity. }
  split; [repeat split|]. split; [assumption|reflexivity].
Qed.

End AlertLifecycle.

(** ** Ordering and paging *)

Section Ordering.

Context {A : Type} (before : A -> A -> bool).

Hypothesis before_total : forall x y, before x y = true \/ before y x = true.
Hypothesis before_trans :
  forall x y z, before x y = true -> before y z = true -> before x z = true.

Lemma insert_by_In (x z : A) (l : list A) :
  In z (insert_by before x l) <-> z = x \/ In z l.
Proof.
  induction l as [|y rest IH]; simpl.
  - intuition congruence.
  - destruct (before x y); simpl; rewrite ?IH; intuition congruence.
Qed.

Lemma insert_by_length (x : A) (l : list A) :
  List.length (insert_by before x l) = S (List.length l).
Proof.
  induction l as [|y rest IH]; simpl; auto.
  destruct (before x y); simpl; auto.
Qed.

Lemma insert_by_sorted (x : A) (l : list A) :
  StronglySorted (fun a b => before a b = true) l ->
  StronglySorted (fun a b => before a b = true) (insert_by before x l).
Proof.
  induction 1 as [|y rest Hs IH Hall]; simpl.
  - constructor; constructor.
  - destruct (before x y) eqn:E.
    + constructor; [constructor; assumption|].
      constructor; [assumption|].
      eapply Forall_impl; [|exact Hall]. intros z Hz. eauto.
    + constructor; [assumption|].
      apply Forall_forall. intros z Hz. apply insert_by_In in Hz.
      destruct Hz as [->|Hz].
      * destruct (before_total x y); congruence.
      * rewrite Forall_forall in Hall. auto.
Qed.

Lemma orderBy_sorted (l : list A) :
  StronglySorted (fun a b => before a b = true) (orderBy before l).
Proof.
  induction l; simpl; [constructor|]. now apply insert_by_sorted.
Qed.

Lemma orderBy_In (z : A) (l : list A) : In z (orderBy before l) <-> In z l.
Proof.
  induction l as [|x rest IH]; simpl; [tauto|].
  rewrite insert_by_In, IH. intuition congruence.
Qed.

Lemma orderBy_length (l : list A) : List.length (orderBy before l) = List.length l.
Proof.
  induction l as [|x rest IH]; simpl; auto. now rewrite insert_by_length, IH.
Qed.

End Ordering.

Lemma take_In {A : Type} (n : nat) (l : list A) (z : A) : In z (take n l) -> In z l.
Proof.
  unfold take. revert n. induction l as [|x rest IH]; intros [|n]; simpl; try tauto.
  intros [->|H]; eauto.
Qed.

Lemma take_sorted {A : Type} (R : A -> A -> Prop) (n : nat) (l : list A) :
  StronglySorted R l -> StronglySorted R (take n l).
Proof.
  intros H. revert n. induction H as [|x rest Hs IH Hall]; intros [|n]; simpl;
    try constructor; auto.
  apply Forall_forall. intros z Hz. rewrite Forall_forall in Hall.
    apply Hall. eapply take_In. exact Hz.
Qed.

Lemma StronglySorted_impl {A : Type} (R S : A -> A -> Prop) (l : list A) :
  (forall a b, R a b -> S a b) -> StronglySorted R l -> StronglySorted S l.
Proof.
  intros HRS. induction 1; constructor; auto.
  eapply Forall_impl; [|eassumption]. auto.
Qed.

Lemma desc2_spec {A : Type} (k1 k2 : A -> Z) (x y : A) :
  desc2 k1 k2 x y = true <-> k1 y < k1 x \/ (k1 y = k1 x /\ k2 y <= k2 x).
Proof.
  unfold desc2. rewrite orb_true_iff, andb_true_iff, Z.ltb_lt, Z.eqb_eq, Z.leb_le.
  tauto.
Qed.

Lemma desc_spec {A : Type} (k : A -> Z) (x y : A) :
  desc k x y = true <-> k y <= k x.
Proof. unfold desc. now rewrite Z.leb_le. Qed.

Section AlertList.

Import AlertController.

Lemma getAlerts_resolved
    (rt : Runtime) (sc : Schema) (req : Request) (db : Db) (l : list Alert) :
  data (getAlerts rt sc req db) = Some l ->
  rejects rt 0%nat = false /\
  l = take 100 (orderBy (getAlerts_order sc) (filter (getAlerts_where req db) (alerts db))).
Proof.
  unfold getAlerts, query. destruct (rejects rt 0%nat); [discriminate|].
  cbn [data ok].
  remember (take 100 _) as page eqn:Hpage. intros [= <-]. now subst page.
Qed.

Lemma getAlerts_In
    (rt : Runtime) (sc : Schema) (req : Request) (db : Db) (l : list Alert) (a : Alert) :
  data (getAlerts rt sc req db) = Some l ->
  In a l -> In a (alerts db) /\ getAlerts_where req db a = true.
Proof.
  intros H Ha. apply getAlerts_resolved in H. destruct H as [_ ->].
  apply take_In in Ha. apply orderBy_In in Ha. now apply filter_In in Ha.
Qed.

(** C10.  [getAlerts] returns a list exactly when its query resolves.
    The list has at most 100 entries (the smaller of 100 and the number
    of alerts that match the requester's filters), holds only stored
    alerts that match, and is ordered by severity descending, then
    creation time descending. *)
Theorem getAlerts_at_most_100_ordered
    (rt : Runtime) (sc : Schema) (req : Request) (db : Db) :
  (rejects rt 0%nat = false <-> exists l, data (getAlerts rt sc req db) = Some l) /\
  (forall l, data (getAlerts rt sc req db) = Some l ->
     (List.length l <= 100)%nat /\
     List.length l
     = Nat.min 100 (List.length (filter (getAlerts_where req db) (alerts db))) /\
     StronglySorted (severity_then_newest sc) l /\
     (forall a, In a l -> In a (alerts db) /\ getAlerts_where req db a = true)).
Proof.
  split.
  { split.
    - intros Hr. unfold getAlerts, query. rewrite Hr. eexists. reflexivity.
    - intros [l H]. now apply getAlerts_resolved in H. }
  intros l H. pose proof (getAlerts_In rt sc req db l) as Hin.
  specialize (fun a => Hin a H).
  apply getAlerts_resolved in H. destruct H as [Hr ->].
  assert (Hlen : forall m : list Alert,
             List.length (take 100 (orderBy (getAlerts_order sc) m))
             = Nat.min 100 (List.length m)).
  { intros m. unfold take. now rewrite length_firstn, orderBy_length. }
  split; [rewrite Hlen; apply Nat.le_min_l|].
  split; [apply Hlen|].
  split; [|assumption].
  apply take_sorted.
  apply StronglySorted_impl with (R := fun a b => getAlerts_order sc a b = true).
  - intros a b Hab. now apply desc2_spec in Hab.
  - apply orderBy_sorted.
    + intros x y. unfold getAlerts_order. rewrite !desc2_spec. lia.
    + intros x y z. unfold getAlerts_order. rewrite !desc2_spec. lia.
Qed.

End AlertList.

(** ** The alert handlers on the seed database *)

(** The administrator assigns the resolved alert al-5 to the ranger: the
    alert comes back ACKNOWLEDGED and assigned. *)
Lemma assignAlert_forces_acknowledged_seed :
  alert_status Seed.alert5 = "RESOLVED" /\
  let req := Seed.request_of Seed.admin [("id", "al-5")] []
               [("assignedToId", JStr "u-ranger")] in
  let r := AlertController.assignAlert Seed.rt req Seed.db in
  exists uid new,
    field "assignedToId" (body req) = Some (JStr uid) /\
    data (fst r) = Some new /\
    findUnique alert_id (param "id" req) (alerts (snd r)) = Some new /\
    alert_status new = "ACKNOWLEDGED" /\
    alert_assignedToId new = Some uid.
Proof.
  split; [reflexivity|].
  apply (proj2 (assignAlert_forces_acknowledged Seed.rt
                  (Seed.request_of Seed.admin [("id", "al-5")] []
                     [("assignedToId", JStr "u-ranger")])
                  Seed.db Seed.alert5 eq_refl)).
  reflexivity.
Defined.

(** The ranger resolves alert al-4. *)
Lemma updateAlertStatus_stamps_iff_resolved_seed :
  let req := Seed.request_of Seed.ranger [("id", "al-4")] []
               [("status", JStr "RESOLVED")] in
  let r := updateAlertStatus Seed.rt req Seed.db in
  statusCode (fst r) = 200 /\
  option_map alert_resolvedBy (data (fst r)) = Some (Some "u-ranger") /\
  option_map alert_resolvedAt (data (fst r)) = Some (Some 7000) /\
  exists status new,
    field "status" (body req) = Some (JStr status) /\
    data (fst r) = Some new /\
    findUnique alert_id (param "id" req) (alerts (snd r)) = Some new /\
    alert_status new = status /\
    (status = "RESOLVED" ->
       alert_resolvedBy new = Some "u-ranger" /\ alert_resolvedAt new = Some 7000) /\
    (status <> "RESOLVED" ->
       alert_resolvedBy new = alert_resolvedBy Seed.alert4 /\
       alert_resolvedAt new = alert_resolvedAt Seed.alert4) /\
    (field "actionTaken" (body req) = None ->
       alert_actionTaken new = alert_actionTaken Seed.alert4) /\
    (alert_id new = alert_id Seed.alert4 /\ alert_type new = alert_type Seed.alert4 /\
     alert_severity new = alert_severity Seed.alert4 /\
     alert_title new = alert_title Seed.alert4 /\
     alert_message new = alert_message Seed.alert4 /\
     alert_module new = alert_module Seed.alert4 /\
     alert_farmId new = alert_farmId Seed.alert4 /\
     alert_assignedToId new = alert_assignedToId Seed.alert4 /\
     alert_createdAt new = alert_createdAt Seed.alert4) /\
    (forall other, other <> param "id" req ->
       findUnique alert_id other (alerts (snd r)) = findUnique alert_id other (alerts Seed.db)) /\
    snd r = set_alerts Seed.db (alerts (snd r)).
Proof.
  split; [reflexivity|]. split; [reflexivity|]. split; [reflexivity|].
  exact (proj2 (updateAlertStatus_stamps_iff_resolved Seed.rt
                  (Seed.request_of Seed.ranger [("id", "al-4")] []
                     [("status", JStr "RESOLVED")])
                  Seed.db {| auth_id := "u-ranger"; auth_role := "RANGER" |} Seed.alert4
                  eq_refl eq_refl) eq_refl).
Defined.

(** An update to IN_PROGRESS stamps nothing. *)
Example updateAlertStatus_in_progress_seed :
  let req := Seed.request_of Seed.farmer1 [("id", "al-1")] []
               [("status", JStr "IN_PROGRESS"); ("actionTaken", JStr "Vet called")] in
  let answer := data (fst (AlertController.updateAlertStatus Seed.rt req Seed.db)) in
  option_map alert_status answer = Some "IN_PROGRESS" /\
  option_map alert_actionTaken answer = Some (Some "Vet called") /\
  option_map alert_resolvedBy answer = Some None /\
  option_map alert_resolvedAt answer = Some None.
Proof. repeat split. Qed.

(** The farmer's alert list: the alerts of the farmer's farm, the
    critical one first, then the warnings from the newest. *)
Lemma getAlerts_at_most_100_ordered_seed :
  let req := Seed.request_of Seed.farmer1 [] [] [] in
  data (getAlerts Seed.rt Seed.schema req Seed.db)
  = Some [Seed.alert1; Seed.alert3; Seed.alert2] /\
  StronglySorted (severity_then_newest Seed.schema)
    [Seed.alert1; Seed.alert3; Seed.alert2].
Proof.
  split; [reflexivity|].
  apply (proj2 (getAlerts_at_most_100_ordered Seed.rt Seed.schema
                  (Seed.request_of Seed.farmer1 [] [] []) Seed.db)
           [Seed.alert1; Seed.alert3; Seed.alert2] eq_refl).
Defined.

(** ** Who sees which rows *)

Section Visibility.

Import FarmController ParkController AlertController.

Variables (rt : Runtime) (sc : Schema) (db : Db).
Variables (req : Request) (u : AuthUser).
Hypothesis authenticated : user req = Some u.

Lemma userId_authenticated : userId req = Some (auth_id u).
Proof. unfold userId. now rewrite authenticated. Qed.

Lemma notAdmin_authenticated :
  notAdmin req = true <-> auth_role u <> "ADMIN".
Proof.
  unfold notAdmin. rewrite authenticated.
  destruct (String.eqb_spec (auth_role u) "ADMIN"); simpl; split; congruence.
Qed.

Lemma getFarms_where_spec (f : Farm) :
  getFarms_where req f = true <-> auth_role u = "ADMIN" \/ farm_ownerId f = auth_id u.
Proof.
  unfold getFarms_where, AND, spread, equals, notAdmin.
  rewrite userId_authenticated, authenticated. cbn [forallb].
  destruct (String.eqb_spec (auth_role u) "ADMIN"); cbn [negb]; [tauto|].
  rewrite andb_true_r, String.eqb_eq. tauto.
Qed.

Lemma getParks_where_spec (p : Park) :
  getParks_where req p = true <-> auth_role u = "ADMIN" \/ park_managerId p = auth_id u.
Proof.
  unfold getParks_where, AND, spread, equals, notAdmin.
  rewrite userId_authenticated, authenticated. cbn [forallb].
  destruct (String.eqb_spec (auth_role u) "ADMIN"); cbn [negb]; [tauto|].
  rewrite andb_true_r, String.eqb_eq. tauto.
Qed.

Lemma farm_ownedBy_spec (uid : Id) (fid : option Id) :
  farm_ownedBy db (Some uid) fid = Some true <->
  exists i f, fid = Some i /\ farmOf db i = Some f /\ farm_ownerId f = uid.
Proof.
  unfold farm_ownedBy, equals. destruct fid as [i|].
  - destruct (farmOf db i) as [f|] eqn:E.
    + split.
      * intros H. exists i, f. repeat split; auto.
        apply String.eqb_eq. congruence.
      * intros (i' & f' & Hi & Hf & Ho). inversion Hi; subst i'.
        rewrite E in Hf. inversion Hf; subst f'. f_equal. now apply String.eqb_eq.
    + split; [discriminate|]. intros (i' & f' & Hi & Hf & _).
      inversion Hi; subst i'. congruence.
  - split; [discriminate|]. intros (i' & f' & Hi & _). discriminate.
Qed.

Lemma getAlerts_where_scope (a : Alert) :
  getAlerts_where req db a = true ->
  auth_role u = "ADMIN" \/
  alert_assignedToId a = Some (auth_id u) \/
  exists i f, alert_farmId a = Some i /\ farmOf db i = Some f /\ farm_ownerId f = auth_id u.
Proof.
  unfold getAlerts_where, AND. cbn [forallb]. rewrite !andb_true_iff.
  intros (_ & _ & _ & _ & H & _). revert H.
  unfold spread, OR, notAdmin. rewrite userId_authenticated, authenticated.
  destruct (String.eqb_spec (auth_role u) "ADMIN"); cbn [negb]; [tauto|].
  cbn [existsb]. rewrite orb_false_r. intros H. right.
  apply orb_true_iff in H. destruct H as [H|H].
  - left. unfold equals_nullable in H. destruct (alert_assignedToId a) as [x|]; [|discriminate].
    apply String.eqb_eq in H. now subst.
  - right. apply farm_ownedBy_spec.
    destruct (farm_ownedBy db (Some (auth_id u)) (alert_farmId a)) as [[|]|]; congruence.
Qed.

Lemma filter_clause (given : option string) (column : string) :
  match spread (truthy_str given) (equals given column) with
  | Some b => b | None => true end = true <->
  forall v, given = Some v -> v <> "" -> column = v.
Proof.
  unfold spread, truthy_str, equals. destruct given as [g|].
  - destruct (String.eqb_spec g "") as [->|Hne]; cbn [negb].
    + split; [|reflexivity]. intros _ v [= <-] Hv. now elim Hv.
    + rewrite String.eqb_eq. split.
      * now intros -> v [= <-] _.
      * intros H. now apply H.
  - split; [|reflexivity]. intros _ v Hv. discriminate.
Qed.

Lemma getAlerts_where_iff (a : Alert) :
  getAlerts_where req db a = true <->
  passes_filters req a /\
  (auth_role u = "ADMIN" \/
   alert_assignedToId a = Some (auth_id u) \/
   exists i f, alert_farmId a = Some i /\ farmOf db i = Some f /\ farm_ownerId f = auth_id u).
Proof.
  split.
  - intros H. split; [|now apply getAlerts_where_scope].
    revert H. unfold getAlerts_where, AND. cbn [forallb]. rewrite !andb_true_iff.
    rewrite !filter_clause. intros (Hs & Ht & Hv & Hm & _) key column Hin.
    cbn [In] in Hin.
    destruct Hin as [[= <- <-]|[[= <- <-]|[[= <- <-]|[[= <- <-]|[]]]]]; assumption.
  - intros [Hf Hscope]. unfold getAlerts_where, AND. cbn [forallb].
    rewrite !andb_true_iff, !filter_clause.
    repeat (split; [intros v; apply Hf; cbn [In]; auto|]).
    split; [|reflexivity].
    unfold spread, OR, notAdmin. rewrite userId_authenticated, authenticated.
    destruct (String.eqb_spec (auth_role u) "ADMIN") as [|Hrole]; cbn [negb];
      [reflexivity|].
    cbn [existsb]. rewrite orb_false_r. apply orb_true_iff.
    destruct Hscope as [Hadmin|[Hassigned|Hfarm]]; [contradiction| |].
    + left. rewrite Hassigned. cbn [equals_nullable]. apply String.eqb_refl.
    + right. apply farm_ownedBy_spec in Hfarm. now rewrite Hfarm.
Qed.

Lemma take_all {A : Type} (n : nat) (l : list A) :
  (List.length l <= n)%nat -> take n l = l.
Proof. apply firstn_all2. Qed.

(** C1, as the code has it.  For an authenticated requester, the list
    endpoints [getFarms] and [getParks] return exactly the farms the
    requester owns and the parks the requester manages, and [getAlerts]
    returns only alerts that pass the filters of the query string and
    are assigned to the requester or raised on a farm the requester
    owns, and every such alert unless the list is cut at 100; an ADMIN
    requester gets every farm, every park and every alert that passes
    the filters (unless the list is cut at 100).  The get-by-id endpoints
    ([getFarmById], [getParkById], [getAlertById], [getAnimalById]) and
    the per-parent lists [getHerds] and [getAnimals] do not look at the
    requester: their answer depends on the route parameters only.  A
    get-by-id answers with the stored row that has the requested id,
    whoever owns it, and with 404 when there is none; [getHerds] returns
    exactly the herds of the farm in the route and [getAnimals] exactly
    the animals of the herd in the route. *)
Theorem lists_scoped_by_requester_lookups_not :
  (forall l, data (getFarms rt req db) = Some l ->
     forall f, In f l <->
       In f (farms db) /\ (auth_role u = "ADMIN" \/ farm_ownerId f = auth_id u)) /\
  (forall l, data (getParks rt req db) = Some l ->
     forall p, In p l <->
       In p (parks db) /\ (auth_role u = "ADMIN" \/ park_managerId p = auth_id u)) /\
  (forall l, data (getAlerts rt sc req db) = Some l ->
     (forall a, In a l ->
        In a (alerts db) /\ passes_filters req a /\
        (auth_role u = "ADMIN" \/
         alert_assignedToId a = Some (auth_id u) \/
         exists i f, alert_farmId a = Some i /\ farmOf db i = Some f /\
                     farm_ownerId f = auth_id u)) /\
     ((List.length (alerts db) <= 100)%nat \/ (List.length l < 100)%nat ->
      forall a, In a (alerts db) -> passes_filters req a ->
        (auth_role u = "ADMIN" \/
         alert_assignedToId a = Some (auth_id u) \/
         exists i f, alert_farmId a = Some i /\ farmOf db i = Some f /\
                     farm_ownerId f = auth_id u) ->
        In a l)) /\
  (forall other : Request, params other = params req ->
     getFarmById rt other db = getFarmById rt req db /\
     getParkById rt other db = getParkById rt req db /\
     getAlertById rt other db = getAlertById rt req db /\
     getAnimalById rt other db = getAnimalById rt req db /\
     getHerds rt other db = getHerds rt req db /\
     getAnimals rt other db = getAnimals rt req db) /\
  (forall f, rejects rt 0%nat = false ->
     findUnique farm_id (param "id" req) (farms db) = Some f ->
     getFarmById rt req db = ok f) /\
  (rejects rt 0%nat = false ->
   getFarmById rt req db
   = match findUnique farm_id (param "id" req) (farms db) with
     | Some farm => ok farm
     | None => fail 404 "Farm not found"
     end /\
   getParkById rt req db
   = match findUnique park_id (param "id" req) (parks db) with
     | Some park => ok park
     | None => fail 404 "Park not found"
     end /\
   getAlertById rt req db
   = match findUnique alert_id (param "id" req) (alerts db) with
     | Some alert => ok alert
     | None => fail 404 "Alert not found"
     end /\
   getAnimalById rt req db
   = match findUnique animal_id (param "id" req) (animals db) with
     | Some animal => ok animal
     | None => fail 404 "Animal not found"
     end /\
   (exists l, data (getFarms rt req db) = Some l) /\
   (exists l, data (getParks rt req db) = Some l) /\
   (exists l, data (getAlerts rt sc req db) = Some l) /\
   (exists l, data (getHerds rt req db) = Some l) /\
   (exists l, data (getAnimals rt req db) = Some l)) /\
  (forall l, data (getHerds rt req db) = Some l ->
     forall h, In h l <-> In h (herds db) /\ herd_farmId h = param "farmId" req) /\
  (forall l, data (getAnimals rt req db) = Some l ->
     forall a, In a l <-> In a (animals db) /\ animal_herdId a = param "herdId" req).
Proof.
  split; [|split; [|split; [|split; [|split; [|split; [|split]]]]]].
  - unfold getFarms, query. destruct (rejects rt 0%nat); [discriminate|].
    cbn [data ok]. intros l [= <-] f.
    rewrite orderBy_In, filter_In, getFarms_where_spec. tauto.
  - unfold getParks, query. destruct (rejects rt 0%nat); [discriminate|].
    cbn [data ok]. intros l [= <-] p.
    rewrite orderBy_In, filter_In, getParks_where_spec. tauto.
  - intros l Hl. split.
    + intros a Ha.
      destruct (getAlerts_In rt sc req db l a Hl Ha) as [Hdb Hw]. split; [assumption|].
      now apply getAlerts_where_iff.
    + apply getAlerts_resolved in Hl. destruct Hl as [_ ->].
      intros Hshort a Hdb Hf Hscope.
      assert (Hall : take 100 (orderBy (getAlerts_order sc)
                                 (filter (getAlerts_where req db) (alerts db)))
                     = orderBy (getAlerts_order sc)
                         (filter (getAlerts_where req db) (alerts db))).
      { apply take_all. rewrite orderBy_length.
        pose proof (filter_length_le (getAlerts_where req db) (alerts db)) as Hle.
        unfold take in Hshort. rewrite length_firstn, orderBy_length in Hshort. lia. }
      rewrite Hall. apply orderBy_In, filter_In. split; [assumption|].
      apply getAlerts_where_iff. now split.
  - intros other Hp.
    unfold getFarmById, getParkById, getAlertById, getAnimalById, getHerds, getAnimals,
      param. rewrite Hp. repeat split.
  - intros f Hr Hf. unfold getFarmById, query. now rewrite Hr, Hf.
  - intros Hr.
    unfold getFarmById, getParkById, getAlertById, getAnimalById, getFarms, getParks,
      getAlerts, getHerds, getAnimals, query.
    rewrite Hr. cbn [data ok].
    split; [now destruct (findUnique farm_id _ _)|].
    split; [now destruct (findUnique park_id _ _)|].
    split; [now destruct (findUnique alert_id _ _)|].
    split; [now destruct (findUnique animal_id _ _)|].
    repeat split; eexists; reflexivity.
  - unfold getHerds, query. destruct (rejects rt 0%nat); [discriminate|].
    cbn [data ok]. intros l [= <-] h.
    rewrite orderBy_In, filter_In. unfold AND, equals. cbn [forallb].
    now rewrite andb_true_r, String.eqb_eq.
  - unfold getAnimals, query. destruct (rejects rt 0%nat); [discriminate|].
    cbn [data ok]. intros l [= <-] a.
    rewrite orderBy_In, filter_In. unfold AND, equals. cbn [forallb].
    now rewrite andb_true_r, String.eqb_eq.
Qed.

End Visibility.

(** Farmer 2 asks for farm f-1, which farmer 1 owns, and gets it. *)
Lemma getFarmById_returns_foreign_farm :
  let req := Seed.request_of Seed.farmer2 [("id", "f-1")] [] [] in
  notAdmin req = true /\
  userId req = Some "u-farmer2" /\
  data (FarmController.getFarmById Seed.rt req Seed.db) = Some Seed.farm1 /\
  farm_ownerId Seed.farm1 = "u-farmer1" /\
  farm_ownerId Seed.farm1 <> "u-farmer2" /\
  data (FarmController.getFarms Seed.rt req Seed.db) = Some [Seed.farm2].
Proof. repeat split. discriminate. Qed.

(** Farmer 1, the administrator and the lists they get; the herds of
    farm f-1 and alert al-4, for farmer 2, who has neither. *)
Lemma lists_scoped_by_requester_lookups_not_seed :
  data (FarmController.getFarms Seed.rt (Seed.request_of Seed.farmer1 [] [] []) Seed.db)
  = Some [Seed.farm1] /\
  data (FarmController.getFarms Seed.rt (Seed.request_of Seed.admin [] [] []) Seed.db)
  = Some [Seed.farm3; Seed.farm2; Seed.farm1] /\
  (forall f, In f [Seed.farm1] <->
     In f (farms Seed.db) /\ ("FARMER" = "ADMIN" \/ farm_ownerId f = "u-farmer1")) /\
  (forall a, In a (alerts Seed.db) ->
     In a [Seed.alert4; Seed.alert1; Seed.alert5; Seed.alert3; Seed.alert2]) /\
  AlertController.getAlertById Seed.rt
    (Seed.request_of Seed.farmer2 [("id", "al-4"); ("farmId", "f-1")] [] []) Seed.db
  = ok Seed.alert4 /\
  (forall h, In h [Seed.herd1] <-> In h (herds Seed.db) /\ herd_farmId h = "f-1").
Proof.
  split; [reflexivity|]. split; [reflexivity|].
  pose proof (lists_scoped_by_requester_lookups_not Seed.rt Seed.schema Seed.db
                (Seed.request_of Seed.farmer1 [] [] [])
                {| auth_id := "u-farmer1"; auth_role := "FARMER" |} eq_refl) as Hfarmer.
  pose proof (lists_scoped_by_requester_lookups_not Seed.rt Seed.schema Seed.db
                (Seed.request_of Seed.admin [] [] [])
                {| auth_id := "u-admin"; auth_role := "ADMIN" |} eq_refl) as Hadmin.
  pose proof (lists_scoped_by_requester_lookups_not Seed.rt Seed.schema Seed.db
                (Seed.request_of Seed.farmer2 [("id", "al-4"); ("farmId", "f-1")] [] [])
                {| auth_id := "u-farmer2"; auth_role := "FARMER" |} eq_refl) as Hother.
  split; [exact (proj1 Hfarmer [Seed.farm1] eq_refl)|].
  split.
  { intros a Ha.
    refine (proj2 (proj1 (proj2 (proj2 Hadmin)) _ eq_refl) _ a Ha _ _).
    - left. cbn. lia.
    - intros key column _ v Hv. discriminate Hv.
    - left. reflexivity. }
  split.
  { exact (proj1 (proj2 (proj2 (proj1 (proj2 (proj2 (proj2 (proj2 (proj2 Hother)))))
                                  eq_refl)))). }
  exact (proj1 (proj2 (proj2 (proj2 (proj2 (proj2 (proj2 Hother)))))) [Seed.herd1] eq_refl).
Defined.

(** ** Required fields are tested for truthiness *)

Section RequiredFields.

Import FarmController.

Lemma falsy_zero_or_missing (v : option json) :
  v = Some (JNum 0) \/ v = None -> truthy v = false.
Proof. intros [-> | ->]; reflexivity. Qed.

(** C9.  [createFarm] answers 400 "Please provide all required fields"
    and stores nothing when latitude or longitude is the number 0, just
    as it does when that field is missing; [createHerd] does the same
    when totalCount is 0. *)
Theorem zero_is_rejected_as_missing (rt : Runtime) (req : Request) (db : Db) :
  (field "latitude" (body req) = Some (JNum 0) \/ field "latitude" (body req) = None \/
   field "longitude" (body req) = Some (JNum 0) \/ field "longitude" (body req) = None ->
   createFarm rt req db = (fail 400 "Please provide all required fields", db)) /\
  (field "totalCount" (body req) = Some (JNum 0) \/ field "totalCount" (body req) = None ->
   createHerd rt req db = (fail 400 "Please provide all required fields", db)).
Proof.
  split; intros H.
  - unfold createFarm.
    assert (Hf : truthy (field "latitude" (body req)) = false \/
                 truthy (field "longitude" (body req)) = false).
    { destruct H as [H|[H|[H|H]]]; [left|left|right|right];
        apply falsy_zero_or_missing; tauto. }
    destruct Hf as [-> | ->]; cbn [negb]; rewrite ?orb_true_r; reflexivity.
  - unfold createHerd. rewrite (falsy_zero_or_missing _ H).
    cbn [negb]. rewrite ?orb_true_r. reflexivity.
Qed.

End RequiredFields.

(** A farm on the equator and a herd that starts empty, on the seed
    database: both are refused, and the same farm one degree south is
    created. *)
Lemma zero_is_rejected_as_missing_seed :
  let farm_at lat :=
    Seed.request_of Seed.farmer1 [] []
      [("name", JStr "Equator Farm"); ("location", JStr "Nanyuki");
       ("latitude", JNum lat); ("longitude", JNum 37)] in
  let herd_of n :=
    Seed.request_of Seed.farmer1 [("farmId", "f-1")] []
      [("name", JStr "New Herd"); ("animalType", JStr "GOAT"); ("totalCount", JNum n)] in
  FarmController.createFarm Seed.rt (farm_at 0) Seed.db
  = (fail 400 "Please provide all required fields", Seed.db) /\
  FarmController.createHerd Seed.rt (herd_of 0) Seed.db
  = (fail 400 "Please provide all required fields", Seed.db) /\
  statusCode (fst (FarmController.createFarm Seed.rt (farm_at (-1)) Seed.db)) = 201 /\
  statusCode (fst (FarmController.createHerd Seed.rt (herd_of 12) Seed.db)) = 201.
Proof.
  split; [|split; [|split; reflexivity]].
  - apply (proj1 (zero_is_rejected_as_missing Seed.rt _ Seed.db)). left. reflexivity.
  - apply (proj2 (zero_is_rejected_as_missing Seed.rt _ Seed.db)). left. reflexivity.
Defined.

(** ** Reports *)

Section Reports.

Import ReportController.



End Reports.



(** ** Login *)

Section Login.

Import AuthController.

Variables (rt : Runtime) (req : Request) (db : Db).
Variables (email password : string) (account : User).

Hypothesis email_given : field "email" (body req) = Some (JStr email).
Hypothesis email_not_empty : email <> "".
Hypothesis password_given : field "password" (body req) = Some (JStr password).
Hypothesis password_not_empty : password <> "".
Hypothesis lookup_resolves : rejects rt 0%nat = false.
Hypothesis account_exists :
  find (fun u => String.eqb (user_email u) email) (users db) = Some account.

Lemma login_after_lookup :
  login rt req db =
  if bcryptCompare rt password (user_password account)
  then if negb (String.eqb (user_status account) "ACTIVE")
       then (fail 401 "Account is not active", db)
       else login rt req db
  else (fail 401 "Invalid credentials", db).
Proof.
  destruct (bcryptCompare rt password (user_password account)) eqn:B;
    [destruct (negb (String.eqb (user_status account) "ACTIVE")) eqn:E;
     [|reflexivity]|];
    unfold login; rewrite email_given, password_given;
    apply truthy_JStr in email_not_empty, password_not_empty;
    rewrite email_not_empty, password_not_empty; cbn [negb orb];
    unfold query; rewrite lookup_resolves; cbn [asString bind];
    rewrite account_exists, B; rewrite ?E; reflexivity.
Qed.

(** C3, as the code has it.  For a login with the email of an existing
    account: a password that does not match is answered 401 "Invalid
    credentials", whatever the status of the account; a password that
    matches on an account whose status is not ACTIVE is answered 401
    "Account is not active".  Neither changes the database.  The status
    code is the same and the message differs, so the caller can tell the
    two rejections apart. *)
Theorem login_rejections_401_with_distinct_messages :
  (bcryptCompare rt password (user_password account) = false ->
   login rt req db = (fail 401 "Invalid credentials", db)) /\
  (bcryptCompare rt password (user_password account) = true ->
   user_status account <> "ACTIVE" ->
   login rt req db = (fail 401 "Account is not active", db)) /\
  statusCode (fail (D := LoginData) 401 "Invalid credentials")
  = statusCode (fail (D := LoginData) 401 "Account is not active") /\
  message (fail (D := LoginData) 401 "Invalid credentials")
  <> message (fail (D := LoginData) 401 "Account is not active").
Proof.
  split; [|split; [|split]].
  - intros B. rewrite login_after_lookup, B. reflexivity.
  - intros B S. rewrite login_after_lookup, B.
    apply String.eqb_neq in S. rewrite S. reflexivity.
  - reflexivity.
  - discriminate.
Qed.

End Login.

(** The suspended analyst logs in with the right password, farmer 1 with
    a wrong one: both get 401, with different messages. *)
Lemma login_tells_inactive_from_wrong_password :
  let inactive :=
    fst (AuthController.login Seed.rt (Seed.login_as "analyst@kube.africa" "Sarah") Seed.db) in
  let wrong :=
    fst (AuthController.login Seed.rt (Seed.login_as "farmer@kube.africa" "guess") Seed.db) in
  user_status Seed.analyst = "SUSPENDED" /\
  statusCode inactive = 401 /\ statusCode wrong = 401 /\
  message inactive = Some "Account is not active" /\
  message wrong = Some "Invalid credentials" /\
  inactive <> wrong.
Proof. repeat split. discriminate. Qed.

(** The same two logins, through the theorem, and a login that passes. *)
Lemma login_rejections_401_with_distinct_messages_seed :
  AuthController.login Seed.rt (Seed.login_as "farmer@kube.africa" "guess") Seed.db
  = (fail 401 "Invalid credentials", Seed.db) /\
  AuthController.login Seed.rt (Seed.login_as "analyst@kube.africa" "Sarah") Seed.db
  = (fail 401 "Account is not active", Seed.db) /\
  statusCode (fst (AuthController.login Seed.rt (Seed.login_as "farmer@kube.africa" "Jean")
                     Seed.db)) = 200.
Proof.
  split; [|split; [|reflexivity]].
  - refine (proj1 (login_rejections_401_with_distinct_messages Seed.rt
                     (Seed.login_as "farmer@kube.africa" "guess") Seed.db
                     "farmer@kube.africa" "guess" Seed.farmer1
                     eq_refl _ eq_refl _ eq_refl eq_refl) eq_refl); discriminate.
  - refine (proj1 (proj2 (login_rejections_401_with_distinct_messages Seed.rt
                     (Seed.login_as "analyst@kube.africa" "Sarah") Seed.db
                     "analyst@kube.africa" "Sarah" Seed.analyst
                     eq_refl _ eq_refl _ eq_refl eq_refl)) eq_refl _); discriminate.
Defined.

(** ** Dashboards *)

Section Counting.

Context {A : Type}.

Lemma count_nonneg (p : A -> bool) (l : list A) : 0 <= count p l.
Proof. unfold count. lia. Qed.

Lemma count_all (l : list A) : count (fun _ => true) l = Z.of_nat (List.length l).
Proof.
  unfold count. f_equal. f_equal. induction l; simpl; congruence.
Qed.

Lemma count_ext (p q : A -> bool) (l : list A) :
  (forall x, In x l -> p x = q x) -> count p l = count q l.
Proof.
  unfold count. intros H. f_equal. f_equal.
  induction l as [|x rest IH]; simpl; [reflexivity|].
  rewrite (H x (or_introl eq_refl)). destruct (q x); simpl; rewrite IH; auto;
    intros; apply H; now right.
Qed.

(** Two tests that never hold together split a table in three. *)
Lemma count_split (p q : A -> bool) (l : list A) :
  (forall x, p x && q x = false) ->
  count p l + count q l + count (fun x => negb (p x) && negb (q x)) l
  = count (fun _ => true) l.
Proof.
  intros Hpq. unfold count. induction l as [|x rest IH]; [reflexivity|].
  specialize (Hpq x). cbn [filter].
  destruct (p x), (q x); try discriminate;
    cbn [negb andb List.length]; rewrite ?Nat2Z.inj_succ; lia.
Qed.

(** Two tests that never hold together count separately. *)
Lemma count_or (p q : A -> bool) (l : list A) :
  (forall x, p x && q x = false) ->
  count (fun x => p x || q x) l = count p l + count q l.
Proof.
  intros Hpq. unfold count. induction l as [|x rest IH]; [reflexivity|].
  specialize (Hpq x). cbn [filter].
  destruct (p x), (q x); try discriminate;
    cbn [orb List.length]; rewrite ?Nat2Z.inj_succ; lia.
Qed.

Lemma count_positive (p : A -> bool) (l : list A) :
  0 < count p l <-> exists x, In x l /\ p x = true.
Proof.
  unfold count. split.
  - intros H. destruct (filter p l) as [|x rest] eqn:E; [simpl in H; lia|].
    exists x. apply filter_In. rewrite E. now left.
  - intros (x & Hx). apply filter_In in Hx.
    destruct (filter p l); [contradiction|]. simpl. lia.
Qed.

Lemma count_subset (p q : A -> bool) (l : list A) :
  (forall x, p x = true -> q x = true) -> count p l <= count q l.
Proof.
  intros H. unfold count. induction l as [|x rest IH]; [simpl; lia|].
  specialize (H x). cbn [filter].
  destruct (p x), (q x); cbn [List.length]; rewrite ?Nat2Z.inj_succ; lia.
Qed.

End Counting.

Section LandDashboard.

Lemma healthyZone_spec (z : LandZone) :
  healthyZone z = true <->
  exists level, zone_degradationLevel z = Some level /\ (level < 30 # 1)%Q.
Proof.
  unfold healthyZone. destruct (zone_degradationLevel z) as [level|].
  - rewrite negb_true_iff, <- not_true_iff_false, Qle_bool_iff. split.
    + intros H. exists level. split; [reflexivity|]. now apply Qnot_le_lt.
    + intros (l & [= <-] & H). now apply Qlt_not_le.
  - split; [discriminate|]. intros (l & H & _). discriminate.
Qed.

Lemma degradedZone_spec (z : LandZone) :
  degradedZone z = true <->
  exists level, zone_degradationLevel z = Some level /\ (60 # 1 <= level)%Q.
Proof.
  unfold degradedZone. destruct (zone_degradationLevel z) as [level|].
  - rewrite Qle_bool_iff. split.
    + intros H. exists level. now split.
    + now intros (l & [= <-] & H).
  - split; [discriminate|]. intros (l & H & _). discriminate.
Qed.

Lemma betweenZone_spec (z : LandZone) :
  betweenZone z = true <->
  exists level, zone_degradationLevel z = Some level /\
                (30 # 1 <= level)%Q /\ (level < 60 # 1)%Q.
Proof.
  unfold betweenZone. destruct (zone_degradationLevel z) as [level|].
  - rewrite andb_true_iff, negb_true_iff, <- not_true_iff_false, !Qle_bool_iff. split.
    + intros [H1 H2]. exists level. repeat split; auto. now apply Qnot_le_lt.
    + intros (l & [= <-] & H1 & H2). split; auto. now apply Qlt_not_le.
  - split; [discriminate|]. intros (l & H & _). discriminate.
Qed.

Lemma betweenZone_whole (z : LandZone) (n : Z) :
  zone_degradationLevel z = Some (inject_Z n) ->
  (betweenZone z = true <-> 30 <= n <= 59).
Proof.
  intros Hn. rewrite betweenZone_spec. split.
  - intros (l & Hl & H1 & H2). rewrite Hn in Hl. injection Hl as <-.
    unfold Qle, Qlt in *. simpl in *. lia.
  - intros H. exists (inject_Z n). split; [assumption|].
    unfold Qle, Qlt. simpl. lia.
Qed.

Lemma healthy_not_degraded (z : LandZone) : healthyZone z && degradedZone z = false.
Proof.
  destruct (healthyZone z) eqn:H, (degradedZone z) eqn:D; try reflexivity.
  apply healthyZone_spec in H. apply degradedZone_spec in D.
  destruct H as (l & Hl & H). destruct D as (l' & Hl' & D).
  rewrite Hl in Hl'. injection Hl' as <-.
  exfalso. apply (Qlt_not_le _ _ H). eapply Qle_trans; [|exact D].
  unfold Qle. simpl. lia.
Qed.

Lemma left_out_zones (z : LandZone) :
  negb (healthyZone z) && negb (degradedZone z) = betweenZone z || unmeasuredZone z.
Proof.
  unfold healthyZone, degradedZone, betweenZone, unmeasuredZone.
  destruct (zone_degradationLevel z) as [level|]; [|reflexivity].
  rewrite negb_involutive, orb_false_r. reflexivity.
Qed.

Lemma between_not_unmeasured (z : LandZone) : betweenZone z && unmeasuredZone z = false.
Proof.
  unfold betweenZone, unmeasuredZone.
  destruct (zone_degradationLevel z); [apply andb_false_r | reflexivity].
Qed.

(** C5, as the code has it.  In a land-dashboard response, totalZones
    counts every zone, healthyZones the zones with degradationLevel
    below 30 and degradedZones those with degradationLevel 60 or more.
    A zone with a level from 30 up to, but not including, 60 (for
    whole-number levels: 30 to 59) is in the total and in neither
    bucket, and so is a zone whose level is null.  So healthyZones +
    degradedZones <= totalZones, and the inequality is strict exactly
    when some zone lies in the band or has no level; only when every
    zone has a level is it strict exactly when some zone lies in the
    band. *)
Theorem land_dashboard_zone_buckets
    (rt : Runtime) (req : Request) (db : Db) (d : LandDashboard) :
  data (getLandDashboard rt req db) = Some d ->
  let s := land_stats d in
  stat_totalZones s = Z.of_nat (List.length (landZones db)) /\
  stat_healthyZones s = count healthyZone (landZones db) /\
  stat_degradedZones s = count degradedZone (landZones db) /\
  (forall z, healthyZone z = true <->
     exists level, zone_degradationLevel z = Some level /\ (level < 30 # 1)%Q) /\
  (forall z, degradedZone z = true <->
     exists level, zone_degradationLevel z = Some level /\ (60 # 1 <= level)%Q) /\
  (forall z, betweenZone z = true <->
     exists level, zone_degradationLevel z = Some level /\
                   (30 # 1 <= level)%Q /\ (level < 60 # 1)%Q) /\
  (forall z n, zone_degradationLevel z = Some (inject_Z n) ->
     (betweenZone z = true <-> 30 <= n <= 59)) /\
  stat_healthyZones s + stat_degradedZones s
  + count betweenZone (landZones db) + count unmeasuredZone (landZones db)
  = stat_totalZones s /\
  stat_healthyZones s + stat_degradedZones s <= stat_totalZones s /\
  (stat_healthyZones s + stat_degradedZones s < stat_totalZones s <->
   (exists z level, In z (landZones db) /\ zone_degradationLevel z = Some level /\
                    (30 # 1 <= level)%Q /\ (level < 60 # 1)%Q) \/
   (exists z, In z (landZones db) /\ zone_degradationLevel z = None)) /\
  ((forall z, In z (landZones db) -> zone_degradationLevel z <> None) ->
   (stat_healthyZones s + stat_degradedZones s < stat_totalZones s <->
    exists z level, In z (landZones db) /\ zone_degradationLevel z = Some level /\
                    (30 # 1 <= level)%Q /\ (level < 60 # 1)%Q)).
Proof.
  unfold getLandDashboard, query.
  destruct (rejects rt 0%nat), (rejects rt 1%nat), (rejects rt 2%nat),
    (rejects rt 3%nat), (rejects rt 4%nat), (rejects rt 5%nat);
    cbn [both]; try discriminate.
  cbn [data ok]. intros [= <-].
  cbn [land_stats stat_totalZones stat_healthyZones stat_degradedZones].
  assert (Hh : count (fun z => healthyZone z && true) (landZones db)
               = count healthyZone (landZones db)).
  { apply count_ext. intros z _. apply andb_true_r. }
  assert (Hd : count (fun z => degradedZone z && true) (landZones db)
               = count degradedZone (landZones db)).
  { apply count_ext. intros z _. apply andb_true_r. }
  rewrite Hh, Hd.
  pose proof (count_split healthyZone degradedZone (landZones db) healthy_not_degraded)
    as Hsplit.
  rewrite (count_ext _ (fun z => betweenZone z || unmeasuredZone z) (landZones db)
             (fun z _ => left_out_zones z)) in Hsplit.
  rewrite (count_or betweenZone unmeasuredZone (landZones db) between_not_unmeasured)
    in Hsplit.
  pose proof (count_nonneg betweenZone (landZones db)) as Hb.
  pose proof (count_nonneg unmeasuredZone (landZones db)) as Hu.
  split; [apply count_all|].
  split; [reflexivity|]. split; [reflexivity|].
  split; [apply healthyZone_spec|]. split; [apply degradedZone_spec|].
  split; [apply betweenZone_spec|]. split; [apply betweenZone_whole|].
  split; [lia|]. split; [lia|].
  split.
  { split.
    - intros H.
      destruct (Z.eq_dec (count betweenZone (landZones db)) 0) as [Hzero|Hne].
      + right.
        assert (Hpos : 0 < count unmeasuredZone (landZones db)) by lia.
        apply count_positive in Hpos. destruct Hpos as (z & Hz & Hn).
        exists z. split; [assumption|]. unfold unmeasuredZone in Hn.
        destruct (zone_degradationLevel z); [discriminate | reflexivity].
      + left.
        assert (Hpos : 0 < count betweenZone (landZones db)) by lia.
        apply count_positive in Hpos. destruct Hpos as (z & Hz & Hbz).
        apply betweenZone_spec in Hbz. destruct Hbz as (level & Hl & H1 & H2).
        exists z, level. auto.
    - intros [(z & level & Hz & Hl & H1 & H2)|(z & Hz & Hl)].
      + assert (Hpos : 0 < count betweenZone (landZones db)).
        { apply count_positive. exists z. split; [assumption|].
          apply betweenZone_spec. exists level. auto. }
        lia.
      + assert (Hpos : 0 < count unmeasuredZone (landZones db)).
        { apply count_positive. exists z. split; [assumption|].
          unfold unmeasuredZone. now rewrite Hl. }
        lia. }
  intros Hmeasured.
  assert (Hnone : count unmeasuredZone (landZones db) = 0).
  { destruct (Z.eq_dec (count unmeasuredZone (landZones db)) 0) as [|Hne]; [assumption|].
    assert (Hpos : 0 < count unmeasuredZone (landZones db)) by lia.
    apply count_positive in Hpos. destruct Hpos as (z & Hz & Hn).
    exfalso. apply (Hmeasured z Hz). unfold unmeasuredZone in Hn.
    destruct (zone_degradationLevel z); [discriminate | reflexivity]. }
  split.
  - intros H.
    assert (Hpos : 0 < count betweenZone (landZones db)) by lia.
    apply count_positive in Hpos. destruct Hpos as (z & Hz & Hbz).
    apply betweenZone_spec in Hbz. destruct Hbz as (level & Hl & H1 & H2).
    exists z, level. auto.
  - intros (z & level & Hz & Hl & H1 & H2).
    assert (Hpos : 0 < count betweenZone (landZones db)).
    { apply count_positive. exists z. split; [assumption|].
      apply betweenZone_spec. exists level. auto. }
    lia.
Qed.

End LandDashboard.

(** The seed's four zones: levels 12 and 22 are healthy, 60 is degraded,
    38 is neither, so the two buckets hold fewer zones than there are. *)
Lemma land_dashboard_zone_buckets_seed :
  option_map (fun d => (stat_totalZones (land_stats d), stat_healthyZones (land_stats d),
                        stat_degradedZones (land_stats d)))
    (data (getLandDashboard Seed.rt (Seed.request_of Seed.analyst [] [] []) Seed.db))
  = Some (4, 2, 1) /\
  2 + 1 + count betweenZone (landZones Seed.db) + count unmeasuredZone (landZones Seed.db)
  = 4 /\
  (2 + 1 < 4 <->
   (exists z level, In z (landZones Seed.db) /\ zone_degradationLevel z = Some level /\
                    (30 # 1 <= level)%Q /\ (level < 60 # 1)%Q) \/
   (exists z, In z (landZones Seed.db) /\ zone_degradationLevel z = None)) /\
  zone_degradationLevel Seed.zone1 = Some (38 # 1).
Proof.
  split; [reflexivity|].
  pose proof (land_dashboard_zone_buckets Seed.rt (Seed.request_of Seed.analyst [] [] [])
                Seed.db _ eq_refl) as H.
  cbv zeta in H.
  split; [exact (proj1 (proj2 (proj2 (proj2 (proj2 (proj2 (proj2 (proj2 H))))))))|].
  split; [|reflexivity].
  exact (proj1 (proj2 (proj2 (proj2 (proj2 (proj2 (proj2 (proj2 (proj2 (proj2 H)))))))))).
Defined.

(** A zone as [createLandZone] leaves it has no degradation level: it
    is in totalZones and in neither bucket, though no zone lies in the
    band from 30 to 59. *)
Lemma zone_without_level_is_in_neither_bucket :
  let db := Scenario.with_zones [Scenario.zone5] in
  option_map (fun d => (stat_totalZones (land_stats d), stat_healthyZones (land_stats d),
                        stat_degradedZones (land_stats d)))
    (data (getLandDashboard Seed.rt (Seed.request_of Seed.analyst [] [] []) db))
  = Some (1, 0, 0) /\
  0 + 0 < 1 /\
  zone_degradationLevel Scenario.zone5 = None /\
  (forall z, In z (landZones db) -> betweenZone z = false) /\
  (forall z level, In z (landZones db) -> zone_degradationLevel z = Some level ->
     ~ ((30 # 1 <= level)%Q /\ (level < 60 # 1)%Q)).
Proof.
  cbv zeta. split; [reflexivity|]. split; [reflexivity|]. split; [reflexivity|].
  split.
  - intros z [<-|[]]. reflexivity.
  - intros z level [<-|[]] H. discriminate H.
Qed.

Section AllOrNothing.

Lemma both_rejected_l {A B : Type} (q : outcome B) : both (@Rejected A) q = Rejected.
Proof. reflexivity. Qed.

Lemma both_rejected_r {A B : Type} (p : outcome A) : both p (@Rejected B) = Rejected.
Proof. now destruct p. Qed.

Lemma query_rejected {A : Type} (rt : Runtime) (n : nat) (r : outcome A) :
  rejects rt n = true -> query rt n r = Rejected.
Proof. unfold query. now intros ->. Qed.

Lemma query_taken {A : Type} (rt : Runtime) (n : nat) (r : outcome A) :
  rejects rt n = false -> query rt n r = r.
Proof. unfold query. now intros ->. Qed.

Variables (rt : Runtime) (req : Request) (db : Db).

Ltac rejected_to_500 H :=
  let n := fresh "n" in
  let Hlt := fresh "Hlt" in
  let Hn := fresh "Hn" in
  destruct H as (n & Hlt & Hn);
  repeat (destruct n as [|n];
          [ rewrite (query_rejected _ _ _ Hn), ?both_rejected_l, ?both_rejected_r;
            reflexivity
          | ]);
  exfalso; lia.

Ltac resolved_to_200 H :=
  repeat match goal with
         | |- context [query rt ?n ?r] =>
             rewrite (query_taken rt n r) by (apply H; lia)
         end;
  cbn [both]; reflexivity.

(** C8.  Each of the four dashboard handlers answers from the results
    of all its queries or from none of them.  If any one of its queries
    is rejected the answer is the handler's 500 with its fixed message,
    success false and no data; if every query resolves the answer is 200
    with the combined data: every field of the response is the result
    of its query, and the health rates are computed from the counts. *)
Theorem dashboards_all_or_nothing :
  ((some_rejected rt 8 ->
      getOverviewStats rt req db = fail 500 "Failed to get overview statistics") /\
   (all_resolve rt 8 ->
      getOverviewStats rt req db
      = ok {| overview_stats :=
                {| stat_farms :=
                     count (fun f => unless (isAdmin req) (equals (userId req) (farm_ownerId f)))
                       (farms db);
                   stat_herds :=
                     count (fun h => unless (isAdmin req)
                                       (farm_ownedBy db (userId req) (Some (herd_farmId h))))
                       (herds db);
                   stat_animals := count (animal_in_scope req db) (animals db);
                   stat_parks :=
                     count (fun p => unless (isAdmin req)
                                       (equals (userId req) (park_managerId p)))
                       (parks db);
                   stat_wildlife :=
                     count (fun w => unless (isAdmin req)
                                       (park_managedBy db (userId req) (population_parkId w)))
                       (wildlifePopulations db);
                   stat_landZones := count (fun _ => true) (landZones db);
                   stat_activeAlerts :=
                     count (fun a => AND [ isNot "RESOLVED" (alert_status a);
                                           spread (negb (isAdmin req))
                                             (equals_nullable (userId req)
                                                (alert_assignedToId a)) ])
                       (alerts db) |};
              overview_recentActivities :=
                take 10 (orderBy (desc activity_timestamp)
                           (filter (fun a => unless (isAdmin req)
                                               (equals (userId req) (activity_userId a)))
                              (activities db))) |})) /\
  ((some_rejected rt 7 ->
      getFarmDashboard rt req db = fail 500 "Failed to get farm dashboard data") /\
   (all_resolve rt 7 ->
      let owned a :=
        spread (negb (isAdmin req)) (herd_farm_ownedBy db (userId req) (animal_herdId a)) in
      let total := count (animal_in_scope req db) (animals db) in
      let healthy :=
        count (fun a => AND [ equals (Some "HEALTHY") (animal_status a); owned a ])
          (animals db) in
      getFarmDashboard rt req db
      = ok {| farm_stats :=
                {| stat_totalAnimals := total;
                   stat_healthyAnimals := healthy;
                   stat_sickAnimals :=
                     count (fun a => AND [ equals (Some "SICK") (animal_status a); owned a ])
                       (animals db);
                   stat_missingAnimals :=
                     count (fun a => AND [ equals (Some "MISSING") (animal_status a);
                                           owned a ])
                       (animals db);
                   stat_healthRate := healthRate rt healthy total |};
              farm_herds :=
                take 10 (orderBy (desc herd_updatedAt)
                           (filter (fun h => unless (isAdmin req)
                                               (farm_ownedBy db (userId req)
                                                  (Some (herd_farmId h))))
                              (herds db)));
              farm_recentAlerts :=
                take 5 (orderBy (desc alert_createdAt)
                          (filter (fun a => AND [ equals (Some "farm") (alert_module a);
                                                  isNot "RESOLVED" (alert_status a);
                                                  spread (negb (isAdmin req))
                                                    (farm_ownedBy db (userId req)
                                                       (alert_farmId a)) ])
                             (alerts db)));
              farm_healthTrend :=
                map (fun g => (fst g, Z.of_nat (List.length (snd g))))
                  (groupBy event_type
                     (filter (event_in_trend rt req db) (healthEvents db))) |})) /\
  ((some_rejected rt 6 ->
      getParkDashboard rt req db = fail 500 "Failed to get park dashboard data") /\
   (all_resolve rt 6 ->
      let shown :=
        take 5 (orderBy (desc incident_reportedAt)
                  (filter (incident_listed req db) (incidents db))) in
      getParkDashboard rt req db
      = ok {| park_stats :=
                {| stat_parksCount :=
                     count (fun p => unless (isAdmin req)
                                       (equals (userId req) (park_managerId p)))
                       (parks db);
                   stat_wildlifeSpecies :=
                     count (fun w => unless (isAdmin req)
                                       (park_managedBy db (userId req) (population_parkId w)))
                       (wildlifePopulations db);
                   stat_activePatrols :=
                     count (fun p => AND [ isIn ["SCHEDULED"; "IN_PROGRESS"] (patrol_status p);
                                           spread (negb (isAdmin req))
                                             (park_managedBy db (userId req)
                                                (patrol_parkId p)) ])
                       (patrols db);
                   stat_incidentsCount := Z.of_nat (List.length shown) |};
              park_recentIncidents := shown;
              park_wildlifePopulations :=
                take 10 (orderBy (desc population_estimatedCount)
                           (filter (fun w => unless (isAdmin req)
                                               (park_managedBy db (userId req)
                                                  (population_parkId w)))
                              (wildlifePopulations db)));
              park_censusData :=
                map (fun g => (fst g, sum (map sighting_count (snd g))))
                  (groupBy sighting_populationId
                     (filter (sighting_in_census rt) (wildlifeSightings db))) |})) /\
  ((some_rejected rt 6 ->
      getLandDashboard rt req db = fail 500 "Failed to get land dashboard data") /\
   (all_resolve rt 6 ->
      let total := count (fun _ => true) (landZones db) in
      let healthy := count (fun z => AND [ Some (healthyZone z) ]) (landZones db) in
      getLandDashboard rt req db
      = ok {| land_stats :=
                {| stat_totalZones := total;
                   stat_healthyZones := healthy;
                   stat_degradedZones :=
                     count (fun z => AND [ Some (degradedZone z) ]) (landZones db);
                   stat_landHealthRate := healthRate rt healthy total |};
              land_recentChanges := take 5 (orderBy (desc change_detectedAt) (landChanges db));
              land_vegetationTrend :=
                map (fun g => {| trend_zoneId := fst g;
                                 trend_ndvi := avg (map survey_ndvi (snd g));
                                 trend_healthScore := avg (map survey_healthScore (snd g)) |})
                  (groupBy survey_zoneId (filter (survey_in_trend rt) (landSurveys db)));
              land_zones := take 20 (landZones db) |})).
Proof.
  unfold some_rejected, all_resolve.
  split; [|split; [|split]]; split; intros H.
  - unfold getOverviewStats. rejected_to_500 H.
  - unfold getOverviewStats. resolved_to_200 H.
  - unfold getFarmDashboard. rejected_to_500 H.
  - unfold getFarmDashboard. resolved_to_200 H.
  - unfold getParkDashboard. rejected_to_500 H.
  - unfold getParkDashboard. resolved_to_200 H.
  - unfold getLandDashboard. rejected_to_500 H.
  - unfold getLandDashboard. resolved_to_200 H.
Qed.

End AllOrNothing.

(** The farm dashboard of farmer 1 when its herd query (the fifth) is
    rejected, and when every query resolves. *)
Lemma dashboards_all_or_nothing_seed :
  getFarmDashboard (Seed.rt_rejecting 4) (Seed.request_of Seed.farmer1 [] [] []) Seed.db
  = fail 500 "Failed to get farm dashboard data" /\
  getFarmDashboard Seed.rt (Seed.request_of Seed.farmer1 [] [] []) Seed.db
  = ok {| farm_stats :=
            {| stat_totalAnimals := 3; stat_healthyAnimals := 2; stat_sickAnimals := 1;
               stat_missingAnimals := 0; stat_healthRate := "66.7" |};
          farm_herds := [Seed.herd1];
          farm_recentAlerts := [Seed.alert3; Seed.alert2; Seed.alert1];
          farm_healthTrend := [] |}.
Proof.
  split.
  - apply (proj1 (proj1 (proj2 (dashboards_all_or_nothing (Seed.rt_rejecting 4)
                                  (Seed.request_of Seed.farmer1 [] [] []) Seed.db)))).
    exists 4%nat. split; [lia | reflexivity].
  - rewrite (proj2 (proj1 (proj2 (dashboards_all_or_nothing Seed.rt
                                    (Seed.request_of Seed.farmer1 [] [] []) Seed.db)))
               (fun n _ => eq_refl)).
    vm_compute. reflexivity.
Defined.

(** ** Binary64 arithmetic on counts stays finite

    Bounds on what [SpecFloat]'s rounding returns, enough to know that
    the quotient of two counts below 2^53, times 100, is zero or a
    positive finite number below 10^21. *)

Section Binary64.

Lemma digits2_pos_size (p : positive) : digits2_pos p = Pos.size p.
Proof. induction p; simpl; congruence. Qed.

Lemma digits_upper (p : positive) : Zpos p < 2 ^ Zpos (digits2_pos p).
Proof.
  rewrite digits2_pos_size. pose proof (Pos.size_gt p) as H.
  apply Pos2Z.pos_lt_pos in H. now rewrite Pos2Z.inj_pow in H.
Qed.

Lemma digits_lower (p : positive) : 2 ^ (Zpos (digits2_pos p) - 1) <= Zpos p.
Proof.
  rewrite digits2_pos_size. pose proof (Pos.size_le p) as H.
  apply Pos2Z.pos_le_pos in H. rewrite Pos2Z.inj_pow in H.
  replace (Zpos (Pos.size p)) with (Z.succ (Zpos (Pos.size p) - 1)) in H by lia.
  rewrite Z.pow_succ_r in H by lia. lia.
Qed.

Lemma Zdigits2_nonneg (m : Z) : 0 <= Zdigits2 m.
Proof. destruct m; simpl; lia. Qed.

Lemma Zdigits2_upper (m : Z) : 0 <= m -> m < 2 ^ Zdigits2 m.
Proof.
  destruct m as [|p|p]; simpl; intros H; try lia. apply digits_upper.
Qed.

Lemma Zdigits2_le (m k : Z) : 0 <= m -> 0 <= k -> m < 2 ^ k -> Zdigits2 m <= k.
Proof.
  intros Hm Hk H. destruct m as [|p|p]; simpl; try lia.
  pose proof (digits_lower p) as L.
  destruct (Z_le_gt_dec (Zpos (digits2_pos p)) k) as [|G]; [assumption|].
  exfalso. assert (2 ^ k <= 2 ^ (Zpos (digits2_pos p) - 1)) by (apply Z.pow_le_mono_r; lia).
  lia.
Qed.

Lemma shr_1_m (r : shr_record) : 0 <= shr_m r -> shr_m (shr_1 r) = shr_m r / 2.
Proof.
  destruct r as [m r s]. cbn [shr_m].
  destruct m as [|[p|p|]|p]; cbn [shr_1 shr_m]; intros H; try lia;
    first [ reflexivity
          | apply Z.div_unique with (r := 1); lia
          | apply Z.div_unique with (r := 0); lia ].
Qed.

Lemma iter_shr_1_m (p : positive) : forall r : shr_record,
  0 <= shr_m r -> shr_m (iter_pos shr_1 p r) = shr_m r / 2 ^ Zpos p.
Proof.
  assert (Hnn : forall r, 0 <= shr_m r -> 0 <= shr_m (shr_1 r)).
  { intros r H. rewrite shr_1_m by assumption. apply Z.div_pos; lia. }
  induction p as [p IH|p IH|]; intros r H; cbn [iter_pos].
  - assert (H1 := Hnn r H).
    assert (P : 2 ^ Zpos p~1 = 2 * (2 ^ Zpos p * 2 ^ Zpos p)).
    { rewrite <- Z.pow_add_r, <- Z.pow_succ_r by lia. f_equal. lia. }
    assert (H2 : 0 <= shr_m (iter_pos shr_1 p (shr_1 r))).
    { rewrite IH by assumption. apply Z.div_pos; [assumption|apply Z.pow_pos_nonneg; lia]. }
    rewrite IH, IH, shr_1_m, P by assumption.
    rewrite !Z.div_div by (try apply Z.pow_pos_nonneg; lia).
    first [reflexivity | f_equal; lia].
  - assert (P : 2 ^ Zpos p~0 = 2 ^ Zpos p * 2 ^ Zpos p).
    { rewrite <- Z.pow_add_r by lia. f_equal. lia. }
    assert (H2 : 0 <= shr_m (iter_pos shr_1 p r)).
    { rewrite IH by assumption. apply Z.div_pos; [assumption|apply Z.pow_pos_nonneg; lia]. }
    rewrite IH, IH, P by assumption.
    rewrite !Z.div_div by (try apply Z.pow_pos_nonneg; lia).
    first [reflexivity | f_equal; lia].
  - now apply shr_1_m.
Qed.

Lemma shr_record_of_loc_m (m : Z) (l : location) : shr_m (shr_record_of_loc m l) = m.
Proof. destruct l as [|[| |]]; reflexivity. Qed.

(** The first component and exponent of [shr_fexp]. *)
Lemma shr_fexp_spec (m e : Z) (l : location) :
  0 <= m ->
  let s := Z.max 0 (fexp 53 1024 (Zdigits2 m + e) - e) in
  shr_m (fst (shr_fexp 53 1024 m e l)) = m / 2 ^ s /\
  snd (shr_fexp 53 1024 m e l) = e + s.
Proof.
  intros Hm s. unfold shr_fexp, shr. subst s.
  destruct (fexp 53 1024 (Zdigits2 m + e) - e) as [|p|p] eqn:E; simpl fst; simpl snd.
  - rewrite shr_record_of_loc_m. simpl. rewrite Z.div_1_r. split; lia.
  - rewrite iter_shr_1_m by (rewrite shr_record_of_loc_m; assumption).
    rewrite shr_record_of_loc_m. rewrite Z.max_r by lia. split; reflexivity.
  - rewrite shr_record_of_loc_m. rewrite Z.max_l by lia. simpl. rewrite Z.div_1_r.
    split; lia.
Qed.

Lemma fexp_eq (x : Z) : fexp 53 1024 x = Z.max (x - 53) (-1074).
Proof. reflexivity. Qed.

Lemma round_nearest_even_range (m : Z) (l : location) :
  round_nearest_even m l = m \/ round_nearest_even m l = m + 1.
Proof.
  destruct l as [|[| |]]; simpl; auto. destruct (Z.even m); auto.
Qed.

Lemma binary_round_aux_range (mx ex : Z) (lx : location) (E : Z) :
  0 <= mx ->
  Z.max ex (fexp 53 1024 (Zdigits2 mx + ex)) + 1 <= E -> E <= 971 ->
  binary_round_aux 53 1024 false mx ex lx = S754_zero false \/
  exists m e, binary_round_aux 53 1024 false mx ex lx = S754_finite false m e /\
              Zpos m < 2 ^ 53 /\ e <= E.
Proof.
  intros Hm HE HE'. unfold binary_round_aux.
  pose proof (shr_fexp_spec mx ex lx Hm) as S1. cbv zeta in S1.
  destruct (shr_fexp 53 1024 mx ex lx) as [mrs' e'] eqn:E1.
  cbn [fst snd] in S1. rewrite fexp_eq in S1, HE. destruct S1 as [M1 X1].
  set (s := Z.max 0 (Z.max (Zdigits2 mx + ex - 53) (-1074) - ex)) in *.
  pose proof (Zdigits2_upper mx Hm) as Hd.
  pose proof (Zdigits2_nonneg mx) as Hdn.
  assert (Hs : 0 <= s) by (subst s; lia).
  assert (H1 : 0 <= shr_m mrs' < 2 ^ 53).
  { rewrite M1. split; [apply Z.div_pos; [lia|apply Z.pow_pos_nonneg; lia]|].
    apply Z.div_lt_upper_bound; [apply Z.pow_pos_nonneg; lia|].
    rewrite <- Z.pow_add_r by lia.
    eapply Z.lt_le_trans; [exact Hd|]. apply Z.pow_le_mono_r; subst s; lia. }
  assert (He' : -1074 <= e') by (subst e' s; lia).
  assert (He'u : e' + 1 <= E) by (subst e' s; lia).
  set (m2 := round_nearest_even (shr_m mrs') (loc_of_shr_record mrs')).
  assert (H2 : 0 <= m2 <= 2 ^ 53).
  { subst m2. destruct (round_nearest_even_range (shr_m mrs') (loc_of_shr_record mrs'))
      as [-> | ->]; lia. }
  pose proof (shr_fexp_spec m2 e' loc_Exact (proj1 H2)) as S2. cbv zeta in S2.
  destruct (shr_fexp 53 1024 m2 e' loc_Exact) as [mrs'' e''] eqn:E2.
  cbn [fst snd] in S2. rewrite fexp_eq in S2. destruct S2 as [M2 X2].
  assert (H3 : 0 <= shr_m mrs'' < 2 ^ 53 /\ e'' <= e' + 1).
  { destruct (Z.eq_dec m2 (2 ^ 53)) as [Heq|Hne].
    - rewrite Heq in *. change (Zdigits2 (2 ^ 53)) with 54 in *.
      replace (Z.max 0 (Z.max (54 + e' - 53) (-1074) - e')) with 1 in * by lia.
      rewrite M2, X2. change (2 ^ 53 / 2 ^ 1) with (2 ^ 52). lia.
    - assert (Hd2 : Zdigits2 m2 <= 53) by (apply Zdigits2_le; lia).
      replace (Z.max 0 (Z.max (Zdigits2 m2 + e' - 53) (-1074) - e')) with 0 in * by lia.
      rewrite M2, X2. change (2 ^ 0) with 1. rewrite Z.div_1_r. lia. }
  destruct H3 as [H3 H3e].
  destruct (shr_m mrs'') as [|p|p] eqn:E3; [left; reflexivity| |lia].
  right. replace (e'' <=? 1024 - 53) with true by (symmetry; apply Z.leb_le; lia).
  exists p, e''. repeat split; lia.
Qed.

Lemma shr_fexp_noshift (m e : Z) (l : location) :
  fexp 53 1024 (Zdigits2 m + e) - e <= 0 ->
  shr_fexp 53 1024 m e l = (shr_record_of_loc m l, e).
Proof.
  unfold shr_fexp, shr. intros H.
  destruct (fexp 53 1024 (Zdigits2 m + e) - e); [reflexivity|lia|reflexivity].
Qed.

Lemma binary_round_aux_normal (m : positive) (e : Z) :
  Zpos (digits2_pos m) = 53 -> -1074 <= e <= 971 ->
  binary_round_aux 53 1024 false (Zpos m) e loc_Exact = S754_finite false m e.
Proof.
  intros Hd He. unfold binary_round_aux.
  assert (Hs : fexp 53 1024 (Zdigits2 (Zpos m) + e) - e <= 0).
  { rewrite fexp_eq. cbn [Zdigits2]. lia. }
  rewrite (shr_fexp_noshift _ _ _ Hs). cbn [shr_record_of_loc loc_of_shr_record shr_m
                                            round_nearest_even].
  rewrite (shr_fexp_noshift _ _ _ Hs). cbn [shr_record_of_loc shr_m].
  replace (e <=? 1024 - 53) with true by (symmetry; apply Z.leb_le; lia).
  reflexivity.
Qed.

Lemma digits_iter_xO (p k : positive) :
  Zpos (digits2_pos (Pos.iter xO p k)) = Zpos (digits2_pos p) + Zpos k.
Proof.
  induction k as [|k IH] using Pos.peano_ind.
  - cbn [Pos.iter digits2_pos]. lia.
  - rewrite Pos.iter_succ. cbn [digits2_pos]. lia.
Qed.

Lemma Number_normal (n : Z) :
  0 < n < 2 ^ 53 ->
  exists m e, Number n = S754_finite false m e /\
              Zpos (digits2_pos m) = 53 /\ -52 <= e <= 0.
Proof.
  intros Hn. destruct n as [|p|p]; try lia.
  unfold Number, binary_normalize, binary_round, shl_align.
  pose proof (digits_lower p) as Hl.
  assert (Hd : 1 <= Zpos (digits2_pos p) <= 53).
  { split; [lia|]. apply (Zdigits2_le (Zpos p) 53); lia. }
  rewrite fexp_eq.
  destruct (Z.max (Zpos (digits2_pos p) + 0 - 53) (-1074) - 0) as [|k|k] eqn:E; try lia.
  - exists p, 0. split; [apply binary_round_aux_normal; lia|]. lia.
  - exists (Pos.iter xO p k), (Z.max (Zpos (digits2_pos p) + 0 - 53) (-1074)).
    pose proof (digits_iter_xO p k) as Hk.
    split; [apply binary_round_aux_normal; lia|]. lia.
Qed.

Lemma SFdiv_range (m1 m2 : positive) (e1 e2 : Z) :
  Zpos (digits2_pos m1) = 53 -> Zpos (digits2_pos m2) = 53 ->
  -52 <= e1 <= 0 -> -52 <= e2 <= 0 ->
  SFdiv 53 1024 (S754_finite false m1 e1) (S754_finite false m2 e2) = S754_zero false \/
  exists m e, SFdiv 53 1024 (S754_finite false m1 e1) (S754_finite false m2 e2)
              = S754_finite false m e /\ Zpos m < 2 ^ 53 /\ e <= 1.
Proof.
  intros D1 D2 E1 E2. unfold SFdiv, SFdiv_core_binary. cbn [xorb Zdigits2].
  rewrite D1, D2, fexp_eq.
  replace (Z.min (Z.max (53 + e1 - (53 + e2) - 53) (-1074)) (e1 - e2))
    with (e1 - e2 - 53) by lia.
  replace (e1 - e2 - (e1 - e2 - 53)) with 53 by lia.
  pose proof (digits_upper m1) as U1. pose proof (digits_lower m2) as L2.
  rewrite D1 in U1. rewrite D2 in L2. change (2 ^ (53 - 1)) with (2 ^ 52) in L2.
  assert (Hq : Z.div_eucl (Z.shiftl (Zpos m1) 53) (Zpos m2)
               = (Z.shiftl (Zpos m1) 53 / Zpos m2, Z.shiftl (Zpos m1) 53 mod Zpos m2)).
  { unfold Z.div, Z.modulo. now destruct (Z.div_eucl _ _). }
  rewrite Hq. rewrite Z.shiftl_mul_pow2 by lia.
  set (q := Zpos m1 * 2 ^ 53 / Zpos m2).
  assert (Hq0 : 0 <= q < 2 ^ 54).
  { subst q. split; [apply Z.div_pos; lia|].
    apply Z.div_lt_upper_bound; [lia|].
    change (2 ^ 54) with (2 ^ 1 * 2 ^ 53). nia. }
  apply binary_round_aux_range; try lia.
  rewrite fexp_eq. pose proof (Zdigits2_le q 54 ltac:(lia) ltac:(lia) ltac:(lia)). lia.
Qed.

Lemma SFmul_100_range (m : positive) (e : Z) :
  Zpos m < 2 ^ 53 -> e <= 1 ->
  SFmul 53 1024 (S754_finite false m e) (Number 100) = S754_zero false \/
  exists m' e', SFmul 53 1024 (S754_finite false m e) (Number 100)
                = S754_finite false m' e' /\ Zpos m' < 2 ^ 53 /\ e' <= 9.
Proof.
  intros Hm He.
  change (Number 100) with (S754_finite false 7036874417766400 (-46)).
  unfold SFmul. cbn [xorb].
  apply binary_round_aux_range; try lia.
  rewrite fexp_eq.
  assert (Hp : Zpos (m * 7036874417766400) < 2 ^ 106).
  { rewrite Pos2Z.inj_mul. change (2 ^ 106) with (2 ^ 53 * 2 ^ 53).
    assert (Zpos 7036874417766400 < 2 ^ 53) by reflexivity. nia. }
  pose proof (Zdigits2_le (Zpos (m * 7036874417766400)) 106 ltac:(lia) ltac:(lia) Hp).
  lia.
Qed.

Lemma percent_range (part total : Z) :
  0 <= part < 2 ^ 53 -> 0 < total < 2 ^ 53 ->
  let x := number_mul (number_div (Number part) (Number total)) (Number 100) in
  x = S754_zero false \/
  exists m e, x = S754_finite false m e /\ Zpos m < 2 ^ 53 /\ e <= 9.
Proof.
  intros Hp Ht x. subst x. unfold number_mul, number_div.
  destruct (Number_normal total Ht) as (m2 & e2 & -> & D2 & E2).
  destruct (Z.eq_dec part 0) as [-> | Hne].
  - left. reflexivity.
  - destruct (Number_normal part ltac:(lia)) as (m1 & e1 & -> & D1 & E1).
    destruct (SFdiv_range m1 m2 e1 e2 D1 D2 E1 E2) as [-> | (m & e & -> & Hm & He)].
    + left. reflexivity.
    + now apply SFmul_100_range.
Qed.

Lemma below_1e21_small (m : positive) (e : Z) :
  Zpos m < 2 ^ 53 -> e <= 9 -> below_1e21 m e = true.
Proof.
  intros Hm He. unfold below_1e21, scaled_num, scaled_den. apply Z.ltb_lt.
  destruct (Z_le_gt_dec 0 e) as [Hpos|Hneg].
  - rewrite (Z.max_l e 0), (Z.max_r (- e) 0) by lia.
    assert (2 ^ e <= 2 ^ 9) by (apply Z.pow_le_mono_r; lia).
    assert (0 < 2 ^ e) by (apply Z.pow_pos_nonneg; lia).
    change (2 ^ 0) with 1. change (2 ^ 9) with 512 in *.
    change (2 ^ 53) with 9007199254740992 in *.
    change (10 ^ 21) with 1000000000000000000000. nia.
  - rewrite (Z.max_r e 0), (Z.max_l (- e) 0) by lia.
    assert (0 < 2 ^ (- e)) by (apply Z.pow_pos_nonneg; lia).
    change (2 ^ 0) with 1.
    change (2 ^ 53) with 9007199254740992 in *.
    change (10 ^ 21) with 1000000000000000000000. nia.
Qed.

End Binary64.

(** ** [toFixed(1)] rounds to the nearest tenth *)

Section ToFixed.

Lemma scaled_den_pos (e : Z) : 0 < scaled_den e.
Proof. unfold scaled_den. apply Z.pow_pos_nonneg; lia. Qed.

Lemma scaled_num_pos (m : positive) (e : Z) : 0 < scaled_num m e.
Proof.
  unfold scaled_num. apply Z.mul_pos_pos; [lia|]. apply Z.pow_pos_nonneg; lia.
Qed.

Lemma rounds_to_tenths_Z (m : positive) (e : Z) (n : Z) :
  rounds_to_tenths m e n <->
  2 * scaled_den e * n <= 2 * (10 * scaled_num m e) + scaled_den e
                       < 2 * scaled_den e * (n + 1).
Proof.
  pose proof (scaled_den_pos e) as HD.
  unfold rounds_to_tenths, value, Qlt, Qle, Qminus, Qplus, Qmult, Qopp, inject_Z.
  cbn [Qnum Qden]. rewrite !Pos2Z.inj_mul, !Z2Pos.id by assumption.
  change (Z.pos 1) with 1. change (Z.pos 2) with 2.
  set (D := scaled_den e) in *. set (N := scaled_num m e). nia.
Qed.

Lemma tenths_rounds (m : positive) (e : Z) : rounds_to_tenths m e (tenths m e).
Proof.
  apply rounds_to_tenths_Z. unfold tenths.
  pose proof (scaled_den_pos e) as HD.
  set (D := scaled_den e) in *. set (N := scaled_num m e).
  pose proof (Z.div_mod (2 * (10 * N) + D) (2 * D) ltac:(lia)) as Hdm.
  pose proof (Z.mod_pos_bound (2 * (10 * N) + D) (2 * D) ltac:(lia)) as Hb.
  nia.
Qed.

Lemma rounds_to_tenths_unique (m : positive) (e : Z) (n n' : Z) :
  rounds_to_tenths m e n -> rounds_to_tenths m e n' -> n = n'.
Proof.
  rewrite !rounds_to_tenths_Z. pose proof (scaled_den_pos e) as HD.
  set (D := scaled_den e) in *. set (N := scaled_num m e). nia.
Qed.

End ToFixed.

Section FarmDashboard.

Variables (rt : Runtime) (req : Request) (db : Db).

Lemma healthy_among_all (a : Animal) :
  AND [ equals (Some "HEALTHY") (animal_status a);
        spread (negb (isAdmin req)) (herd_farm_ownedBy db (userId req) (animal_herdId a)) ]
  = true ->
  unless (isAdmin req) (herd_farm_ownedBy db (userId req) (animal_herdId a)) = true.
Proof.
  unfold unless, spread, AND. cbn [forallb].
  destruct (negb (isAdmin req)); [|reflexivity].
  rewrite !andb_true_iff. tauto.
Qed.

(** C4, as the code has it.  In a farm-dashboard response with fewer
    than 2^53 animals, healthyAnimals is at most totalAnimals; healthRate
    is the string "0" when totalAnimals is 0; and when totalAnimals is
    positive it is the binary64 number (healthyAnimals / totalAnimals) *
    100 rounded to one decimal place: that number is zero or positive,
    finite and below 10^21, and healthRate is the decimal with one
    fractional digit nearest to it, the larger one when it lies midway
    between two.  The number is the product of two roundings and need
    not be the exact percentage, so healthRate need not be the exact
    percentage rounded. *)
Theorem farm_dashboard_healthRate (d : FarmDashboard) :
  data (getFarmDashboard rt req db) = Some d ->
  stat_totalAnimals (farm_stats d) < 2 ^ 53 ->
  let s := farm_stats d in
  let total := stat_totalAnimals s in
  let healthy := stat_healthyAnimals s in
  let x := number_mul (number_div (Number healthy) (Number total)) (Number 100) in
  0 <= healthy <= total /\
  (total = 0 -> stat_healthRate s = "0") /\
  (0 < total ->
   (x = S754_zero false /\ stat_healthRate s = "0.0") \/
   (exists m e n,
      x = S754_finite false m e /\ rounds_to_tenths m e n /\
      stat_healthRate s = fixed1 n)).
Proof.
  unfold getFarmDashboard, query.
  destruct (rejects rt 0%nat), (rejects rt 1%nat), (rejects rt 2%nat),
    (rejects rt 3%nat), (rejects rt 4%nat), (rejects rt 5%nat), (rejects rt 6%nat);
    cbn [both]; try discriminate.
  cbn [data ok].
  set (total := count _ (animals db)).
  set (healthy := count (fun a => AND [equals (Some "HEALTHY") (animal_status a); _])
                    (animals db)).
  remember (healthRate rt healthy total) as rate eqn:Hrate.
  intros [= <-].
  cbn [farm_stats stat_totalAnimals stat_healthyAnimals stat_healthRate].
  intros Hbound.
  assert (Hle : 0 <= healthy <= total).
  { split; [apply count_nonneg|]. apply count_subset. apply healthy_among_all. }
  split; [exact Hle|].
  subst rate. unfold healthRate. split.
  - intros ->. reflexivity.
  - intros Hpos. rewrite (proj2 (Z.ltb_lt 0 total) Hpos).
    destruct (percent_range healthy total ltac:(lia) ltac:(lia))
      as [-> | (m & e & -> & Hm & He)].
    + left. split; reflexivity.
    + right. exists m, e, (tenths m e). split; [reflexivity|].
      split; [apply tenths_rounds|].
      cbn [toFixed1]. now rewrite (below_1e21_small m e Hm He).
Qed.

End FarmDashboard.

(** Farmer 1 has three animals, two of them healthy: 66.7.  The ranger
    has none: "0". *)
Lemma farm_dashboard_healthRate_seed :
  let rate_for u :=
    option_map (fun d => stat_healthRate (farm_stats d))
      (data (getFarmDashboard Seed.rt (Seed.request_of u [] [] []) Seed.db)) in
  rate_for Seed.farmer1 = Some "66.7" /\
  rate_for Seed.ranger = Some "0" /\
  ((number_mul (number_div (Number 2) (Number 3)) (Number 100) = S754_zero false /\
    "66.7" = "0.0") \/
   (exists m e n,
      number_mul (number_div (Number 2) (Number 3)) (Number 100) = S754_finite false m e /\
      rounds_to_tenths m e n /\ "66.7" = fixed1 n)).
Proof.
  split; [vm_compute; reflexivity|]. split; [vm_compute; reflexivity|].
  pose proof (farm_dashboard_healthRate Seed.rt (Seed.request_of Seed.farmer1 [] [] [])
                Seed.db _ eq_refl eq_refl) as H.
  exact (proj2 (proj2 H) eq_refl).
Defined.

(** Of 80 animals 23 are healthy: 28.75 percent, halfway between 28.7
    and 28.8.  Rounding to one decimal gives 28.8, also by the rule
    [toFixed] itself follows, which takes 6.25 (1 of 16) to 6.3.  The
    dashboard says 28.7: the quotient 23/80 is rounded to binary64
    before it is multiplied, and the product is below 28.75. *)
Lemma healthRate_is_not_the_rounded_percentage :
  let req := Seed.request_of Seed.admin [] [] [] in
  let stats_of h t :=
    option_map farm_stats
      (data (getFarmDashboard Seed.rt req (Scenario.with_animals (Scenario.herd_of h t)))) in
  option_map stat_healthyAnimals (stats_of 23%nat 80%nat) = Some 23 /\
  option_map stat_totalAnimals (stats_of 23%nat 80%nat) = Some 80 /\
  option_map stat_healthRate (stats_of 23%nat 80%nat) = Some "28.7" /\
  ((23 # 80) * 100 == 2875 # 100)%Q /\
  (10 * ((23 # 80) * 100) - (1 # 2) < 288)%Q /\
  (288 <= 10 * ((23 # 80) * 100) + (1 # 2))%Q /\
  fixed1 288 = "28.8" /\
  option_map stat_healthRate (stats_of 23%nat 80%nat) <> Some (fixed1 288) /\
  option_map stat_healthRate (stats_of 1%nat 16%nat) = Some "6.3" /\
  ((1 # 16) * 100 == 625 # 100)%Q.
Proof.
  cbv zeta.
  assert (H : option_map stat_healthRate
                (option_map farm_stats
                   (data (getFarmDashboard Seed.rt (Seed.request_of Seed.admin [] [] [])
                            (Scenario.with_animals (Scenario.herd_of 23 80)))))
              = Some "28.7") by (vm_compute; reflexivity).
  split; [vm_compute; reflexivity|]. split; [vm_compute; reflexivity|].
  split; [exact H|]. split; [reflexivity|]. split; [reflexivity|].
  split; [discriminate|]. split; [reflexivity|].
  split; [rewrite H; discriminate|]. split; [vm_compute; reflexivity|reflexivity].
Qed.

(* ================================================================== *)
(** * Part III.  Further properties of the handlers                   *)
(* ================================================================== *)

Import AlertStatistics PasswordChange.

(** ** Lists, newest first *)

Lemma orderBy_desc_sorted {A : Type} (key : A -> Z) (l : list A) :
  StronglySorted (newest_first key) (orderBy (desc key) l).
Proof.
  apply StronglySorted_impl with (R := fun a b => desc key a b = true).
  - intros a b H. now apply desc_spec in H.
  - apply orderBy_sorted.
    + intros x y. rewrite !desc_spec. lia.
    + intros x y z. rewrite !desc_spec. lia.
Qed.

Section ReportList.

Variables (rt : Runtime) (req : Request) (db : Db) (u : AuthUser).
Hypothesis authenticated : user req = Some u.

(** X1.  [getReports] answers with a list exactly when its query resolves.
    A requester who is not ADMIN gets exactly the reports they
    generated, an ADMIN gets every report; the list is never longer
    than the table and comes newest first. *)
Theorem getReports_own_reports_newest_first :
  (rejects rt 0%nat = false <-> exists l, data (getReports rt req db) = Some l) /\
  (forall l, data (getReports rt req db) = Some l ->
     (forall r, In r l <->
        In r (reports db) /\
        (auth_role u = "ADMIN" \/ report_generatedById r = auth_id u)) /\
     StronglySorted (newest_first report_generatedAt) l /\
     (List.length l <= List.length (reports db))%nat /\
     (auth_role u = "ADMIN" -> List.length l = List.length (reports db))).
Proof.
  unfold getReports, query.
  assert (Hw : forall r,
             (if negb (isAdmin req)
              then AND [equals (userId req) (report_generatedById r)] else true) = true
             <-> auth_role u = "ADMIN" \/ report_generatedById r = auth_id u).
  { intros r. unfold isAdmin, notAdmin, AND, equals.
    rewrite (userId_authenticated req u authenticated), authenticated.
    destruct (String.eqb_spec (auth_role u) "ADMIN"); cbn [negb forallb]; [tauto|].
    rewrite andb_true_r, String.eqb_eq. tauto. }
  destruct (rejects rt 0%nat).
  { split; [split; [discriminate|intros [l H]; discriminate]|]. intros l H. discriminate. }
  cbn [data ok]. split; [split; [eauto|reflexivity]|].
  intros l [= <-]. split; [|split; [|split]].
  - intros r. rewrite orderBy_In, filter_In, <- (Hw r).
    unfold AND. cbn [forallb]. tauto.
  - apply orderBy_desc_sorted.
  - rewrite orderBy_length. apply filter_length_le.
  - intros Hadmin. rewrite orderBy_length. f_equal.
    apply forallb_filter_id. apply forallb_forall. intros r _. apply Hw. now left.
Qed.

End ReportList.

(** ** Creating farms and herds *)

Section FarmCreation.

Variables (rt : Runtime) (req : Request) (db : Db).

(** What a 201 from [createFarm] says about the request and the
    database. *)
Lemma createFarm_created :
  statusCode (fst (createFarm rt req db)) = 201 ->
  exists u name description location latitude longitude area,
    user req = Some u /\
    field "name" (body req) = Some (JStr name) /\
    field "location" (body req) = Some (JStr location) /\
    field "latitude" (body req) = Some (JNum latitude) /\
    field "longitude" (body req) = Some (JNum longitude) /\
    asNumber (if truthy (field "area" (body req))
              then field "area" (body req) else Some (JNum 0)) = Resolved area /\
    existsb (fun r => String.eqb (farm_id r) (newId rt)) (farms db) = false /\
    (name <> "" /\ location <> "" /\ latitude <> 0 /\ longitude <> 0) /\
    let farm := {| farm_id := newId rt;
                   farm_name := name;
                   farm_description := description;
                   farm_location := location;
                   farm_latitude := latitude;
                   farm_longitude := longitude;
                   farm_area := area;
                   farm_ownerId := auth_id u;
                   farm_createdAt := now rt |} in
    createFarm rt req db
    = (ok_msg 201 "Farm created successfully" farm, set_farms db (farms db ++ [farm])).
Proof.
  unfold createFarm, query.
  destruct (_ || _) eqn:V; [simpl; discriminate|].
  apply orb_false_iff in V. destruct V as [V Vlon].
  apply orb_false_iff in V. destruct V as [V Vlat].
  apply orb_false_iff in V. destruct V as [Vname Vloc].
  revert Vname Vloc Vlat Vlon.
  destruct (rejects rt 0%nat); [simpl; discriminate|].
  destruct (field "name" (body req)) as [[| | |name| |]|]; try (simpl; discriminate).
  cbn [asString bind].
  destruct (asOptionalString (field "description" (body req))) as [description|];
    [|simpl; discriminate].
  destruct (field "location" (body req)) as [[| | |location| |]|]; try (simpl; discriminate).
  destruct (field "latitude" (body req)) as [[| |latitude| | |]|]; try (simpl; discriminate).
  destruct (field "longitude" (body req)) as [[| |longitude| | |]|];
    try (simpl; discriminate).
  cbn [asString asNumber bind].
  destruct (asNumber (if truthy (field "area" (body req))
                      then field "area" (body req) else Some (JNum 0))) as [area|] eqn:Ha;
    [|simpl; discriminate].
  cbn [bind]. unfold userId.
  destruct (user req) as [u|]; [|simpl; discriminate].
  cbn [required bind]. unfold create. cbn [farm_id].
  destruct (existsb _ (farms db)) eqn:E; [simpl; discriminate|].
  rewrite !negb_false_iff. intros Vname Vloc Vlat Vlon _.
  apply truthy_JStr in Vname, Vloc. cbn [truthy truthy_value] in Vlat, Vlon.
  apply negb_true_iff, Z.eqb_neq in Vlat, Vlon.
  exists u, name, (written description None), location, latitude, longitude, area.
  repeat (split; [reflexivity|]). split; [auto|]. reflexivity.
Qed.

Lemma fresh_id_not_found {A : Type} (id_of : A -> Id) (id : Id) (table : list A) :
  existsb (fun r => String.eqb (id_of r) id) table = false ->
  findUnique id_of id table = None.
Proof.
  intros E. unfold findUnique. destruct (find _ table) as [f|] eqn:F; [|reflexivity].
  apply find_some in F. destruct F as [Hin Heq].
  assert (existsb (fun r => String.eqb (id_of r) id) table = true)
    by (apply existsb_exists; eauto).
  congruence.
Qed.

(** X2.  A farm that [createFarm] creates belongs to the requester: ownerId
    is the id in the bearer token, never a value from the body.  Its id
    and creation time come from the database, its area is 0 when the
    body gives none (or a falsy one); the id was not in use, the farm is
    appended to the table and nothing else in the database changes. *)
Theorem createFarm_owner_is_requester :
  statusCode (fst (createFarm rt req db)) = 201 ->
  exists u farm,
    user req = Some u /\
    data (fst (createFarm rt req db)) = Some farm /\
    farm_ownerId farm = auth_id u /\
    farm_id farm = newId rt /\
    farm_createdAt farm = now rt /\
    field "name" (body req) = Some (JStr (farm_name farm)) /\
    field "latitude" (body req) = Some (JNum (farm_latitude farm)) /\
    field "longitude" (body req) = Some (JNum (farm_longitude farm)) /\
    farm_latitude farm <> 0 /\ farm_longitude farm <> 0 /\
    (truthy (field "area" (body req)) = false -> farm_area farm = 0) /\
    findUnique farm_id (newId rt) (farms db) = None /\
    snd (createFarm rt req db) = set_farms db (farms db ++ [farm]).
Proof.
  intros H201.
  destruct (createFarm_created H201)
    as (u & name & description & location & latitude & longitude & area
        & Hu & Hname & Hloc & Hlat & Hlon & Harea & Hfresh
        & (_ & _ & Hlat0 & Hlon0) & Hrun).
  cbv zeta in Hrun. eexists u, _. rewrite Hrun.
  cbn [fst snd data ok_msg farm_ownerId farm_id farm_createdAt farm_name farm_latitude
         farm_longitude farm_area].
  repeat (split; [first [assumption | reflexivity]|]).
  split.
  { intros Hfalsy. rewrite Hfalsy in Harea. now injection Harea as <-. }
  split; [now apply fresh_id_not_found | reflexivity].
Qed.

End FarmCreation.

Section FarmCreationThenList.

Variables (rt rt' : Runtime) (req : Request) (db : Db).
Variables (owner viewer : AuthUser) (req' : Request).

Hypothesis created : statusCode (fst (createFarm rt req db)) = 201.
Hypothesis by_owner : user req = Some owner.
Hypothesis seen_by : user req' = Some viewer.
Hypothesis list_resolves : rejects rt' 0%nat = false.

(** X3.  After a farm is created, [getFarms] on the new database shows it to
    the requester who created it and to an ADMIN, and to nobody else. *)
Theorem created_farm_listed_for_owner_and_admin_only :
  exists farm l,
    data (fst (createFarm rt req db)) = Some farm /\
    data (getFarms rt' req' (snd (createFarm rt req db))) = Some l /\
    (In farm l <-> auth_role viewer = "ADMIN" \/ auth_id viewer = auth_id owner).
Proof.
  destruct (createFarm_created rt req db created)
    as (u & name & description & location & latitude & longitude & area
        & Hu & _ & _ & _ & _ & _ & _ & _ & Hrun).
  cbv zeta in Hrun. rewrite by_owner in Hu. injection Hu as <-.
  rewrite Hrun. cbn [fst snd data ok_msg].
  eexists _. unfold getFarms, query. rewrite list_resolves. cbn [data ok].
  eexists. split; [reflexivity|]. split; [reflexivity|].
  rewrite orderBy_In, filter_In, (getFarms_where_spec req' viewer seen_by).
  cbn [farms set_farms farm_ownerId]. rewrite in_app_iff. cbn [In].
  split.
  - intros [_ [H|H]]; auto.
  - intros H. split; [right; left; reflexivity|]. destruct H; auto.
Qed.

End FarmCreationThenList.

Section HerdCreation.

Variables (rt : Runtime) (req : Request) (db : Db).

(** X4.  A herd that [createHerd] creates starts all healthy: healthyCount
    equals totalCount and sickCount and missingCount are 0, so the three
    add up to the total.  totalCount is the number in the body, any
    integer but 0.  The herd goes to the farm named in the route, is
    appended to the table, and nothing else changes.  The handler never
    looks at the requester: the same route and body give the same answer
    for anyone. *)
Theorem createHerd_starts_all_healthy :
  (forall other : Request,
     params other = params req -> body other = body req ->
     createHerd rt other db = createHerd rt req db) /\
  (statusCode (fst (createHerd rt req db)) = 201 ->
   exists herd,
     data (fst (createHerd rt req db)) = Some herd /\
     field "totalCount" (body req) = Some (JNum (herd_totalCount herd)) /\
     herd_totalCount herd <> 0 /\
     herd_healthyCount herd = herd_totalCount herd /\
     herd_sickCount herd = 0 /\
     herd_missingCount herd = 0 /\
     herd_healthyCount herd + herd_sickCount herd + herd_missingCount herd
     = herd_totalCount herd /\
     herd_farmId herd = param "farmId" req /\
     herd_id herd = newId rt /\
     snd (createHerd rt req db) = set_herds db (herds db ++ [herd])).
Proof.
  split.
  { intros other Hp Hb. unfold createHerd, param. now rewrite Hp, Hb. }
  unfold createHerd, query.
  destruct (_ || _) eqn:V; [simpl; discriminate|].
  apply orb_false_iff in V. destruct V as [_ Vtotal]. revert Vtotal.
  destruct (rejects rt 0%nat); [simpl; discriminate|].
  destruct (asString (field "name" (body req))) as [name|]; [|simpl; discriminate].
  destruct (asOptionalString (field "description" (body req))) as [description|];
    [|simpl; discriminate].
  destruct (asString (field "animalType" (body req))) as [animalType|];
    [|simpl; discriminate].
  destruct (field "totalCount" (body req)) as [[| |total| | |]|]; try (simpl; discriminate).
  cbn [asNumber bind]. unfold create. cbn [herd_id].
  destruct (existsb _ (herds db)); [simpl; discriminate|].
  cbn [fst snd statusCode data ok_msg truthy truthy_value].
  rewrite negb_false_iff, negb_true_iff, Z.eqb_neq. intros Vtotal _.
  eexists. split; [reflexivity|].
  cbn [herd_totalCount herd_healthyCount herd_sickCount herd_missingCount herd_farmId
         herd_id].
  repeat (split; [first [assumption | reflexivity | lia]|]). reflexivity.
Qed.

End HerdCreation.

(** ** Logging in *)

Section LoginOutcomes.

Variables (rt : Runtime) (db : Db).

Lemma login_unknown_email (req : Request) (email : string) (password : json) :
  field "email" (body req) = Some (JStr email) -> email <> "" ->
  field "password" (body req) = Some password -> truthy_value password = true ->
  rejects rt 0%nat = false ->
  find (fun u => String.eqb (user_email u) email) (users db) = None ->
  login rt req db = (fail 401 "Invalid credentials", db).
Proof.
  intros He Hne Hp Hnp Hr Hfind. unfold login. rewrite He, Hp.
  apply truthy_JStr in Hne. rewrite Hne. cbn [truthy]. rewrite Hnp. cbn [negb orb].
  unfold query. rewrite Hr. cbn [asString bind]. now rewrite Hfind.
Qed.

(** X5.  A login with an email that no account has is answered 401
    "Invalid credentials", whatever password it carries.  On a
    registered email a wrong password that is a string gets the same
    answer (status, message, no data, database unchanged), so for string
    passwords the response does not tell whether the email is
    registered.  A password that is truthy and not a string (a number,
    [true], an array, an object) does tell: on a registered email the
    comparison throws and the answer is 500 "Login failed", on an
    unknown email it is still the 401. *)
Theorem login_hides_unknown_email_for_string_passwords_only
    (unknown known : Request) (email1 email2 : string) (password1 password2 : json)
    (account : User) :
  field "email" (body unknown) = Some (JStr email1) -> email1 <> "" ->
  field "password" (body unknown) = Some password1 -> truthy_value password1 = true ->
  field "email" (body known) = Some (JStr email2) -> email2 <> "" ->
  field "password" (body known) = Some password2 -> truthy_value password2 = true ->
  rejects rt 0%nat = false ->
  find (fun u => String.eqb (user_email u) email1) (users db) = None ->
  find (fun u => String.eqb (user_email u) email2) (users db) = Some account ->
  login rt unknown db = (fail 401 "Invalid credentials", db) /\
  (forall p, password2 = JStr p -> bcryptCompare rt p (user_password account) = false ->
     login rt known db = login rt unknown db) /\
  ((forall p, password2 <> JStr p) ->
     login rt known db = (fail 500 "Login failed", db) /\
     statusCode (fst (login rt known db)) <> statusCode (fst (login rt unknown db))).
Proof.
  intros E1 N1 P1 M1 E2 N2 P2 M2 Hr F1 F2.
  rewrite (login_unknown_email unknown email1 password1) by assumption.
  split; [reflexivity|]. split.
  - intros p -> B.
    assert (Hp : p <> "") by (now apply truthy_JStr).
    rewrite (login_after_lookup rt known db email2 p account) by assumption.
    now rewrite B.
  - intros Hnot.
    assert (Hrun : login rt known db = (fail 500 "Login failed", db)).
    { unfold login. rewrite E2, P2. apply truthy_JStr in N2. rewrite N2.
      cbn [truthy]. rewrite M2. cbn [negb orb]. unfold query. rewrite Hr.
      cbn [asString bind]. rewrite F2.
      destruct password2 as [| b | n | p | items | fields]; try reflexivity.
      now elim (Hnot p). }
    rewrite Hrun. split; [reflexivity|]. cbn [fst statusCode fail]. discriminate.
Qed.

Variables (req : Request) (email password : string) (account : User) (services : json).

Hypothesis email_given : field "email" (body req) = Some (JStr email).
Hypothesis email_not_empty : email <> "".
Hypothesis password_given : field "password" (body req) = Some (JStr password).
Hypothesis password_not_empty : password <> "".
Hypothesis queries_resolve : rejects rt 0%nat = false /\ rejects rt 1%nat = false.
Hypothesis account_exists :
  find (fun u => String.eqb (user_email u) email) (users db) = Some account.
Hypothesis id_is_key : findUnique user_id (user_id account) (users db) = Some account.
Hypothesis password_matches : bcryptCompare rt password (user_password account) = true.
Hypothesis active : user_status account = "ACTIVE".
Hypothesis services_parse : parsedServices rt account = Resolved services.

(** X6.  A login that passes every check answers 200 with a token signed for
    the account's id, email and role and with the account's data, and
    stamps the account's lastLoginAt with the time of the call.  The
    data in the answer is read before the stamp: its lastLoginAt is the
    previous login, not this one.  Every other column of the account
    (id, email, password, first and last name, role, status, services),
    every other user and every other table stay as they were, and no
    user is added or removed. *)
Theorem login_stamps_last_login_after_reading_it :
  let r := login rt req db in
  let db' := snd r in
  statusCode (fst r) = 200 /\
  message (fst r) = Some "Login successful" /\
  (exists d,
     data (fst r) = Some d /\
     login_token d = jwtSign rt (user_id account) (user_email account) (user_role account) /\
     data_id (login_user d) = user_id account /\
     data_email (login_user d) = user_email account /\
     data_firstName (login_user d) = user_firstName account /\
     data_lastName (login_user d) = user_lastName account /\
     data_role (login_user d) = user_role account /\
     data_status (login_user d) = user_status account /\
     data_services (login_user d) = services /\
     data_lastLoginAt (login_user d) = user_lastLoginAt account) /\
  (exists stored,
     findUnique user_id (user_id account) (users db') = Some stored /\
     user_lastLoginAt stored = Some (now rt) /\
     user_id stored = user_id account /\
     user_email stored = user_email account /\
     user_password stored = user_password account /\
     user_firstName stored = user_firstName account /\
     user_lastName stored = user_lastName account /\
     user_role stored = user_role account /\
     user_status stored = user_status account /\
     user_services stored = user_services account) /\
  List.length (users db') = List.length (users db) /\
  (forall other, other <> user_id account ->
     findUnique user_id other (users db') = findUnique user_id other (users db)) /\
  db' = set_users db (users db').
Proof.
  destruct queries_resolve as [Hr0 Hr1].
  intros r db'. subst db' r. unfold login. rewrite email_given, password_given.
  pose proof email_not_empty as Hne. pose proof password_not_empty as Hnp.
  apply truthy_JStr in Hne, Hnp. rewrite Hne, Hnp. cbn [negb orb].
  unfold query. rewrite Hr0, Hr1. cbn [asString bind].
  rewrite account_exists, password_matches, active. cbn [String.eqb negb].
  replace (String.eqb "ACTIVE" "ACTIVE") with true by reflexivity. cbn [negb].
  destruct (update_found user_id (user_id account) (login_data rt) _ _ id_is_key)
    as (users' & Hup).
  rewrite Hup, services_parse.
  destruct (update_resolved user_id (user_id account) (login_data rt) _ _ _
              (fun x => eq_refl) Hup)
    as (old & Hold & _ & Hnew & Hframe & Hsize).
  rewrite id_is_key in Hold. injection Hold as <-.
  cbn [fst snd statusCode message data ok_msg set_users users].
  split; [reflexivity|]. split; [reflexivity|]. split.
  { eexists. split; [reflexivity|]. repeat split. }
  split.
  { exists (login_data rt account). split; [assumption|]. repeat split. exact active. }
  split; [assumption|]. split; [assumption | reflexivity].
Qed.

End LoginOutcomes.

(** ** More on the alert handlers *)

Section AlertEdges.

Variables (rt : Runtime) (sc : Schema) (req : Request) (db : Db).

Lemma update_not_found {A : Type} (id_of : A -> Id) (id : Id) (change : A -> A)
    (table : list A) :
  findUnique id_of id table = None -> update id_of id change table = Rejected.
Proof.
  unfold findUnique. induction table as [|x rest IH]; simpl; [reflexivity|].
  destruct (String.eqb (id_of x) id); [discriminate|].
  intros H. now rewrite (IH H).
Qed.

(** X7.  For an id that no alert has, [getAlertById] answers 404, but the two
    writing handlers do not: [updateAlertStatus] and [assignAlert]
    answer 400 when their required field is missing and 500 otherwise,
    never 404 and never 200, and leave the database as it was. *)
Theorem alert_writes_on_unknown_id_fail_with_500 :
  findUnique alert_id (param "id" req) (alerts db) = None ->
  (rejects rt 0%nat = false -> getAlertById rt req db = fail 404 "Alert not found") /\
  updateAlertStatus rt req db
  = (if truthy (field "status" (body req))
     then fail 500 "Failed to update alert"
     else fail 400 "Status is required", db) /\
  assignAlert rt req db
  = (if truthy (field "assignedToId" (body req))
     then fail 500 "Failed to assign alert"
     else fail 400 "User ID is required", db).
Proof.
  intros Hnone. split; [|split].
  - intros Hr. unfold getAlertById, query. now rewrite Hr, Hnone.
  - unfold updateAlertStatus, query.
    destruct (truthy (field "status" (body req))); cbn [negb]; [|reflexivity].
    destruct (rejects rt 0%nat); [reflexivity|].
    destruct (asString (field "status" (body req))) as [s|]; [|reflexivity].
    destruct (asOptionalString (field "actionTaken" (body req))) as [t|]; [|reflexivity].
    cbn [bind]. now rewrite (update_not_found _ _ _ _ Hnone).
  - unfold assignAlert, query.
    destruct (truthy (field "assignedToId" (body req))); cbn [negb]; [|reflexivity].
    destruct (rejects rt 0%nat); [reflexivity|].
    destruct (asString (field "assignedToId" (body req))) as [uid|]; [|reflexivity].
    cbn [bind]. now rewrite (update_not_found _ _ _ _ Hnone).
Qed.

(** X8.  A successful assign changes two columns of the alert, status and
    assignedToId, and nothing else: not the other alerts, not the other
    tables, and not resolvedBy, resolvedAt or actionTaken.  An alert
    that was RESOLVED is therefore ACKNOWLEDGED again afterwards while
    it still carries its resolver and resolution time. *)
Theorem assignAlert_keeps_resolution_stamps (old : Alert) :
  findUnique alert_id (param "id" req) (alerts db) = Some old ->
  statusCode (fst (assignAlert rt req db)) = 200 ->
  exists new,
    findUnique alert_id (param "id" req) (alerts (snd (assignAlert rt req db))) = Some new /\
    alert_status new = "ACKNOWLEDGED" /\
    alert_resolvedBy new = alert_resolvedBy old /\
    alert_resolvedAt new = alert_resolvedAt old /\
    alert_actionTaken new = alert_actionTaken old /\
    (alert_id new = alert_id old /\ alert_type new = alert_type old /\
     alert_severity new = alert_severity old /\ alert_title new = alert_title old /\
     alert_message new = alert_message old /\ alert_module new = alert_module old /\
     alert_farmId new = alert_farmId old /\ alert_createdAt new = alert_createdAt old) /\
    (forall other, other <> param "id" req ->
       findUnique alert_id other (alerts (snd (assignAlert rt req db)))
       = findUnique alert_id other (alerts db)) /\
    List.length (alerts (snd (assignAlert rt req db))) = List.length (alerts db) /\
    snd (assignAlert rt req db) = set_alerts db (alerts (snd (assignAlert rt req db))).
Proof.
  intros Hold. unfold assignAlert, query.
  destruct (truthy (field "assignedToId" (body req))); cbn [negb]; [|simpl; discriminate].
  destruct (rejects rt 0%nat); [simpl; discriminate|].
  destruct (asString (field "assignedToId" (body req))) as [uid|]; [|simpl; discriminate].
  cbn [bind].
  destruct (update_found alert_id (param "id" req) (assignAlert_data uid) _ _ Hold)
    as (table' & Hup).
  rewrite Hup. cbn [fst snd statusCode ok_msg set_alerts alerts].
  destruct (update_resolved alert_id (param "id" req) (assignAlert_data uid) _ _ _
              (alert_id_kept_by_assign uid) Hup)
    as (old' & Hold' & _ & Hnew & Hframe & Hlen).
  rewrite Hold in Hold'. injection Hold' as <-.
  intros _. exists (assignAlert_data uid old).
  split; [assumption|]. cbn [assignAlert_data alert_status alert_resolvedBy alert_resolvedAt
                               alert_actionTaken alert_id alert_type alert_severity
                               alert_title alert_message alert_module alert_farmId
                               alert_createdAt].
  repeat split; first [assumption | reflexivity].
Qed.

(** Every alert that [getAlerts] returns matches each filter the query
    string gives a value for (status, type, severity, module). *)
Lemma getAlerts_where_filters (a : Alert) :
  getAlerts_where req db a = true ->
  forall key column,
    In (key, column)
       [("status", alert_status a); ("type", alert_type a);
        ("severity", alert_severity a); ("module", alert_module a)] ->
    forall v, lookup key (query_string req) = Some v -> v <> "" -> column = v.
Proof.
  unfold getAlerts_where, AND. cbn [forallb]. rewrite !andb_true_iff.
  intros (Hs & Ht & Hv & Hm & _) key column Hin v Hl Hne.
  assert (Hclause : forall given col,
             match spread (truthy_str given) (equals given col) with
             | Some b => b | None => true end = true ->
             given = Some v -> col = v).
  { intros given col Hc ->. unfold spread, truthy_str, equals in Hc.
    apply String.eqb_neq in Hne. rewrite Hne in Hc. cbn [negb] in Hc.
    now apply String.eqb_eq in Hc. }
  cbn [In] in Hin.
  destruct Hin as [[= <- <-]|[[= <- <-]|[[= <- <-]|[[= <- <-]|[]]]]]; eauto.
Qed.

(** X9.  [getAlerts] applies the filters of the query string: a returned
    alert has the status, type, severity and module asked for.  A filter
    given as the empty string is no filter: the answer is the one the
    request without that parameter gets. *)
Theorem getAlerts_applies_non_empty_filters :
  (forall l a, data (getAlerts rt sc req db) = Some l -> In a l ->
     (forall v, lookup "status" (query_string req) = Some v -> v <> "" ->
        alert_status a = v) /\
     (forall v, lookup "type" (query_string req) = Some v -> v <> "" ->
        alert_type a = v) /\
     (forall v, lookup "severity" (query_string req) = Some v -> v <> "" ->
        alert_severity a = v) /\
     (forall v, lookup "module" (query_string req) = Some v -> v <> "" ->
        alert_module a = v)) /\
  (forall other : Request,
     user other = user req ->
     (forall key, In key ["status"; "type"; "severity"; "module"] ->
        lookup key (query_string other) = lookup key (query_string req) \/
        (truthy_str (lookup key (query_string other)) = false /\
         truthy_str (lookup key (query_string req)) = false)) ->
     getAlerts rt sc other db = getAlerts rt sc req db).
Proof.
  split.
  - intros l a Hl Ha. destruct (getAlerts_In rt sc req db l a Hl Ha) as [_ Hw].
    pose proof (getAlerts_where_filters a Hw) as F.
    repeat split; intros v; eapply F; cbn [In]; auto.
  - intros other Hu Hq. unfold getAlerts.
    assert (Hf : filter (getAlerts_where other db) (alerts db)
                 = filter (getAlerts_where req db) (alerts db)); [|now rewrite Hf].
    apply filter_ext. intros a. unfold getAlerts_where, userId, notAdmin. rewrite Hu.
    assert (Hsame : forall key col,
               In key ["status"; "type"; "severity"; "module"] ->
               spread (truthy_str (lookup key (query_string other)))
                 (equals (lookup key (query_string other)) col)
               = spread (truthy_str (lookup key (query_string req)))
                   (equals (lookup key (query_string req)) col)).
    { intros key col Hin. destruct (Hq key Hin) as [-> | [-> ->]]; reflexivity. }
    rewrite (Hsame "status"), (Hsame "type"), (Hsame "severity"), (Hsame "module")
      by (cbn [In]; auto).
    reflexivity.
Qed.

End AlertEdges.

(** ** Counting by status *)

Section StatusBuckets.

Context {A : Type} (status : A -> string) (scope : A -> bool).

Lemma count_and_le (p : A -> bool) (l : list A) :
  count (fun a => p a && scope a) l <= count scope l.
Proof. apply count_subset. intros a H. now apply andb_true_iff in H. Qed.

Lemma count_and_eq (p : A -> bool) (l : list A) :
  count (fun a => p a && scope a) l = count scope l <->
  forall a, In a l -> scope a = true -> p a = true.
Proof.
  unfold count. induction l as [|x rest IH]; cbn [filter].
  - split; [intros _ a []|reflexivity].
  - pose proof (count_and_le p rest) as Hle. unfold count in Hle.
    destruct (scope x) eqn:S, (p x) eqn:P; cbn [andb List.length];
      rewrite ?Nat2Z.inj_succ.
    + split.
      * intros H a [<-|Ha] Hs; [assumption|]. apply IH; try assumption. lia.
      * intros H. f_equal. apply IH. intros a Ha. apply H. now right.
    + split; [lia|]. intros H. specialize (H x (or_introl eq_refl) S). congruence.
    + split.
      * intros H a [<-|Ha] Hs; [congruence|]. apply IH; assumption.
      * intros H. apply IH. intros a Ha. apply H. now right.
    + split.
      * intros H a [<-|Ha] Hs; [congruence|]. apply IH; assumption.
      * intros H. apply IH. intros a Ha. apply H. now right.
Qed.

(** The rows of a scope, counted status by status, for statuses that
    are all different. *)
Lemma count_by_status (names : list string) (l : list A) :
  NoDup names ->
  sum (map (fun s => count (fun a => String.eqb (status a) s && scope a) l) names)
  = count (fun a => existsb (String.eqb (status a)) names && scope a) l.
Proof.
  induction 1 as [|s rest Hnotin Hnd IH]; cbn [map sum fold_right existsb].
  - unfold count. induction l as [|x xs IHl]; [reflexivity|]. cbn [filter andb]. exact IHl.
  - fold (sum (map (fun s0 => count (fun a => String.eqb (status a) s0 && scope a) l) rest)).
    rewrite IH, <- count_or.
    + apply count_ext. intros a _.
      destruct (String.eqb (status a) s), (existsb (String.eqb (status a)) rest),
        (scope a); reflexivity.
    + intros a. destruct (String.eqb_spec (status a) s) as [E|]; [|reflexivity].
      destruct (existsb (String.eqb (status a)) rest) eqn:X; [|now rewrite andb_false_r].
      exfalso. apply existsb_exists in X. destruct X as (s' & Hin & Heq).
      apply String.eqb_eq in Heq. congruence.
Qed.

End StatusBuckets.

Lemma status_clause (adm : bool) (s column : string) (c : clause) :
  AND [ equals (Some s) column; spread (negb adm) c ]
  = String.eqb column s && unless adm c.
Proof.
  unfold unless, spread, equals, AND. cbn [forallb].
  destruct (negb adm), (String.eqb column s); reflexivity.
Qed.

Section FarmDashboardBuckets.

Variables (rt : Runtime) (req : Request) (db : Db) (d : FarmDashboard).

(** X10.  In a farm-dashboard response the healthy, sick and missing counts
    never add up to more than totalAnimals, and they add up to exactly
    totalAnimals when, and only when, every animal in the requester's
    scope has one of the statuses HEALTHY, SICK and MISSING; an animal
    with any other status is in the total and in none of the three. *)
Theorem farm_dashboard_status_counts :
  data (getFarmDashboard rt req db) = Some d ->
  let s := farm_stats d in
  stat_totalAnimals s = count (animal_in_scope req db) (animals db) /\
  0 <= stat_healthyAnimals s /\ 0 <= stat_sickAnimals s /\ 0 <= stat_missingAnimals s /\
  stat_healthyAnimals s + stat_sickAnimals s + stat_missingAnimals s
  <= stat_totalAnimals s /\
  (stat_healthyAnimals s + stat_sickAnimals s + stat_missingAnimals s
   = stat_totalAnimals s <->
   forall a, In a (animals db) -> animal_in_scope req db a = true ->
     animal_status a = "HEALTHY" \/ animal_status a = "SICK" \/
     animal_status a = "MISSING").
Proof.
  unfold getFarmDashboard, query.
  destruct (rejects rt 0%nat), (rejects rt 1%nat), (rejects rt 2%nat),
    (rejects rt 3%nat), (rejects rt 4%nat), (rejects rt 5%nat), (rejects rt 6%nat);
    cbn [both]; try discriminate.
  cbn [data ok].
  remember (healthRate rt _ _) as rate eqn:Hrate. clear Hrate.
  pose proof (count_by_status animal_status (animal_in_scope req db)
                ["HEALTHY"; "SICK"; "MISSING"] (animals db)) as Hsum.
  cbn [map sum fold_right] in Hsum.
  rewrite <- !(count_ext _ _ (animals db)
                 (fun a _ => status_clause (isAdmin req) _ (animal_status a)
                               (herd_farm_ownedBy db (userId req) (animal_herdId a))))
    in Hsum.
  match type of Hsum with
  | _ -> ?h + (?k + (?m + 0)) = ?r =>
      set (healthy := h) in *; set (sick := k) in *; set (missing := m) in *;
      set (known := r) in *
  end.
  intros [= <-].
  cbn [farm_stats stat_totalAnimals stat_healthyAnimals stat_sickAnimals
         stat_missingAnimals].
  fold (animal_in_scope req db).
  assert (Hnd : NoDup ["HEALTHY"; "SICK"; "MISSING"]).
  { repeat constructor; cbn [In]; intuition discriminate. }
  specialize (Hsum Hnd).
  split; [reflexivity|].
  split; [apply count_nonneg|]. split; [apply count_nonneg|]. split; [apply count_nonneg|].
  pose proof (count_and_le (animal_in_scope req db)
                (fun a => existsb (String.eqb (animal_status a)) ["HEALTHY"; "SICK"; "MISSING"])
                (animals db)) as Hle.
  pose proof (count_and_eq (animal_in_scope req db)
                (fun a => existsb (String.eqb (animal_status a)) ["HEALTHY"; "SICK"; "MISSING"])
                (animals db)) as Heq.
  cbv beta in Hle, Heq. fold known in Hle, Heq. split; [lia|].
  replace (healthy + sick + missing) with known by lia.
  rewrite Heq.
  split; intros H a Ha Hs; specialize (H a Ha Hs).
  - cbn [existsb] in H. rewrite !orb_true_iff, !String.eqb_eq in H.
    intuition discriminate.
  - cbn [existsb]. rewrite !orb_true_iff, !String.eqb_eq. tauto.
Qed.

End FarmDashboardBuckets.

Section AlertStatisticsBuckets.

Variables (rt : Runtime) (req : Request) (db : Db) (st : AlertStats).

Lemma withStatus_spec (s : string) (a : Alert) :
  withStatus req s a = String.eqb (alert_status a) s && alert_counted req a.
Proof.
  unfold withStatus, alert_counted, spread, equals, AND. cbn [forallb].
  destruct (notAdmin req), (String.eqb (alert_status a) s); reflexivity.
Qed.

Lemma alert_counted_is_listed (u : AuthUser) (a : Alert) :
  user req = Some u ->
  (forall key, truthy_str (lookup key (query_string req)) = false) ->
  alert_counted req a = true -> getAlerts_where req db a = true.
Proof.
  intros Hu Hq. unfold alert_counted, getAlerts_where, AND, spread, OR, userId.
  rewrite !Hq, Hu. cbn [forallb existsb].
  destruct (notAdmin req); [|reflexivity].
  cbn [forallb]. rewrite !andb_true_r.
  unfold equals_nullable. destruct (alert_assignedToId a) as [x|]; [|discriminate].
  now intros ->.
Qed.

(** X11.  In the alert statistics the four status counts never add up to
    more than total, and add up to exactly total when, and only when,
    every counted alert has one of the statuses NEW, ACKNOWLEDGED,
    IN_PROGRESS and RESOLVED.  For a requester who is not ADMIN the
    statistics count the alerts assigned to the requester only; every
    alert they count for an authenticated requester is one [getAlerts]
    lists for the same requester (without filters), so total is at most
    the number of alerts that match the list's [where]. *)
Theorem alert_stats_add_up :
  data (getAlertStats rt req db) = Some st ->
  stats_total st = count (alert_counted req) (alerts db) /\
  stats_new st + stats_acknowledged st + stats_inProgress st + stats_resolved st
  <= stats_total st /\
  (stats_new st + stats_acknowledged st + stats_inProgress st + stats_resolved st
   = stats_total st <->
   forall a, In a (alerts db) -> alert_counted req a = true ->
     In (alert_status a) ["NEW"; "ACKNOWLEDGED"; "IN_PROGRESS"; "RESOLVED"]) /\
  (forall u, user req = Some u -> auth_role u <> "ADMIN" ->
     forall a, alert_counted req a = true <-> alert_assignedToId a = Some (auth_id u)) /\
  (forall u, user req = Some u ->
     (forall key, truthy_str (lookup key (query_string req)) = false) ->
     stats_total st <= count (getAlerts_where req db) (alerts db)).
Proof.
  unfold getAlertStats, query.
  destruct (rejects rt 0%nat), (rejects rt 1%nat), (rejects rt 2%nat),
    (rejects rt 3%nat), (rejects rt 4%nat); cbn [both]; try discriminate.
  cbn [data ok]. fold (alert_counted req).
  pose proof (count_by_status alert_status (alert_counted req)
                ["NEW"; "ACKNOWLEDGED"; "IN_PROGRESS"; "RESOLVED"] (alerts db)) as Hsum.
  cbn [map sum fold_right] in Hsum.
  intros [= <-].
  cbn [stats_total stats_new stats_acknowledged stats_inProgress stats_resolved].
  assert (Hw : forall s,
             count (withStatus req s) (alerts db)
             = count (fun a => String.eqb (alert_status a) s && alert_counted req a)
                 (alerts db)).
  { intros s. apply count_ext. intros a _. apply withStatus_spec. }
  rewrite !Hw.
  assert (Hnd : NoDup ["NEW"; "ACKNOWLEDGED"; "IN_PROGRESS"; "RESOLVED"]).
  { repeat constructor; cbn [In]; intuition discriminate. }
  specialize (Hsum Hnd).
  pose proof (count_and_le (alert_counted req)
                (fun a => existsb (String.eqb (alert_status a))
                            ["NEW"; "ACKNOWLEDGED"; "IN_PROGRESS"; "RESOLVED"])
                (alerts db)) as Hle.
  pose proof (count_and_eq (alert_counted req)
                (fun a => existsb (String.eqb (alert_status a))
                            ["NEW"; "ACKNOWLEDGED"; "IN_PROGRESS"; "RESOLVED"])
                (alerts db)) as Heq.
  cbv beta in Hle, Heq.
  split; [reflexivity|]. split; [lia|]. split; [|split].
  - match goal with |- ?lhs = _ <-> _ =>
      replace lhs with (count (fun a => existsb (String.eqb (alert_status a))
                                          ["NEW"; "ACKNOWLEDGED"; "IN_PROGRESS"; "RESOLVED"]
                                        && alert_counted req a) (alerts db)) by lia
    end.
    rewrite Heq.
    split; intros H a Ha Hs; specialize (H a Ha Hs).
    + apply existsb_exists in H. destruct H as (s & Hin & E).
      apply String.eqb_eq in E. now rewrite E.
    + apply existsb_exists. exists (alert_status a). split; [assumption|].
      apply String.eqb_refl.
  - intros u Hu Hrole a. unfold alert_counted, notAdmin, userId, AND, equals_nullable.
    rewrite Hu. apply String.eqb_neq in Hrole. rewrite Hrole. cbn [negb forallb].
    destruct (alert_assignedToId a) as [x|].
    + rewrite andb_true_r, String.eqb_eq. split; [now intros ->|now intros [= ->]].
    + split; discriminate.
  - intros u Hu Hq. apply count_subset. intros a. now apply (alert_counted_is_listed u).
Qed.

End AlertStatisticsBuckets.

(** ** Groups, pages and what the dashboards show *)

Lemma Some_inj {A : Type} (a b : A) : Some a = Some b -> a = b.
Proof. now intros [= ->]. Qed.

Lemma take_length {A : Type} (n : nat) (l : list A) :
  Z.of_nat (List.length (take n l)) = Z.min (Z.of_nat n) (Z.of_nat (List.length l)).
Proof. unfold take. rewrite length_firstn. lia. Qed.

(** The rows a page leaves out come after the rows it has. *)
Lemma take_sorted_first {A : Type} (R : A -> A -> Prop) (n : nat) (l : list A) :
  StronglySorted R l ->
  forall x y, In x (take n l) -> In y l -> ~ In y (take n l) -> R x y.
Proof.
  unfold take. intros S. revert n.
  induction S as [|a l S IH Hall]; intros n x y Hx Hy Hny.
  - destruct n; destruct Hx.
  - destruct n as [|n]; [destruct Hx|]. cbn [firstn In] in Hx, Hny.
    destruct Hy as [<-|Hy]; [tauto|].
    destruct Hx as [<-|Hx].
    + rewrite Forall_forall in Hall. now apply Hall.
    + apply (IH n); tauto.
Qed.

Section Groups.

Context {A : Type} (key : A -> string).

Lemma groupBy_keys (rows : list A) :
  map fst (groupBy key rows) = nodup string_dec (map key rows).
Proof. unfold groupBy. rewrite map_map. cbn [fst]. apply map_id. Qed.

Lemma groupBy_NoDup (rows : list A) : NoDup (map fst (groupBy key rows)).
Proof. rewrite groupBy_keys. apply NoDup_nodup. Qed.

Lemma groupBy_In (rows : list A) (k : string) (g : list A) :
  In (k, g) (groupBy key rows) <->
  (exists r, In r rows /\ key r = k) /\ g = filter (fun r => String.eqb (key r) k) rows.
Proof.
  unfold groupBy. rewrite in_map_iff. split.
  - intros (k' & [= <- <-] & Hin). apply nodup_In, in_map_iff in Hin.
    destruct Hin as (r & Hr & Hin). split; [eauto|reflexivity].
  - intros [(r & Hin & <-) ->]. exists (key r). split; [reflexivity|].
    apply nodup_In, in_map. assumption.
Qed.

(** Grouping loses no row and counts none twice: a weight summed group
    by group is the weight summed over the rows. *)
Lemma groupBy_total (w : A -> Z) (rows : list A) :
  sum (map (fun g => sum (map w (snd g))) (groupBy key rows)) = sum (map w rows).
Proof.
  unfold groupBy. rewrite map_map. cbn [snd].
  assert (G : forall names, NoDup names ->
            sum (map (fun k => sum (map w (filter (fun r => String.eqb (key r) k) rows))) names)
            = sum (map w (filter (fun r => existsb (String.eqb (key r)) names) rows))).
  { induction 1 as [|s rest Hnotin Hnd IH]; cbn [map sum fold_right existsb].
    - induction rows as [|x xs IHx]; [reflexivity|exact IHx].
    - fold (sum (map (fun k => sum (map w (filter (fun r => String.eqb (key r) k) rows)))
                   rest)).
      rewrite IH. clear IH. induction rows as [|x xs IHx]; [reflexivity|].
      cbn [filter]. destruct (String.eqb_spec (key x) s) as [E|E]; cbn [orb].
      + assert (X : existsb (String.eqb (key x)) rest = false).
        { destruct (existsb (String.eqb (key x)) rest) eqn:X; [|reflexivity].
          exfalso. apply existsb_exists in X. destruct X as (s' & Hin & Heq).
          apply String.eqb_eq in Heq. congruence. }
        rewrite X. cbn [map sum fold_right]. unfold sum in IHx |- *. lia.
      + destruct (existsb (String.eqb (key x)) rest); cbn [map sum fold_right];
          unfold sum in IHx |- *; lia. }
  rewrite (G _ (NoDup_nodup string_dec (map key rows))).
  f_equal. f_equal. apply forallb_filter_id. apply forallb_forall. intros r Hr.
  apply existsb_exists. exists (key r). split; [|apply String.eqb_refl].
  apply nodup_In, in_map. assumption.
Qed.

Lemma sum_ones (l : list A) : sum (map (fun _ => 1) l) = Z.of_nat (List.length l).
Proof.
  induction l as [|x xs IH]; [reflexivity|].
  cbn [map sum fold_right List.length]. unfold sum in IH. rewrite IH. lia.
Qed.

Lemma groupBy_sizes (rows : list A) :
  sum (map (fun g => Z.of_nat (List.length (snd g))) (groupBy key rows))
  = Z.of_nat (List.length rows).
Proof.
  rewrite <- sum_ones, <- (groupBy_total (fun _ => 1)).
  f_equal. apply map_ext. intros g. now rewrite sum_ones.
Qed.

End Groups.

Section ParkDashboardContents.

Variables (rt : Runtime) (req : Request) (db : Db) (d : ParkDashboard).

(** X12.  The park dashboard's incidentsCount is the length of the list it
    shows, not the number of open incidents: it is that number up to 5
    and stays 5 beyond.  The incidents shown are the newest of the
    requester's incidents whose status is not "resolved", newest
    first. *)
Theorem park_dashboard_incident_count_capped_at_5 :
  data (getParkDashboard rt req db) = Some d ->
  let shown := park_recentIncidents d in
  stat_incidentsCount (park_stats d)
  = Z.min 5 (count (incident_listed req db) (incidents db)) /\
  stat_incidentsCount (park_stats d) = Z.of_nat (List.length shown) /\
  (forall i, In i shown ->
     In i (incidents db) /\ incident_listed req db i = true /\
     incident_status i <> "resolved") /\
  StronglySorted (newest_first incident_reportedAt) shown /\
  (forall i j, In i shown -> In j (incidents db) -> incident_listed req db j = true ->
     ~ In j shown -> incident_reportedAt j <= incident_reportedAt i).
Proof.
  unfold getParkDashboard, query.
  destruct (rejects rt 0%nat), (rejects rt 1%nat), (rejects rt 2%nat),
    (rejects rt 3%nat), (rejects rt 4%nat), (rejects rt 5%nat);
    cbn [both]; try discriminate.
  cbn [data ok]. fold (incident_listed req db).
  intros H. apply Some_inj in H. subst d.
  cbn [park_stats park_recentIncidents stat_incidentsCount].
  pose proof (orderBy_desc_sorted incident_reportedAt
                (filter (incident_listed req db) (incidents db))) as Hsorted.
  split; [|split; [reflexivity|split; [|split]]].
  - rewrite take_length, orderBy_length. reflexivity.
  - intros i Hi. apply take_In, orderBy_In, filter_In in Hi. destruct Hi as [Hin Hl].
    split; [assumption|]. split; [assumption|].
    unfold incident_listed, AND, isNot in Hl. cbn [forallb] in Hl.
    apply andb_true_iff in Hl. destruct Hl as [Hl _].
    apply negb_true_iff, String.eqb_neq in Hl. assumption.
  - now apply take_sorted.
  - intros i j Hi Hj Hl Hnot.
    apply (take_sorted_first (newest_first incident_reportedAt) 5 _ Hsorted i j);
      [assumption| |assumption].
    apply orderBy_In, filter_In. now split.
Qed.

(** X13.  The census data of the park dashboard has one entry per population
    seen in the last 30 days: every population with a sighting of the
    period has an entry, also when the counts of its sightings add up
    to 0, and no population has two.  Its sums count every sighting of
    the period once.  Unlike the counts and lists beside it, it is not
    restricted to the requester's parks: every requester gets the same
    census data. *)
Theorem park_census_sums_every_recent_sighting :
  data (getParkDashboard rt req db) = Some d ->
  NoDup (map fst (park_censusData d)) /\
  (forall p n, In (p, n) (park_censusData d) ->
     n = sum (map sighting_count
                (filter (fun s => String.eqb (sighting_populationId s) p)
                   (filter (sighting_in_census rt) (wildlifeSightings db)))) /\
     exists s, In s (wildlifeSightings db) /\ sighting_populationId s = p /\
               now rt - days 30 <= sighting_timestamp s) /\
  (forall s, In s (wildlifeSightings db) -> now rt - days 30 <= sighting_timestamp s ->
     exists n, In (sighting_populationId s, n) (park_censusData d)) /\
  sum (map snd (park_censusData d))
  = sum (map sighting_count (filter (sighting_in_census rt) (wildlifeSightings db))) /\
  (forall other d', data (getParkDashboard rt other db) = Some d' ->
     park_censusData d' = park_censusData d).
Proof.
  unfold getParkDashboard, query.
  destruct (rejects rt 0%nat), (rejects rt 1%nat), (rejects rt 2%nat),
    (rejects rt 3%nat), (rejects rt 4%nat), (rejects rt 5%nat);
    cbn [both]; try discriminate.
  cbn [data ok]. fold (sighting_in_census rt).
  intros H. apply Some_inj in H. subst d. cbn [park_censusData].
  split; [|split; [|split; [|split]]].
  - rewrite map_map. cbn [fst]. apply groupBy_NoDup.
  - intros p n Hin. apply in_map_iff in Hin. destruct Hin as ([k g] & [= <- <-] & Hin).
    apply groupBy_In in Hin. destruct Hin as [(s & Hs & Hk) ->].
    split; [reflexivity|]. apply filter_In in Hs. destruct Hs as [Hs Hrecent].
    exists s. split; [assumption|]. split; [assumption|].
    unfold sighting_in_census, AND, gte in Hrecent. cbn [forallb] in Hrecent.
    rewrite andb_true_r in Hrecent. now apply Z.leb_le.
  - intros s Hs Hrecent. eexists. apply in_map_iff.
    exists (sighting_populationId s,
            filter (fun r => String.eqb (sighting_populationId r) (sighting_populationId s))
              (filter (sighting_in_census rt) (wildlifeSightings db))).
    split; [reflexivity|]. apply groupBy_In. split; [|reflexivity].
    exists s. split; [|reflexivity]. apply filter_In. split; [assumption|].
    unfold sighting_in_census, AND, gte. cbn [forallb].
    rewrite andb_true_r. now apply Z.leb_le.
  - rewrite map_map. cbn [snd]. apply groupBy_total.
  - intros other d' H. apply Some_inj in H. subst d'. reflexivity.
Qed.

End ParkDashboardContents.

Section FarmDashboardTrend.

Variables (rt : Runtime) (req : Request) (db : Db) (d : FarmDashboard).

(** X14.  The health trend of the farm dashboard has one entry per type of
    health event detected in the last 7 days on the requester's animals.
    Its counts are positive and add up to the number of those events:
    each is counted once, under its type. *)
Theorem farm_health_trend_counts_each_event_once :
  data (getFarmDashboard rt req db) = Some d ->
  NoDup (map fst (farm_healthTrend d)) /\
  (forall t n, In (t, n) (farm_healthTrend d) ->
     0 < n /\
     n = count (fun e => String.eqb (event_type e) t && event_in_trend rt req db e)
           (healthEvents db)) /\
  (forall e, In e (healthEvents db) -> event_in_trend rt req db e = true ->
     now rt - days 7 <= event_detectedAt e /\
     exists n, In (event_type e, n) (farm_healthTrend d)) /\
  sum (map snd (farm_healthTrend d)) = count (event_in_trend rt req db) (healthEvents db).
Proof.
  unfold getFarmDashboard, query.
  destruct (rejects rt 0%nat), (rejects rt 1%nat), (rejects rt 2%nat),
    (rejects rt 3%nat), (rejects rt 4%nat), (rejects rt 5%nat), (rejects rt 6%nat);
    cbn [both]; try discriminate.
  cbn [data ok]. fold (event_in_trend rt req db).
  intros H. apply Some_inj in H. subst d. cbn [farm_healthTrend].
  set (recent := filter (event_in_trend rt req db) (healthEvents db)).
  assert (Hgroup : forall t,
             Z.of_nat (List.length (filter (fun e => String.eqb (event_type e) t) recent))
             = count (fun e => String.eqb (event_type e) t && event_in_trend rt req db e)
                 (healthEvents db)).
  { intros t. unfold count, recent. f_equal. f_equal.
    induction (healthEvents db) as [|x xs IH]; [reflexivity|]. cbn [filter].
    destruct (event_in_trend rt req db x); cbn [filter];
      destruct (String.eqb (event_type x) t); cbn [andb]; now rewrite IH. }
  split; [|split; [|split]].
  - rewrite map_map. cbn [fst]. apply groupBy_NoDup.
  - intros t n Hin. apply in_map_iff in Hin. destruct Hin as ([k g] & [= <- <-] & Hin).
    apply groupBy_In in Hin. destruct Hin as [(e & He & Hk) ->]. cbn [snd].
    split; [|apply Hgroup].
    assert (Hmem : In e (filter (fun e => String.eqb (event_type e) k) recent)).
    { apply filter_In. split; [assumption|]. now apply String.eqb_eq. }
    destruct (filter (fun e => String.eqb (event_type e) k) recent); [destruct Hmem|].
    cbn [List.length]. lia.
  - intros e He Hs. split.
    + unfold event_in_trend, AND, gte in Hs. cbn [forallb] in Hs.
      apply andb_true_iff in Hs. destruct Hs as [Hs _]. now apply Z.leb_le.
    + eexists. apply in_map_iff.
      exists (event_type e, filter (fun r => String.eqb (event_type r) (event_type e)) recent).
      split; [reflexivity|]. apply groupBy_In. split; [|reflexivity].
      exists e. split; [|reflexivity]. apply filter_In. now split.
  - rewrite map_map. cbn [snd fst]. rewrite groupBy_sizes. reflexivity.
Qed.

End FarmDashboardTrend.

(** ** The overview against the lists and the other statistics *)

Section OverviewAndLists.

Variables (rt rt' : Runtime) (req : Request) (db : Db) (o : Overview).

Lemma unless_as_where (c : clause) :
  unless (isAdmin req) c = AND [ spread (notAdmin req) c ].
Proof. unfold unless, isAdmin, spread. destruct (notAdmin req); reflexivity. Qed.

Lemma count_where_and_not (p scope : Alert -> bool) (l : list Alert) :
  count (fun a => negb (p a) && scope a) l = count scope l - count (fun a => p a && scope a) l.
Proof.
  rewrite <- (count_ext (fun a => (negb (p a) && scope a) || (p a && scope a)) scope l).
  - rewrite count_or; [lia|]. intros a. destruct (p a), (scope a); reflexivity.
  - intros a _. destruct (p a), (scope a); reflexivity.
Qed.

(** X15.  The numbers on the overview are the sizes of what the other
    endpoints give the same requester: farms and parks count the lists
    of [getFarms] and [getParks], activeAlerts is total minus resolved
    of [getAlertStats].  landZones counts every zone, whoever asks. *)
Theorem overview_counts_agree_with_lists :
  data (getOverviewStats rt req db) = Some o ->
  let s := overview_stats o in
  (forall l, data (getFarms rt' req db) = Some l -> stat_farms s = Z.of_nat (List.length l)) /\
  (forall l, data (getParks rt' req db) = Some l -> stat_parks s = Z.of_nat (List.length l)) /\
  (forall st, data (getAlertStats rt' req db) = Some st ->
     stat_activeAlerts s = stats_total st - stats_resolved st) /\
  stat_landZones s = Z.of_nat (List.length (landZones db)).
Proof.
  unfold getOverviewStats, query.
  destruct (rejects rt 0%nat), (rejects rt 1%nat), (rejects rt 2%nat),
    (rejects rt 3%nat), (rejects rt 4%nat), (rejects rt 5%nat), (rejects rt 6%nat),
    (rejects rt 7%nat); cbn [both]; try discriminate.
  cbn [data ok]. intros H. apply Some_inj in H. subst o.
  cbn [overview_stats stat_farms stat_parks stat_activeAlerts stat_landZones].
  split; [|split; [|split]].
  - unfold getFarms, query. destruct (rejects rt' 0%nat); [discriminate|].
    cbn [data ok]. intros l H. apply Some_inj in H. subst l.
    rewrite orderBy_length. apply count_ext. intros f _. apply unless_as_where.
  - unfold getParks, query. destruct (rejects rt' 0%nat); [discriminate|].
    cbn [data ok]. intros l H. apply Some_inj in H. subst l.
    rewrite orderBy_length. apply count_ext. intros p _. apply unless_as_where.
  - unfold getAlertStats, query.
    destruct (rejects rt' 0%nat), (rejects rt' 1%nat), (rejects rt' 2%nat),
      (rejects rt' 3%nat), (rejects rt' 4%nat); cbn [both]; try discriminate.
    cbn [data ok]. fold (alert_counted req).
    intros st H. apply Some_inj in H. subst st. cbn [stats_total stats_resolved].
    rewrite (count_ext (withStatus req "RESOLVED")
               (fun a => String.eqb (alert_status a) "RESOLVED" && alert_counted req a)
               (alerts db) (fun a _ => withStatus_spec req "RESOLVED" a)).
    rewrite <- count_where_and_not. apply count_ext. intros a _.
    unfold alert_counted, AND, isNot, spread, isAdmin. cbn [forallb].
    destruct (notAdmin req); cbn [negb]; [|reflexivity].
    now rewrite andb_true_r.
  - apply count_all.
Qed.

(** X16.  The overview shows at most 10 activities, newest first, the newest
    there are; a requester who is not ADMIN sees only their own. *)
Theorem overview_recent_activities_own_and_newest :
  data (getOverviewStats rt req db) = Some o ->
  let shown := overview_recentActivities o in
  (List.length shown <= 10)%nat /\
  StronglySorted (newest_first activity_timestamp) shown /\
  (forall a, In a shown -> In a (activities db)) /\
  (forall u, user req = Some u -> auth_role u <> "ADMIN" ->
     forall a, In a shown -> activity_userId a = auth_id u) /\
  (forall u, user req = Some u ->
     forall a b, In a shown -> In b (activities db) -> ~ In b shown ->
       auth_role u = "ADMIN" \/ activity_userId b = auth_id u ->
       activity_timestamp b <= activity_timestamp a).
Proof.
  unfold getOverviewStats, query.
  destruct (rejects rt 0%nat), (rejects rt 1%nat), (rejects rt 2%nat),
    (rejects rt 3%nat), (rejects rt 4%nat), (rejects rt 5%nat), (rejects rt 6%nat),
    (rejects rt 7%nat); cbn [both]; try discriminate.
  cbn [data ok]. intros H. apply Some_inj in H. subst o.
  cbn [overview_recentActivities].
  set (own := fun a : Activity => unless (isAdmin req) (equals (userId req) (activity_userId a))).
  pose proof (orderBy_desc_sorted activity_timestamp (filter own (activities db))) as Hsorted.
  assert (Hown : forall u, user req = Some u -> forall a,
             own a = true <-> auth_role u = "ADMIN" \/ activity_userId a = auth_id u).
  { intros u Hu a. unfold own, unless, isAdmin, notAdmin, userId, AND, equals.
    rewrite Hu. destruct (String.eqb_spec (auth_role u) "ADMIN"); cbn [negb forallb];
      [tauto|].
    rewrite andb_true_r, String.eqb_eq. tauto. }
  split; [|split; [|split; [|split]]].
  - unfold take. rewrite length_firstn. lia.
  - now apply take_sorted.
  - intros a Ha. apply take_In, orderBy_In, filter_In in Ha. tauto.
  - intros u Hu Hrole a Ha. apply take_In, orderBy_In, filter_In in Ha.
    destruct Ha as [_ Ha]. apply (Hown u Hu) in Ha. tauto.
  - intros u Hu a b Ha Hb Hnot Hmine.
    apply (take_sorted_first (newest_first activity_timestamp) 10 _ Hsorted a b);
      [assumption| |assumption].
    apply orderBy_In, filter_In. split; [assumption|]. now apply (Hown u Hu).
Qed.

End OverviewAndLists.

(** ** Changing the password *)

Section PasswordChanges.

Variables (lib : Library) (rt : Runtime) (req : Request) (db : Db).

Lemma changePassword_changed :
  statusCode (fst (changePassword lib rt req db)) = 200 ->
  exists requester current new account users',
    user req = Some requester /\
    field "currentPassword" (body req) = Some (JStr current) /\
    field "newPassword" (body req) = Some (JStr new) /\
    (6 <= String.length new)%nat /\
    findUnique user_id (auth_id requester) (users db) = Some account /\
    bcryptCompare rt current (user_password account) = true /\
    update user_id (auth_id requester) (changePassword_data (bcryptHash lib new)) (users db)
    = Resolved (changePassword_data (bcryptHash lib new) account, users') /\
    changePassword lib rt req db = (done "Password changed successfully", set_users db users').
Proof.
  unfold changePassword, query. cbv zeta.
  destruct (user req) as [requester|]; [|simpl; discriminate].
  destruct (field "newPassword" (body req)) as [v|];
    [|cbn [truthy negb]; rewrite orb_true_r; simpl; discriminate].
  destruct (_ || _); [simpl; discriminate|].
  destruct (lengthBelow6 lib v) eqn:L; [simpl; discriminate|].
  destruct (rejects rt 0%nat); [simpl; discriminate|].
  destruct (findUnique user_id (auth_id requester) (users db)) as [account|] eqn:F;
    [|simpl; discriminate].
  destruct (field "currentPassword" (body req)) as [[| | |current| |]|];
    cbn [asString bind]; try (simpl; discriminate).
  destruct (bcryptCompare rt current (user_password account)) eqn:B; [|simpl; discriminate].
  destruct v as [| | |new| |]; cbn [asString bind]; try (simpl; discriminate).
  destruct (rejects rt 1%nat); [simpl; discriminate|].
  destruct (update_found user_id (auth_id requester)
              (changePassword_data (bcryptHash lib new)) _ _ F) as (users' & Hup).
  rewrite Hup. intros _. cbn [lengthBelow6] in L. apply Nat.ltb_ge in L.
  exists requester, current, new, account, users'. repeat split; assumption.
Qed.

Lemma changePassword_failed :
  statusCode (fst (changePassword lib rt req db)) <> 200 ->
  snd (changePassword lib rt req db) = db.
Proof.
  unfold changePassword, query. cbv zeta.
  destruct (user req) as [requester|]; [|reflexivity].
  destruct (_ || _); [reflexivity|].
  destruct (match field "newPassword" (body req) with
            | Some v => lengthBelow6 lib v | None => false end); [reflexivity|].
  destruct (rejects rt 0%nat); [reflexivity|].
  destruct (findUnique user_id (auth_id requester) (users db)) as [account|];
    [|reflexivity].
  destruct (asString (field "currentPassword" (body req))) as [current|];
    cbn [bind]; [|reflexivity].
  destruct (bcryptCompare rt current (user_password account)); [|reflexivity].
  destruct (asString (field "newPassword" (body req))) as [new|]; cbn [bind]; [|reflexivity].
  destruct (rejects rt 1%nat); [reflexivity|].
  destruct (update user_id (auth_id requester) _ (users db)) as [[r users']|];
    [|reflexivity].
  intros H. exfalso. apply H. reflexivity.
Qed.

Lemma changePassword_data_keeps_id (h : string) (u : User) :
  user_id (changePassword_data h u) = user_id u.
Proof. reflexivity. Qed.

(** X17.  [changePassword] writes one thing or nothing.  Any answer but 200
    leaves the database as it was.  A 200 means the requester's row
    exists, the current password matched its hash and the new password
    is a string of at least 6 characters; afterwards the row's password
    is the hash of the new password, every other column of the row,
    every other user and every other table are as before.  No answer
    carries data, so neither password nor hash is sent back. *)
Theorem changePassword_writes_only_the_requesters_password :
  let r := changePassword lib rt req db in
  data (fst r) = None /\
  (statusCode (fst r) <> 200 -> snd r = db) /\
  (statusCode (fst r) = 200 ->
   exists requester current new account stored,
     user req = Some requester /\
     field "currentPassword" (body req) = Some (JStr current) /\
     field "newPassword" (body req) = Some (JStr new) /\
     (6 <= String.length new)%nat /\
     findUnique user_id (auth_id requester) (users db) = Some account /\
     bcryptCompare rt current (user_password account) = true /\
     findUnique user_id (auth_id requester) (users (snd r)) = Some stored /\
     user_password stored = bcryptHash lib new /\
     (user_id stored = user_id account /\ user_email stored = user_email account /\
      user_firstName stored = user_firstName account /\
      user_lastName stored = user_lastName account /\
      user_role stored = user_role account /\ user_status stored = user_status account /\
      user_services stored = user_services account /\
      user_lastLoginAt stored = user_lastLoginAt account) /\
     (forall other, other <> auth_id requester ->
        findUnique user_id other (users (snd r)) = findUnique user_id other (users db)) /\
     List.length (users (snd r)) = List.length (users db) /\
     snd r = set_users db (users (snd r))).
Proof.
  intros r. subst r. split; [|split; [apply changePassword_failed|]].
  - unfold changePassword, query. cbv zeta.
    destruct (user req) as [requester|]; [|reflexivity].
    destruct (_ || _); [reflexivity|].
    destruct (match field "newPassword" (body req) with
              | Some v => lengthBelow6 lib v | None => false end); [reflexivity|].
    destruct (rejects rt 0%nat); [reflexivity|].
    destruct (findUnique user_id (auth_id requester) (users db)) as [account|];
      [|reflexivity].
    destruct (asString (field "currentPassword" (body req))) as [current|];
      cbn [bind]; [|reflexivity].
    destruct (bcryptCompare rt current (user_password account)); [|reflexivity].
    destruct (asString (field "newPassword" (body req))) as [new|]; cbn [bind];
      [|reflexivity].
    destruct (rejects rt 1%nat); [reflexivity|].
    destruct (update user_id (auth_id requester) _ (users db)) as [[r users']|];
      reflexivity.
  - intros H200.
    destruct (changePassword_changed H200)
      as (requester & current & new & account & users' & Hu & Hcur & Hnew & Hlen & Hfind
          & Hcmp & Hup & Hrun).
    rewrite Hrun. cbn [snd set_users users].
    destruct (update_resolved user_id (auth_id requester)
                (changePassword_data (bcryptHash lib new)) _ _ _
                (changePassword_data_keeps_id (bcryptHash lib new)) Hup)
      as (old & Hold & _ & Hstored & Hframe & Hsize).
    rewrite Hfind in Hold. apply Some_inj in Hold. subst old.
    exists requester, current, new, account, (changePassword_data (bcryptHash lib new) account).
    repeat split; assumption.
Qed.

End PasswordChanges.

Section PasswordChangeThenLogin.

Variables (lib : Library) (rt rt' : Runtime) (req : Request) (db : Db).
Variables (requester : AuthUser) (account : User) (new : string).
Variables (attempt : Request) (password : string).

Hypothesis changed : statusCode (fst (changePassword lib rt req db)) = 200.
Hypothesis by_requester : user req = Some requester.
Hypothesis new_given : field "newPassword" (body req) = Some (JStr new).
Hypothesis account_by_id :
  findUnique user_id (auth_id requester) (users db) = Some account.
Hypothesis account_by_email :
  find (fun u => String.eqb (user_email u) (user_email account)) (users db) = Some account.
Hypothesis email_given : field "email" (body attempt) = Some (JStr (user_email account)).
Hypothesis email_not_empty : user_email account <> "".
Hypothesis password_given : field "password" (body attempt) = Some (JStr password).
Hypothesis password_not_empty : password <> "".
Hypothesis lookup_resolves : rejects rt' 0%nat = false.

(** A lookup by another column finds the changed row after an update
    that leaves that column alone. *)
Lemma update_then_find {A : Type} (id_of : A -> Id) (id : Id) (change : A -> A)
    (p : A -> bool) (table table' : list A) (old r : A) :
  (forall x, p (change x) = p x) ->
  update id_of id change table = Resolved (r, table') ->
  findUnique id_of id table = Some old ->
  find p table = Some old ->
  find p table' = Some (change old).
Proof.
  intros Hp. unfold findUnique. revert r table'.
  induction table as [|x rest IH]; intros r table' Hup Hid Hfind; [discriminate|].
  cbn [update find] in *.
  destruct (String.eqb (id_of x) id) eqn:E.
  - apply Some_inj in Hid. subst x. injection Hup as <- <-. cbn [find].
    rewrite Hp. destruct (p old) eqn:P; [reflexivity|].
    apply find_some in Hfind. destruct Hfind as [_ Hfind]. congruence.
  - destruct (update id_of id change rest) as [[r0 rest0]|] eqn:U; [|discriminate].
    injection Hup as <- <-. cbn [find].
    destruct (p x) eqn:P.
    + apply Some_inj in Hfind. subst x. apply find_some in Hid.
      destruct Hid as [_ Hid]. congruence.
    + now apply (IH r0 rest0).
Qed.

(** X18.  After a password change, [login] checks the password it is given
    against the hash of the new password: an attempt the hash does not
    match is answered 401 "Invalid credentials", the old password
    included; an attempt it matches logs an ACTIVE account in. *)
Theorem login_after_changePassword_checks_the_new_hash :
  let db' := snd (changePassword lib rt req db) in
  (bcryptCompare rt' password (bcryptHash lib new) = false ->
   login rt' attempt db' = (fail 401 "Invalid credentials", db')) /\
  (bcryptCompare rt' password (bcryptHash lib new) = true ->
   user_status account = "ACTIVE" -> rejects rt' 1%nat = false ->
   forall services, parsedServices rt' account = Resolved services ->
   statusCode (fst (login rt' attempt db')) = 200 /\
   exists d, data (fst (login rt' attempt db')) = Some d /\
             data_id (login_user d) = user_id account /\
             login_token d
             = jwtSign rt' (user_id account) (user_email account) (user_role account)).
Proof.
  destruct (changePassword_changed lib rt req db changed)
    as (requester' & current & new' & account' & users' & Hu & _ & Hnew & _ & Hfind
        & _ & Hup & Hrun).
  rewrite by_requester in Hu. apply Some_inj in Hu. subst requester'.
  rewrite new_given in Hnew. injection Hnew as <-.
  rewrite account_by_id in Hfind. apply Some_inj in Hfind. subst account'.
  rewrite Hrun. cbn [snd].
  assert (Hstored : find (fun u => String.eqb (user_email u) (user_email account)) users'
                    = Some (changePassword_data (bcryptHash lib new) account)).
  { apply (update_then_find user_id (auth_id requester)
             (changePassword_data (bcryptHash lib new)) _ (users db) users' account
             (changePassword_data (bcryptHash lib new) account));
      [reflexivity|assumption..]. }
  destruct (update_resolved user_id (auth_id requester)
              (changePassword_data (bcryptHash lib new)) _ _ _
              (changePassword_data_keeps_id (bcryptHash lib new)) Hup)
    as (old & Hold & _ & Hbyid & _ & _).
  rewrite account_by_id in Hold. apply Some_inj in Hold. subst old.
  assert (Hid : user_id account = auth_id requester).
  { apply find_some in account_by_id. destruct account_by_id as [_ E].
    now apply String.eqb_eq in E. }
  pose proof email_not_empty as Hne. pose proof password_not_empty as Hnp.
  apply truthy_JStr in Hne, Hnp.
  split.
  - intros B. unfold login. rewrite email_given, password_given, Hne, Hnp. cbn [negb orb].
    unfold query. rewrite lookup_resolves. cbn [asString bind users set_users].
    rewrite Hstored. cbn [changePassword_data user_password]. now rewrite B.
  - intros B Hactive Hr1 services Hservices.
    unfold login. rewrite email_given, password_given, Hne, Hnp. cbn [negb orb].
    unfold query. rewrite lookup_resolves, Hr1. cbn [asString bind users set_users].
    rewrite Hstored.
    cbn [changePassword_data user_password user_status user_id user_email user_role].
    rewrite B, Hactive. replace (String.eqb "ACTIVE" "ACTIVE") with true by reflexivity.
    cbn [negb]. rewrite Hid in *.
    destruct (update_found user_id (auth_id requester) (login_data rt') _ _ Hbyid)
      as (users'' & Hup'').
    rewrite Hup''.
    replace (parsedServices rt' (changePassword_data (bcryptHash lib new) account))
      with (parsedServices rt' account) by reflexivity.
    rewrite Hservices. cbn [fst statusCode data ok_msg]. split; [reflexivity|].
    eexists. split; [reflexivity|]. cbn [login_user login_token data_id]. split; reflexivity.
Qed.

End PasswordChangeThenLogin.

(** ** Generating a report, then listing *)

Section ReportGeneration.

Variables (rt : Runtime) (req : Request) (db : Db).

Lemma generateReport_created :
  statusCode (fst (generateReport rt req db)) = 201 ->
  exists u report,
    user req = Some u /\
    report_id report = newId rt /\
    report_generatedById report = auth_id u /\
    report_generatedAt report = now rt /\
    field "title" (body req) = Some (JStr (report_title report)) /\
    findUnique report_id (newId rt) (reports db) = None /\
    generateReport rt req db
    = (ok_msg 201 "Report generated successfully" report,
       set_reports db (reports db ++ [report])).
Proof.
  unfold generateReport, query.
  destruct (_ || _); [simpl; discriminate|].
  destruct (rejects rt 0%nat); [simpl; discriminate|].
  destruct (field "title" (body req)) as [[| | |title| |]|]; try (simpl; discriminate).
  cbn [asString bind].
  destruct (asString (field "type" (body req))) as [type|]; [|simpl; discriminate].
  destruct (asString (field "module" (body req))) as [module|]; [|simpl; discriminate].
  destruct (asOptionalString (field "description" (body req))) as [description|];
    [|simpl; discriminate].
  destruct (optionalDate rt (field "periodStart" (body req))) as [periodStart|];
    [|simpl; discriminate].
  destruct (optionalDate rt (field "periodEnd" (body req))) as [periodEnd|];
    [|simpl; discriminate].
  destruct (field "dataSnapshot" (body req)) as [snapshot|]; [|simpl; discriminate].
  unfold userId. destruct (user req) as [u|]; [|simpl; discriminate].
  cbn [bind option_map required]. unfold create. cbn [report_id].
  destruct (existsb _ (reports db)) eqn:E; [simpl; discriminate|].
  intros _.
  match goal with |- context [ok_msg 201 _ ?r] => exists u, r end.
  cbn [report_id report_generatedById report_generatedAt report_title].
  repeat (split; [reflexivity|]). split; [now apply fresh_id_not_found|reflexivity].
Qed.

End ReportGeneration.

Section ReportGenerationThenList.

Variables (rt rt' : Runtime) (req : Request) (db : Db).
Variables (author viewer : AuthUser) (req' : Request).

Hypothesis generated : statusCode (fst (generateReport rt req db)) = 201.
Hypothesis by_author : user req = Some author.
Hypothesis seen_by : user req' = Some viewer.
Hypothesis list_resolves : rejects rt' 0%nat = false.

(** X19.  A generated report is recorded under the requester's id and the
    time of the call.  Afterwards [getReports] shows it to its author
    and to an ADMIN, and to nobody else; the reports that were listed
    before still are. *)
Theorem generated_report_listed_for_author_and_admin_only :
  exists report l,
    data (fst (generateReport rt req db)) = Some report /\
    report_generatedById report = auth_id author /\
    report_generatedAt report = now rt /\
    data (getReports rt' req' (snd (generateReport rt req db))) = Some l /\
    (In report l <-> auth_role viewer = "ADMIN" \/ auth_id viewer = auth_id author) /\
    (forall before, data (getReports rt' req' db) = Some before ->
       forall r, In r before -> In r l).
Proof.
  destruct (generateReport_created rt req db generated)
    as (u & report & Hu & Hid & Hby & Hat & _ & _ & Hrun).
  rewrite by_author in Hu. apply Some_inj in Hu. subst u.
  rewrite Hrun. cbn [fst snd data ok_msg].
  exists report. unfold getReports, query. rewrite list_resolves. cbn [data ok].
  eexists. split; [reflexivity|]. split; [assumption|]. split; [assumption|].
  split; [reflexivity|].
  assert (Hw : forall r,
             (if negb (isAdmin req')
              then AND [equals (userId req') (report_generatedById r)] else true) = true
             <-> auth_role viewer = "ADMIN" \/ report_generatedById r = auth_id viewer).
  { intros r. unfold isAdmin, notAdmin, AND, equals.
    rewrite (userId_authenticated req' viewer seen_by), seen_by.
    destruct (String.eqb_spec (auth_role viewer) "ADMIN"); cbn [negb forallb]; [tauto|].
    rewrite andb_true_r, String.eqb_eq. tauto. }
  split.
  - rewrite orderBy_In, filter_In, Hw. cbn [reports set_reports].
    rewrite in_app_iff, Hby. cbn [In]. split.
    + intros [_ [H|H]]; auto.
    + intros H. split; [right; left; reflexivity|]. destruct H; auto.
  - intros before H. apply Some_inj in H. subst before. intros r.
    rewrite !orderBy_In, !filter_In. cbn [reports set_reports]. rewrite in_app_iff. tauto.
Qed.

End ReportGenerationThenList.

(** ** The land dashboard against the lists of a zone *)

Import LandController.

Lemma avg_None (l : list (option Q)) : avg l = None <-> forall v, In v l -> v = None.
Proof.
  unfold avg.
  assert (H : flat_map (fun v : option Q => match v with Some q => [q] | None => [] end) l = []
              <-> forall v, In v l -> v = None).
  { induction l as [|[q|] rest IH]; cbn [flat_map app In].
    - split; [intros _ v []|reflexivity].
    - split; [discriminate|]. intros H. specialize (H (Some q) (or_introl eq_refl)).
      discriminate.
    - rewrite IH. split.
      + intros H v [<-|Hv]; auto.
      + intros H v Hv. apply H. now right. }
  rewrite <- H.
  destruct (flat_map _ l); split; congruence.
Qed.

Section LandDashboardContents.

Variables (rt rt' : Runtime) (req : Request) (db : Db) (d : LandDashboard).

(** X20.  The land dashboard shows the 5 most recent changes of all zones
    (all of them when there are fewer), newest first.  Each is in the
    list [getChanges] gives for its zone, and a change of any zone that
    the dashboard does not show is no newer than the ones it shows. *)
Theorem land_dashboard_changes_newest_of_all_zones :
  data (getLandDashboard rt req db) = Some d ->
  let shown := land_recentChanges d in
  Z.of_nat (List.length shown) = Z.min 5 (Z.of_nat (List.length (landChanges db))) /\
  StronglySorted (newest_first change_detectedAt) shown /\
  (forall c get l, In c shown -> param "zoneId" get = change_zoneId c ->
     data (getChanges rt' get db) = Some l -> In c l) /\
  (forall c get l s, data (getChanges rt' get db) = Some l -> In c l -> ~ In c shown ->
     In s shown -> change_detectedAt c <= change_detectedAt s).
Proof.
  unfold getLandDashboard, query.
  destruct (rejects rt 0%nat), (rejects rt 1%nat), (rejects rt 2%nat),
    (rejects rt 3%nat), (rejects rt 4%nat), (rejects rt 5%nat);
    cbn [both]; try discriminate.
  cbn [data ok]. intros H. apply Some_inj in H. subst d. cbn [land_recentChanges].
  pose proof (orderBy_desc_sorted change_detectedAt (landChanges db)) as Hsorted.
  assert (Hlist : forall get l c, data (getChanges rt' get db) = Some l ->
             In c l <-> In c (landChanges db) /\ change_zoneId c = param "zoneId" get).
  { intros get l c. unfold getChanges, query. destruct (rejects rt' 0%nat); [discriminate|].
    cbn [data ok]. intros H. apply Some_inj in H. subst l.
    rewrite orderBy_In, filter_In. unfold AND, equals. cbn [forallb].
    now rewrite andb_true_r, String.eqb_eq. }
  split; [|split; [|split]].
  - rewrite take_length, orderBy_length. reflexivity.
  - now apply take_sorted.
  - intros c get l Hc Hz Hl. apply (Hlist get l c Hl).
    apply take_In, orderBy_In in Hc. now split.
  - intros c get l s Hl Hc Hnot Hs. apply (Hlist get l c Hl) in Hc.
    apply (take_sorted_first (newest_first change_detectedAt) 5 _ Hsorted s c);
      [assumption| |assumption].
    apply orderBy_In. tauto.
Qed.

(** X21.  The vegetation trend has one entry per zone that was surveyed in
    the last 365 days: a zone has an entry exactly when [getSurveys]
    lists a survey of that period for it.  An entry's average is null
    exactly when none of those surveys carries the measurement. *)
Theorem land_vegetation_trend_one_entry_per_surveyed_zone :
  data (getLandDashboard rt req db) = Some d ->
  let trend := land_vegetationTrend d in
  NoDup (map trend_zoneId trend) /\
  (forall get l, data (getSurveys rt' get db) = Some l ->
     (In (param "zoneId" get) (map trend_zoneId trend) <->
      exists s, In s l /\ now rt - days 365 <= survey_surveyDate s)) /\
  (forall t, In t trend ->
     (trend_ndvi t = None <->
      forall s, In s (landSurveys db) -> survey_zoneId s = trend_zoneId t ->
        now rt - days 365 <= survey_surveyDate s -> survey_ndvi s = None) /\
     (trend_healthScore t = None <->
      forall s, In s (landSurveys db) -> survey_zoneId s = trend_zoneId t ->
        now rt - days 365 <= survey_surveyDate s -> survey_healthScore s = None)).
Proof.
  unfold getLandDashboard, query.
  destruct (rejects rt 0%nat), (rejects rt 1%nat), (rejects rt 2%nat),
    (rejects rt 3%nat), (rejects rt 4%nat), (rejects rt 5%nat);
    cbn [both]; try discriminate.
  cbn [data ok]. fold (survey_in_trend rt).
  intros H. apply Some_inj in H. subst d. cbn [land_vegetationTrend].
  set (recent := filter (survey_in_trend rt) (landSurveys db)).
  assert (Hrecent : forall s, In s recent <->
             In s (landSurveys db) /\ now rt - days 365 <= survey_surveyDate s).
  { intros s. unfold recent. rewrite filter_In. unfold survey_in_trend, AND, gte.
    cbn [forallb]. now rewrite andb_true_r, Z.leb_le. }
  assert (Hkeys : forall z, In z (map fst (groupBy survey_zoneId recent)) <->
             exists s, In s recent /\ survey_zoneId s = z).
  { intros z. rewrite groupBy_keys, nodup_In, in_map_iff. split.
    - intros (s & Hz & Hs). eauto.
    - intros (s & Hs & Hz). eauto. }
  assert (Hnull : forall (m : LandSurvey -> option Q) z,
             avg (map m (filter (fun s => String.eqb (survey_zoneId s) z) recent)) = None <->
             forall s, In s (landSurveys db) -> survey_zoneId s = z ->
               now rt - days 365 <= survey_surveyDate s -> m s = None).
  { intros m z. rewrite avg_None. split.
    - intros H s Hs Hz Hd. apply H. apply in_map. apply filter_In.
      split; [now apply Hrecent|now apply String.eqb_eq].
    - intros H v Hv. apply in_map_iff in Hv. destruct Hv as (s & <- & Hs).
      apply filter_In in Hs. destruct Hs as [Hs Hz]. apply Hrecent in Hs.
      apply String.eqb_eq in Hz. now apply H. }
  split; [|split].
  - rewrite map_map. cbn [trend_zoneId]. apply groupBy_NoDup.
  - intros get l. unfold getSurveys, query. destruct (rejects rt' 0%nat); [discriminate|].
    cbn [data ok]. intros H. apply Some_inj in H. subst l.
    rewrite map_map. cbn [trend_zoneId]. rewrite Hkeys. split.
    + intros (s & Hs & Hz). apply Hrecent in Hs. exists s. split; [|tauto].
      apply orderBy_In, filter_In. split; [tauto|]. unfold AND, equals. cbn [forallb].
      now rewrite andb_true_r, String.eqb_eq.
    + intros (s & Hs & Hd). apply orderBy_In, filter_In in Hs. destruct Hs as [Hs Hz].
      unfold AND, equals in Hz. cbn [forallb] in Hz.
      rewrite andb_true_r, String.eqb_eq in Hz.
      exists s. split; [|assumption]. apply Hrecent. now split.
  - intros t Ht. apply in_map_iff in Ht. destruct Ht as ([z g] & <- & Hin).
    apply groupBy_In in Hin. destruct Hin as [_ ->].
    cbn [trend_ndvi trend_healthScore trend_zoneId fst snd].
    split; apply Hnull.
Qed.

End LandDashboardContents.

(** ** What the farm dashboard lists *)

Section FarmDashboardLists.

Variables (rt : Runtime) (req : Request) (db : Db) (d : FarmDashboard) (u : AuthUser).

Hypothesis authenticated : user req = Some u.

(** X22.  The farm dashboard lists at most 5 alerts and 10 herds, the most
    recently created alerts and the most recently updated herds first.
    The alerts are of module farm and not RESOLVED.  For a requester who
    is not ADMIN, alerts and herds are those of farms the requester
    owns: an alert that is only assigned to the requester is not
    shown. *)
Theorem farm_dashboard_lists_own_open_farm_alerts :
  data (getFarmDashboard rt req db) = Some d ->
  ((List.length (farm_recentAlerts d) <= 5)%nat /\
   StronglySorted (newest_first alert_createdAt) (farm_recentAlerts d) /\
   forall a, In a (farm_recentAlerts d) ->
     In a (alerts db) /\ alert_module a = "farm" /\ alert_status a <> "RESOLVED" /\
     (auth_role u = "ADMIN" \/
      exists i f, alert_farmId a = Some i /\ farmOf db i = Some f /\
                  farm_ownerId f = auth_id u)) /\
  ((List.length (farm_herds d) <= 10)%nat /\
   StronglySorted (newest_first herd_updatedAt) (farm_herds d) /\
   forall h, In h (farm_herds d) ->
     In h (herds db) /\
     (auth_role u = "ADMIN" \/
      exists f, farmOf db (herd_farmId h) = Some f /\ farm_ownerId f = auth_id u)).
Proof.
  unfold getFarmDashboard, query.
  destruct (rejects rt 0%nat), (rejects rt 1%nat), (rejects rt 2%nat),
    (rejects rt 3%nat), (rejects rt 4%nat), (rejects rt 5%nat), (rejects rt 6%nat);
    cbn [both]; try discriminate.
  cbn [data ok]. intros H. apply Some_inj in H. subst d.
  cbn [farm_recentAlerts farm_herds].
  assert (Hscope : forall fid,
             match spread (negb (isAdmin req)) (farm_ownedBy db (userId req) fid) with
             | Some b => b | None => true end = true ->
             auth_role u = "ADMIN" \/
             exists i f, fid = Some i /\ farmOf db i = Some f /\ farm_ownerId f = auth_id u).
  { intros fid. unfold isAdmin, notAdmin, spread.
    rewrite (userId_authenticated req u authenticated), authenticated.
    destruct (String.eqb_spec (auth_role u) "ADMIN"); cbn [negb]; [tauto|].
    intros H. right. apply farm_ownedBy_spec. revert H.
    unfold farm_ownedBy, equals. destruct fid as [i|]; [|discriminate].
    destruct (farmOf db i); [|discriminate]. now intros ->. }
  split; split.
  - unfold take. rewrite length_firstn. lia.
  - split; [apply take_sorted, orderBy_desc_sorted|].
    intros a Ha. apply take_In, orderBy_In, filter_In in Ha. destruct Ha as [Hin Hw].
    unfold AND in Hw. cbn [forallb] in Hw. rewrite !andb_true_iff in Hw.
    destruct Hw as (Hm & Hs & Ho & _).
    split; [assumption|]. split; [now apply String.eqb_eq in Hm|].
    split; [now apply negb_true_iff, String.eqb_neq in Hs|]. now apply Hscope.
  - unfold take. rewrite length_firstn. lia.
  - split; [apply take_sorted, orderBy_desc_sorted|].
    intros h Hh. apply take_In, orderBy_In, filter_In in Hh. destruct Hh as [Hin Hw].
    split; [assumption|]. rewrite unless_as_where in Hw. unfold AND in Hw.
    cbn [forallb] in Hw. rewrite andb_true_r in Hw.
    replace (notAdmin req) with (negb (isAdmin req)) in Hw
      by (unfold isAdmin; now rewrite negb_involutive).
    destruct (Hscope _ Hw) as [|(i & f & [= <-] & Hf & Ho)]; eauto.
Qed.

End FarmDashboardLists.

(** ** A status update, seen through the statistics *)

Section StatusUpdateAndStatistics.

Lemma count_update {A : Type} (id_of : A -> Id) (id : Id) (change : A -> A) (p : A -> bool)
    (table table' : list A) (old r : A) :
  update id_of id change table = Resolved (r, table') ->
  findUnique id_of id table = Some old ->
  count p table' = count p table - Z.b2z (p old) + Z.b2z (p (change old)).
Proof.
  unfold findUnique, count. revert r table'.
  induction table as [|x rest IH]; intros r table' Hup Hfind; [discriminate|].
  cbn [update find] in *. destruct (String.eqb (id_of x) id).
  - apply Some_inj in Hfind. subst x. injection Hup as <- <-. cbn [filter].
    destruct (p old), (p (change old)); cbn [List.length Z.b2z];
      rewrite ?Nat2Z.inj_succ; lia.
  - destruct (update id_of id change rest) as [[r0 rest0]|]; [|discriminate].
    injection Hup as <- <-. specialize (IH r0 rest0 eq_refl Hfind). cbn [filter].
    destruct (p x); cbn [List.length]; rewrite ?Nat2Z.inj_succ; lia.
Qed.

Variables (rt rt1 rt2 : Runtime) (req viewer : Request) (db : Db).
Variables (old : Alert) (status : string) (st st' : AlertStats).

Hypothesis stored : findUnique alert_id (param "id" req) (alerts db) = Some old.
Hypothesis updated : statusCode (fst (updateAlertStatus rt req db)) = 200.
Hypothesis status_given : field "status" (body req) = Some (JStr status).
Hypothesis before : data (getAlertStats rt1 viewer db) = Some st.
Hypothesis after :
  data (getAlertStats rt2 viewer (snd (updateAlertStatus rt req db))) = Some st'.

(** X23.  A status update changes no one's total in the alert statistics, and
    nothing at all for a viewer the alert is not counted for.  For the
    others it takes the alert out of the count of its old status and
    puts it into the count of the new one, when these are among the four
    the statistics have.  The status is not checked against them: after
    an update to any other status the alert is in total and in none of
    the four counts. *)
Theorem updateAlertStatus_moves_the_alert_between_counts :
  stats_total st' = stats_total st /\
  stats_new st' = stats_new st + moved viewer old status "NEW" /\
  stats_acknowledged st' = stats_acknowledged st + moved viewer old status "ACKNOWLEDGED" /\
  stats_inProgress st' = stats_inProgress st + moved viewer old status "IN_PROGRESS" /\
  stats_resolved st' = stats_resolved st + moved viewer old status "RESOLVED" /\
  (alert_counted viewer old = false -> st' = st) /\
  (alert_counted viewer old = true ->
   In (alert_status old) ["NEW"; "ACKNOWLEDGED"; "IN_PROGRESS"; "RESOLVED"] ->
   ~ In status ["NEW"; "ACKNOWLEDGED"; "IN_PROGRESS"; "RESOLVED"] ->
   stats_new st' + stats_acknowledged st' + stats_inProgress st' + stats_resolved st'
   = stats_new st + stats_acknowledged st + stats_inProgress st + stats_resolved st - 1).
Proof.
  revert updated after. unfold updateAlertStatus, query. rewrite status_given.
  destruct (truthy (Some (JStr status))); cbn [negb]; [|simpl; discriminate].
  destruct (rejects rt 0%nat); [simpl; discriminate|].
  cbn [asString bind].
  destruct (asOptionalString (field "actionTaken" (body req))) as [t|];
    [|simpl; discriminate].
  cbn [bind].
  destruct (update_found alert_id (param "id" req)
              (updateAlertStatus_data rt req status t) _ _ stored) as (alerts' & Hup).
  rewrite Hup. cbn [fst snd statusCode ok_msg]. intros _.
  revert before. unfold getAlertStats, query.
  destruct (rejects rt1 0%nat), (rejects rt1 1%nat), (rejects rt1 2%nat),
    (rejects rt1 3%nat), (rejects rt1 4%nat); cbn [both]; try discriminate.
  destruct (rejects rt2 0%nat), (rejects rt2 1%nat), (rejects rt2 2%nat),
    (rejects rt2 3%nat), (rejects rt2 4%nat); cbn [both]; try discriminate.
  cbn [data ok alerts set_alerts]. fold (alert_counted viewer).
  intros Hb Ha. apply Some_inj in Hb, Ha. subst st st'.
  cbn [stats_total stats_new stats_acknowledged stats_inProgress stats_resolved].
  assert (Hcounted : alert_counted viewer (updateAlertStatus_data rt req status t old)
                     = alert_counted viewer old) by reflexivity.
  assert (Hbucket : forall s,
             count (withStatus viewer s) alerts'
             = count (withStatus viewer s) (alerts db) + moved viewer old status s).
  { intros s. rewrite (count_update alert_id (param "id" req)
                         (updateAlertStatus_data rt req status t) (withStatus viewer s)
                         (alerts db) alerts' old _ Hup stored).
    rewrite !withStatus_spec, Hcounted. unfold moved.
    cbn [updateAlertStatus_data alert_status]. lia. }
  assert (Htotal : count (alert_counted viewer) alerts'
                   = count (alert_counted viewer) (alerts db)).
  { rewrite (count_update alert_id (param "id" req)
               (updateAlertStatus_data rt req status t) (alert_counted viewer)
               (alerts db) alerts' old _ Hup stored).
    rewrite Hcounted. lia. }
  rewrite Htotal, !Hbucket.
  repeat (split; [reflexivity|]). split.
  - intros Hno. unfold moved. rewrite Hno, !andb_false_r. cbn [Z.b2z].
    rewrite !Z.sub_0_r, !Z.add_0_r. reflexivity.
  - intros Hyes Hold Hnew. unfold moved. rewrite Hyes, !andb_true_r.
    assert (Hs : forall s, In s ["NEW"; "ACKNOWLEDGED"; "IN_PROGRESS"; "RESOLVED"] ->
                   String.eqb status s = false).
    { intros s Hin. apply String.eqb_neq. intros ->. contradiction. }
    rewrite !Hs by (cbn [In]; auto). cbn [Z.b2z].
    cbn [In] in Hold.
    destruct Hold as [<-|[<-|[<-|[<-|[]]]]]; cbn [String.eqb Ascii.eqb Bool.eqb andb Z.b2z];
      lia.
Qed.

End StatusUpdateAndStatistics.

(** ** The handlers on the seed and on the busier database *)

(** Farmer 1 lists reports: their own two, the April one first, and not
    the report of farmer 2. *)
Lemma getReports_own_reports_newest_first_scenario :
  let req := Seed.request_of Seed.farmer1 [] [] [] in
  data (getReports Seed.rt req Scenario.db) = Some [Scenario.report3; Scenario.report1] /\
  StronglySorted (newest_first report_generatedAt) [Scenario.report3; Scenario.report1] /\
  (In Scenario.report2 [Scenario.report3; Scenario.report1] <->
   In Scenario.report2 (reports Scenario.db) /\
   ("FARMER" = "ADMIN" \/ report_generatedById Scenario.report2 = "u-farmer1")).
Proof.
  pose proof (proj2 (getReports_own_reports_newest_first Seed.rt
                       (Seed.request_of Seed.farmer1 [] [] []) Scenario.db
                       {| auth_id := "u-farmer1"; auth_role := "FARMER" |} eq_refl)
                _ eq_refl) as H.
  split; [reflexivity|]. split; [exact (proj1 (proj2 H))|].
  exact (proj1 H Scenario.report2).
Defined.

(** Farmer 2 creates a farm and names farmer 1 as its owner in the
    body: the farm is farmer 2's, with area 0. *)
Lemma createFarm_owner_is_requester_seed :
  let req := Seed.request_of Seed.farmer2 [] []
               [("name", JStr "Rwamagana Goat Farm"); ("location", JStr "Rwamagana District");
                ("latitude", JNum (-2)); ("longitude", JNum 30);
                ("ownerId", JStr "u-farmer1")] in
  exists farm,
    data (fst (createFarm Seed.rt req Seed.db)) = Some farm /\
    farm_ownerId farm = "u-farmer2" /\ farm_area farm = 0 /\
    snd (createFarm Seed.rt req Seed.db) = set_farms Seed.db (farms Seed.db ++ [farm]).
Proof.
  destruct (createFarm_owner_is_requester Seed.rt
              (Seed.request_of Seed.farmer2 [] []
                 [("name", JStr "Rwamagana Goat Farm");
                  ("location", JStr "Rwamagana District");
                  ("latitude", JNum (-2)); ("longitude", JNum 30);
                  ("ownerId", JStr "u-farmer1")])
              Seed.db eq_refl)
    as (u & farm & Hu & Hdata & Howner & _ & _ & _ & _ & _ & _ & _ & Harea & _ & Hdb).
  apply Some_inj in Hu. subst u.
  exists farm. split; [exact Hdata|]. split; [exact Howner|].
  split; [exact (Harea eq_refl)|exact Hdb].
Defined.

(** Farmer 1 does not see the farm that farmer 2 has just created. *)
Lemma created_farm_listed_for_owner_and_admin_only_seed :
  let req := Seed.request_of Seed.farmer2 [] []
               [("name", JStr "Rwamagana Goat Farm"); ("location", JStr "Rwamagana District");
                ("latitude", JNum (-2)); ("longitude", JNum 30)] in
  let req' := Seed.request_of Seed.farmer1 [] [] [] in
  exists farm l,
    data (fst (createFarm Seed.rt req Seed.db)) = Some farm /\
    data (getFarms Seed.rt req' (snd (createFarm Seed.rt req Seed.db))) = Some l /\
    (In farm l <-> "FARMER" = "ADMIN" \/ "u-farmer1" = "u-farmer2").
Proof.
  exact (created_farm_listed_for_owner_and_admin_only Seed.rt Seed.rt
           (Seed.request_of Seed.farmer2 [] []
              [("name", JStr "Rwamagana Goat Farm"); ("location", JStr "Rwamagana District");
               ("latitude", JNum (-2)); ("longitude", JNum 30)])
           Seed.db
           {| auth_id := "u-farmer2"; auth_role := "FARMER" |}
           {| auth_id := "u-farmer1"; auth_role := "FARMER" |}
           (Seed.request_of Seed.farmer1 [] [] [])
           eq_refl eq_refl eq_refl eq_refl).
Defined.

(** Farmer 2 adds a herd of 40 goats to farm f-1, which farmer 1 owns. *)
Lemma createHerd_starts_all_healthy_seed :
  let req := Seed.request_of Seed.farmer2 [("farmId", "f-1")] []
               [("name", JStr "Boer goats"); ("animalType", JStr "GOAT");
                ("totalCount", JNum 40)] in
  exists herd,
    data (fst (createHerd Seed.rt req Seed.db)) = Some herd /\
    herd_totalCount herd = 40 /\ herd_healthyCount herd = 40 /\
    herd_sickCount herd = 0 /\ herd_missingCount herd = 0 /\ herd_farmId herd = "f-1".
Proof.
  destruct (proj2 (createHerd_starts_all_healthy Seed.rt
                     (Seed.request_of Seed.farmer2 [("farmId", "f-1")] []
                        [("name", JStr "Boer goats"); ("animalType", JStr "GOAT");
                         ("totalCount", JNum 40)])
                     Seed.db) eq_refl)
    as (herd & Hdata & Htotal & _ & Hhealthy & Hsick & Hmissing & _ & Hfarm & _).
  apply Some_inj in Htotal. injection Htotal as Htotal.
  exists herd. split; [exact Hdata|]. split; [now symmetry|].
  split; [now rewrite Hhealthy|]. split; [exact Hsick|]. split; [exact Hmissing|exact Hfarm].
Defined.

(** A login for an address nobody has and a wrong guess at farmer 1's
    password get one answer; with the number 123456 for a password the
    address nobody has gets the 401 and farmer 1's gets a 500. *)
Lemma login_hides_unknown_email_for_string_passwords_only_seed :
  let attempt email password :=
    {| user := None; params := []; query_string := [];
       body := [("email", JStr email); ("password", password)] |} in
  login Seed.rt (attempt "nobody@kube.africa" (JStr "guess")) Seed.db
  = (fail 401 "Invalid credentials", Seed.db) /\
  login Seed.rt (attempt "farmer@kube.africa" (JStr "guess")) Seed.db
  = login Seed.rt (attempt "nobody@kube.africa" (JStr "guess")) Seed.db /\
  login Seed.rt (attempt "nobody@kube.africa" (JNum 123456)) Seed.db
  = (fail 401 "Invalid credentials", Seed.db) /\
  login Seed.rt (attempt "farmer@kube.africa" (JNum 123456)) Seed.db
  = (fail 500 "Login failed", Seed.db).
Proof.
  cbv zeta.
  assert (Hnobody : "nobody@kube.africa" <> "") by discriminate.
  assert (Hfarmer : "farmer@kube.africa" <> "") by discriminate.
  pose proof (login_hides_unknown_email_for_string_passwords_only Seed.rt Seed.db
                {| user := None; params := []; query_string := [];
                   body := [("email", JStr "nobody@kube.africa");
                            ("password", JStr "guess")] |}
                {| user := None; params := []; query_string := [];
                   body := [("email", JStr "farmer@kube.africa");
                            ("password", JStr "guess")] |}
                "nobody@kube.africa" "farmer@kube.africa" (JStr "guess") (JStr "guess")
                Seed.farmer1 eq_refl Hnobody eq_refl eq_refl eq_refl Hfarmer eq_refl eq_refl
                eq_refl eq_refl eq_refl) as Hstring.
  pose proof (login_hides_unknown_email_for_string_passwords_only Seed.rt Seed.db
                {| user := None; params := []; query_string := [];
                   body := [("email", JStr "nobody@kube.africa");
                            ("password", JNum 123456)] |}
                {| user := None; params := []; query_string := [];
                   body := [("email", JStr "farmer@kube.africa");
                            ("password", JNum 123456)] |}
                "nobody@kube.africa" "farmer@kube.africa" (JNum 123456) (JNum 123456)
                Seed.farmer1 eq_refl Hnobody eq_refl eq_refl eq_refl Hfarmer eq_refl eq_refl
                eq_refl eq_refl eq_refl) as Hnumber.
  split; [exact (proj1 Hstring)|].
  split; [exact (proj1 (proj2 Hstring) "guess" eq_refl eq_refl)|].
  split; [exact (proj1 Hnumber)|].
  refine (proj1 (proj2 (proj2 Hnumber) _)). intros p. discriminate.
Defined.

(** Farmer 1 logs in for the first time: the answer has no last login,
    the stored row has this one. *)
Lemma login_stamps_last_login_after_reading_it_seed :
  let r := login Seed.rt (Seed.login_as "farmer@kube.africa" "Jean") Seed.db in
  statusCode (fst r) = 200 /\
  option_map (fun d => data_lastLoginAt (login_user d)) (data (fst r)) = Some None /\
  option_map user_lastLoginAt (findUnique user_id "u-farmer1" (users (snd r)))
  = Some (Some 7000) /\
  (forall other, other <> "u-farmer1" ->
     findUnique user_id other (users (snd r)) = findUnique user_id other (users Seed.db)).
Proof.
  assert (Hemail : "farmer@kube.africa" <> "") by discriminate.
  assert (Hpassword : "Jean" <> "") by discriminate.
  pose proof (login_stamps_last_login_after_reading_it Seed.rt Seed.db
                (Seed.login_as "farmer@kube.africa" "Jean")
                "farmer@kube.africa" "Jean" Seed.farmer1 (JArr [])
                eq_refl Hemail eq_refl Hpassword (conj eq_refl eq_refl) eq_refl eq_refl
                eq_refl eq_refl eq_refl) as H.
  cbv zeta in H. split; [reflexivity|]. split; [reflexivity|]. split; [reflexivity|].
  exact (proj1 (proj2 (proj2 (proj2 (proj2 (proj2 H)))))).
Defined.

(** No alert has the id al-404: the read says 404, the two writes 500. *)
Lemma alert_writes_on_unknown_id_fail_with_500_seed :
  let req := Seed.request_of Seed.admin [("id", "al-404")] []
               [("status", JStr "RESOLVED"); ("assignedToId", JStr "u-ranger")] in
  getAlertById Seed.rt req Seed.db = fail 404 "Alert not found" /\
  updateAlertStatus Seed.rt req Seed.db = (fail 500 "Failed to update alert", Seed.db) /\
  assignAlert Seed.rt req Seed.db = (fail 500 "Failed to assign alert", Seed.db).
Proof.
  pose proof (alert_writes_on_unknown_id_fail_with_500 Seed.rt
                (Seed.request_of Seed.admin [("id", "al-404")] []
                   [("status", JStr "RESOLVED"); ("assignedToId", JStr "u-ranger")])
                Seed.db eq_refl) as H.
  split; [exact (proj1 H eq_refl)|exact (proj2 H)].
Defined.

(** The administrator assigns the resolved alert al-6 to the ranger: it
    is ACKNOWLEDGED again, and still says who resolved it and when. *)
Lemma assignAlert_keeps_resolution_stamps_scenario :
  let req := Seed.request_of Seed.admin [("id", "al-6")] []
               [("assignedToId", JStr "u-ranger")] in
  alert_status Scenario.alert6 = "RESOLVED" /\
  exists new,
    findUnique alert_id "al-6" (alerts (snd (assignAlert Seed.rt req Scenario.db)))
    = Some new /\
    alert_status new = "ACKNOWLEDGED" /\
    alert_resolvedBy new = Some "u-admin" /\ alert_resolvedAt new = Some 6450 /\
    alert_actionTaken new = Some "Herd vaccinated".
Proof.
  split; [reflexivity|].
  destruct (assignAlert_keeps_resolution_stamps Seed.rt
              (Seed.request_of Seed.admin [("id", "al-6")] []
                 [("assignedToId", JStr "u-ranger")])
              Scenario.db Scenario.alert6 eq_refl eq_refl)
    as (new & Hfind & Hstatus & Hby & Hat & Haction & _).
  exists new. split; [exact Hfind|]. split; [exact Hstatus|].
  split; [exact Hby|]. split; [exact Hat|exact Haction].
Defined.

(** An empty type filter beside the status filter changes nothing. *)
Lemma getAlerts_applies_non_empty_filters_seed :
  getAlerts Seed.rt Seed.schema
    (Seed.request_of Seed.farmer1 [] [("status", "NEW"); ("type", "")] []) Seed.db
  = getAlerts Seed.rt Seed.schema
      (Seed.request_of Seed.farmer1 [] [("status", "NEW")] []) Seed.db.
Proof.
  apply (proj2 (getAlerts_applies_non_empty_filters Seed.rt Seed.schema
                  (Seed.request_of Seed.farmer1 [] [("status", "NEW")] []) Seed.db)
           (Seed.request_of Seed.farmer1 [] [("status", "NEW"); ("type", "")] []) eq_refl).
  intros key [<-|[<-|[<-|[<-|[]]]]];
    first [left; reflexivity | right; split; reflexivity].
Defined.

(** The administrator's farm dashboard on the seed: 3 healthy, 1 sick
    and 1 missing of 5 animals. *)
Lemma farm_dashboard_status_counts_seed :
  let req := Seed.request_of Seed.admin [] [] [] in
  exists d,
    data (getFarmDashboard Seed.rt req Seed.db) = Some d /\
    stat_totalAnimals (farm_stats d) = 5 /\
    stat_healthyAnimals (farm_stats d) + stat_sickAnimals (farm_stats d)
    + stat_missingAnimals (farm_stats d) <= stat_totalAnimals (farm_stats d) /\
    (3 + 1 + 1 = 5 <->
     forall a, In a (animals Seed.db) -> animal_in_scope req Seed.db a = true ->
       animal_status a = "HEALTHY" \/ animal_status a = "SICK" \/
       animal_status a = "MISSING").
Proof.
  eexists. split; [reflexivity|].
  pose proof (farm_dashboard_status_counts Seed.rt (Seed.request_of Seed.admin [] [] [])
                Seed.db _ eq_refl) as H.
  cbv zeta in H. split; [reflexivity|].
  split; [exact (proj1 (proj2 (proj2 (proj2 (proj2 H)))))|].
  exact (proj2 (proj2 (proj2 (proj2 (proj2 H))))).
Defined.

(** The administrator's alert statistics: 7 alerts, 6 in the four
    counts; al-7 is DISMISSED. *)
Lemma alert_stats_add_up_scenario :
  let req := Seed.request_of Seed.admin [] [] [] in
  data (getAlertStats Seed.rt req Scenario.db)
  = Some {| stats_total := 7; stats_new := 2; stats_acknowledged := 1;
            stats_inProgress := 1; stats_resolved := 2 |} /\
  2 + 1 + 1 + 2 <= 7 /\
  (2 + 1 + 1 + 2 = 7 <->
   forall a, In a (alerts Scenario.db) -> alert_counted req a = true ->
     In (alert_status a) ["NEW"; "ACKNOWLEDGED"; "IN_PROGRESS"; "RESOLVED"]) /\
  alert_status Scenario.alert7 = "DISMISSED".
Proof.
  pose proof (alert_stats_add_up Seed.rt (Seed.request_of Seed.admin [] [] [])
                Scenario.db _ eq_refl) as H.
  split; [reflexivity|]. split; [exact (proj1 (proj2 H))|].
  split; [exact (proj1 (proj2 (proj2 H)))|reflexivity].
Defined.

(** The ranger's park has 6 open incidents; the dashboard says 5. *)
Lemma park_dashboard_incident_count_capped_at_5_scenario :
  let req := Seed.request_of Seed.ranger [] [] [] in
  count (incident_listed req Scenario.db) (incidents Scenario.db) = 6 /\
  exists d,
    data (getParkDashboard Seed.rt req Scenario.db) = Some d /\
    stat_incidentsCount (park_stats d) = 5 /\
    park_recentIncidents d
    = [Scenario.incident7; Scenario.incident6; Scenario.incident5; Scenario.incident4;
       Scenario.incident3] /\
    StronglySorted (newest_first incident_reportedAt) (park_recentIncidents d).
Proof.
  split; [reflexivity|]. eexists. split; [reflexivity|].
  pose proof (park_dashboard_incident_count_capped_at_5 Seed.rt
                (Seed.request_of Seed.ranger [] [] []) Scenario.db _ eq_refl) as H.
  cbv zeta in H. split; [exact (proj1 H)|]. split; [reflexivity|].
  exact (proj1 (proj2 (proj2 (proj2 H)))).
Defined.

(** The census of the last 30 days: 20 zebras and 3 elephants seen, for
    the ranger as for farmer 1, who manages no park; the roan antelope
    has an entry though the one survey of it counted none. *)
Lemma park_census_sums_every_recent_sighting_scenario :
  exists d d',
    data (getParkDashboard Seed.rt (Seed.request_of Seed.ranger [] [] []) Scenario.db)
    = Some d /\
    data (getParkDashboard Seed.rt (Seed.request_of Seed.farmer1 [] [] []) Scenario.db)
    = Some d' /\
    park_censusData d' = park_censusData d /\
    NoDup (map fst (park_censusData d)) /\
    sum (map snd (park_censusData d)) = 12 + 3 + 8 + 0 /\
    sighting_count Scenario.sighting5 = 0 /\
    (exists n, In ("w-3", n) (park_censusData d)).
Proof.
  eexists. eexists. split; [reflexivity|]. split; [reflexivity|].
  pose proof (park_census_sums_every_recent_sighting Seed.rt
                (Seed.request_of Seed.ranger [] [] []) Scenario.db _ eq_refl) as H.
  split; [exact (proj2 (proj2 (proj2 (proj2 H))) (Seed.request_of Seed.farmer1 [] [] [])
                   _ eq_refl)|].
  split; [exact (proj1 H)|]. split; [exact (proj1 (proj2 (proj2 (proj2 H))))|].
  split; [reflexivity|].
  refine (proj1 (proj2 (proj2 H)) Scenario.sighting5 _ _).
  - do 4 right. left. reflexivity.
  - discriminate.
Defined.

(** Farmer 1's health trend: one fever and one injury in the last week;
    the fever of a-4 is on another farm, the fever of a-3 is too old. *)
Lemma farm_health_trend_counts_each_event_once_scenario :
  let req := Seed.request_of Seed.farmer1 [] [] [] in
  exists d,
    data (getFarmDashboard Seed.rt req Scenario.db) = Some d /\
    farm_healthTrend d = [("FEVER", 1); ("INJURY", 1)] /\
    NoDup (map fst (farm_healthTrend d)) /\
    sum (map snd (farm_healthTrend d)) = 2.
Proof.
  eexists. split; [reflexivity|]. split; [reflexivity|].
  pose proof (farm_health_trend_counts_each_event_once Seed.rt
                (Seed.request_of Seed.farmer1 [] [] []) Scenario.db _ eq_refl) as H.
  split; [exact (proj1 H)|exact (proj2 (proj2 (proj2 H)))].
Defined.

(** The administrator's overview: 3 farms, as [getFarms] lists, and 5
    active alerts, the 7 of the statistics less the 2 resolved. *)
Lemma overview_counts_agree_with_lists_scenario :
  let req := Seed.request_of Seed.admin [] [] [] in
  exists o,
    data (getOverviewStats Seed.rt req Scenario.db) = Some o /\
    stat_farms (overview_stats o)
    = Z.of_nat (List.length [Seed.farm3; Seed.farm2; Seed.farm1]) /\
    stat_activeAlerts (overview_stats o) = 7 - 2.
Proof.
  eexists. split; [reflexivity|].
  pose proof (overview_counts_agree_with_lists Seed.rt Seed.rt
                (Seed.request_of Seed.admin [] [] []) Scenario.db _ eq_refl) as H.
  cbv zeta in H.
  split; [exact (proj1 H _ eq_refl)|exact (proj1 (proj2 (proj2 H)) _ eq_refl)].
Defined.

(** Farmer 1's overview shows their three activities, the administrator's
    the ten newest of twelve. *)
Lemma overview_recent_activities_own_and_newest_scenario :
  exists o o',
    data (getOverviewStats Seed.rt (Seed.request_of Seed.farmer1 [] [] []) Scenario.db)
    = Some o /\
    data (getOverviewStats Seed.rt (Seed.request_of Seed.admin [] [] []) Scenario.db)
    = Some o' /\
    map activity_id (overview_recentActivities o) = ["act-7"; "act-3"; "act-1"] /\
    List.length (overview_recentActivities o') = 10%nat /\
    StronglySorted (newest_first activity_timestamp) (overview_recentActivities o) /\
    StronglySorted (newest_first activity_timestamp) (overview_recentActivities o').
Proof.
  eexists. eexists. split; [reflexivity|]. split; [reflexivity|].
  split; [reflexivity|]. split; [reflexivity|].
  pose proof (overview_recent_activities_own_and_newest Seed.rt
                (Seed.request_of Seed.farmer1 [] [] []) Scenario.db _ eq_refl) as H.
  pose proof (overview_recent_activities_own_and_newest Seed.rt
                (Seed.request_of Seed.admin [] [] []) Scenario.db _ eq_refl) as H'.
  cbv zeta in H, H'. split; [exact (proj1 (proj2 H))|exact (proj1 (proj2 H'))].
Defined.

(** Farmer 1 changes their password from Jean to secret1. *)
Lemma changePassword_writes_only_the_requesters_password_seed :
  let r := changePassword Scenario.lib Seed.rt
             (Scenario.changePassword_as Seed.farmer1 "Jean" "secret1") Seed.db in
  statusCode (fst r) = 200 /\ data (fst r) = None /\
  option_map user_password (findUnique user_id "u-farmer1" (users (snd r)))
  = Some "hash:secret1" /\
  (forall other, other <> "u-farmer1" ->
     findUnique user_id other (users (snd r)) = findUnique user_id other (users Seed.db)).
Proof.
  pose proof (changePassword_writes_only_the_requesters_password Scenario.lib Seed.rt
                (Scenario.changePassword_as Seed.farmer1 "Jean" "secret1") Seed.db) as H.
  cbv zeta in H. split; [reflexivity|]. split; [exact (proj1 H)|]. split; [reflexivity|].
  destruct (proj2 (proj2 H) eq_refl)
    as (requester & current & new & account & stored & Hu & _ & _ & _ & _ & _ & _ & _ & _
        & Hframe & _).
  apply Some_inj in Hu. subst requester. exact Hframe.
Defined.

(** After that change, Jean is refused and secret1 logs farmer 1 in. *)
Lemma login_after_changePassword_checks_the_new_hash_seed :
  let db' := snd (changePassword Scenario.lib Seed.rt
                    (Scenario.changePassword_as Seed.farmer1 "Jean" "secret1") Seed.db) in
  login Seed.rt (Seed.login_as "farmer@kube.africa" "Jean") db'
  = (fail 401 "Invalid credentials", db') /\
  statusCode (fst (login Seed.rt (Seed.login_as "farmer@kube.africa" "secret1") db')) = 200.
Proof.
  split.
  - refine (proj1 (login_after_changePassword_checks_the_new_hash Scenario.lib Seed.rt
                     Seed.rt (Scenario.changePassword_as Seed.farmer1 "Jean" "secret1")
                     Seed.db {| auth_id := "u-farmer1"; auth_role := "FARMER" |}
                     Seed.farmer1 "secret1" (Seed.login_as "farmer@kube.africa" "Jean")
                     "Jean" eq_refl eq_refl eq_refl eq_refl eq_refl eq_refl _ eq_refl _
                     eq_refl) eq_refl); discriminate.
  - refine (proj1 (proj2 (login_after_changePassword_checks_the_new_hash Scenario.lib
                            Seed.rt Seed.rt
                            (Scenario.changePassword_as Seed.farmer1 "Jean" "secret1")
                            Seed.db {| auth_id := "u-farmer1"; auth_role := "FARMER" |}
                            Seed.farmer1 "secret1"
                            (Seed.login_as "farmer@kube.africa" "secret1")
                            "secret1" eq_refl eq_refl eq_refl eq_refl eq_refl eq_refl _
                            eq_refl _ eq_refl)
                     eq_refl eq_refl eq_refl (JArr []) eq_refl)); discriminate.
Defined.

(** Farmer 2 generates a report; farmer 1's list does not show it. *)
Lemma generated_report_listed_for_author_and_admin_only_scenario :
  let req := Seed.request_of Seed.farmer2 [] []
               [("title", JStr "Milk yield, April"); ("type", JStr "MONTHLY");
                ("module", JStr "farm"); ("dataSnapshot", JStr "{}")] in
  let req' := Seed.request_of Seed.farmer1 [] [] [] in
  exists report l,
    data (fst (generateReport Seed.rt req Scenario.db)) = Some report /\
    report_generatedById report = "u-farmer2" /\
    report_generatedAt report = 7000 /\
    data (getReports Seed.rt req' (snd (generateReport Seed.rt req Scenario.db))) = Some l /\
    (In report l <-> "FARMER" = "ADMIN" \/ "u-farmer1" = "u-farmer2") /\
    (forall before, data (getReports Seed.rt req' Scenario.db) = Some before ->
       forall r, In r before -> In r l).
Proof.
  exact (generated_report_listed_for_author_and_admin_only Seed.rt Seed.rt
           (Seed.request_of Seed.farmer2 [] []
              [("title", JStr "Milk yield, April"); ("type", JStr "MONTHLY");
               ("module", JStr "farm"); ("dataSnapshot", JStr "{}")])
           Scenario.db
           {| auth_id := "u-farmer2"; auth_role := "FARMER" |}
           {| auth_id := "u-farmer1"; auth_role := "FARMER" |}
           (Seed.request_of Seed.farmer1 [] [] [])
           eq_refl eq_refl eq_refl eq_refl).
Defined.

(** Six changes are on record; the land dashboard shows five, and not
    c-1, the oldest, which [getChanges] still lists for zone z-1. *)
Lemma land_dashboard_changes_newest_of_all_zones_scenario :
  exists d,
    data (getLandDashboard Seed.rt (Seed.request_of Seed.analyst [] [] []) Scenario.db)
    = Some d /\
    land_recentChanges d
    = [Scenario.change6; Scenario.change5; Scenario.change4; Scenario.change3;
       Scenario.change2] /\
    Z.of_nat (List.length (land_recentChanges d)) = Z.min 5 6 /\
    data (getChanges Seed.rt (Seed.request_of Seed.analyst [("zoneId", "z-1")] [] [])
            Scenario.db)
    = Some [Scenario.change5; Scenario.change3; Scenario.change1] /\
    change_detectedAt Scenario.change1 <= change_detectedAt Scenario.change2.
Proof.
  eexists. split; [reflexivity|]. split; [reflexivity|].
  pose proof (land_dashboard_changes_newest_of_all_zones Seed.rt Seed.rt
                (Seed.request_of Seed.analyst [] [] []) Scenario.db _ eq_refl) as H.
  cbv zeta in H. split; [exact (proj1 H)|]. split; [reflexivity|].
  refine (proj2 (proj2 (proj2 H)) Scenario.change1
            (Seed.request_of Seed.analyst [("zoneId", "z-1")] [] []) _ Scenario.change2
            eq_refl _ _ _).
  - right. right. left. reflexivity.
  - intros [E|[E|[E|[E|[E|[]]]]]]; discriminate E.
  - do 4 right. left. reflexivity.
Defined.

(** Zones z-1 and z-2 were surveyed this year, z-3 was not; the surveys
    of z-2 carry no measurement. *)
Lemma land_vegetation_trend_one_entry_per_surveyed_zone_scenario :
  exists d,
    data (getLandDashboard Seed.rt (Seed.request_of Seed.analyst [] [] []) Scenario.db)
    = Some d /\
    map trend_zoneId (land_vegetationTrend d) = ["z-1"; "z-2"] /\
    map trend_ndvi (land_vegetationTrend d) = [Some (3000 # 5000); None] /\
    NoDup (map trend_zoneId (land_vegetationTrend d)) /\
    (In "z-3" (map trend_zoneId (land_vegetationTrend d)) <->
     exists s, In s [Scenario.survey4] /\
               now Seed.rt - days 365 <= survey_surveyDate s).
Proof.
  eexists. split; [reflexivity|]. split; [reflexivity|]. split; [reflexivity|].
  pose proof (land_vegetation_trend_one_entry_per_surveyed_zone Seed.rt Seed.rt
                (Seed.request_of Seed.analyst [] [] []) Scenario.db _ eq_refl) as H.
  cbv zeta in H. split; [exact (proj1 H)|].
  exact (proj1 (proj2 H) (Seed.request_of Seed.analyst [("zoneId", "z-3")] [] [])
           [Scenario.survey4] eq_refl).
Defined.

(** Farmer 1's farm dashboard: the four open alerts of farm f-1, the
    newest first, and the one herd. *)
Lemma farm_dashboard_lists_own_open_farm_alerts_scenario :
  let req := Seed.request_of Seed.farmer1 [] [] [] in
  exists d,
    data (getFarmDashboard Seed.rt req Scenario.db) = Some d /\
    farm_recentAlerts d = [Scenario.alert7; Seed.alert3; Seed.alert2; Seed.alert1] /\
    farm_herds d = [Seed.herd1] /\
    (List.length (farm_recentAlerts d) <= 5)%nat /\
    StronglySorted (newest_first alert_createdAt) (farm_recentAlerts d).
Proof.
  eexists. split; [reflexivity|]. split; [reflexivity|]. split; [reflexivity|].
  pose proof (farm_dashboard_lists_own_open_farm_alerts Seed.rt
                (Seed.request_of Seed.farmer1 [] [] []) Scenario.db _
                {| auth_id := "u-farmer1"; auth_role := "FARMER" |} eq_refl eq_refl) as H.
  split; [exact (proj1 (proj1 H))|exact (proj1 (proj2 (proj1 H)))].
Defined.

(** The ranger closes alert al-1 with a status of their own: the
    administrator's total stays 7, the count of NEW alerts drops from 2
    to 1, and no other count takes the alert. *)
Lemma updateAlertStatus_moves_the_alert_between_counts_scenario :
  let req := Seed.request_of Seed.ranger [("id", "al-1")] [] [("status", JStr "CLOSED")] in
  let viewer := Seed.request_of Seed.admin [] [] [] in
  exists st st',
    data (getAlertStats Seed.rt viewer Scenario.db) = Some st /\
    data (getAlertStats Seed.rt viewer (snd (updateAlertStatus Seed.rt req Scenario.db)))
    = Some st' /\
    stats_total st = 7 /\ stats_total st' = stats_total st /\
    stats_new st = 2 /\ stats_new st' = 1 /\
    stats_new st' + stats_acknowledged st' + stats_inProgress st' + stats_resolved st'
    = stats_new st + stats_acknowledged st + stats_inProgress st + stats_resolved st - 1.
Proof.
  eexists. eexists. split; [reflexivity|]. split; [reflexivity|].
  pose proof (updateAlertStatus_moves_the_alert_between_counts Seed.rt Seed.rt Seed.rt
                (Seed.request_of Seed.ranger [("id", "al-1")] [] [("status", JStr "CLOSED")])
                (Seed.request_of Seed.admin [] [] []) Scenario.db Seed.alert1 "CLOSED" _ _
                eq_refl eq_refl eq_refl eq_refl eq_refl) as H.
  split; [reflexivity|]. split; [exact (proj1 H)|]. split; [reflexivity|].
  split; [reflexivity|].
  refine (proj2 (proj2 (proj2 (proj2 (proj2 (proj2 H))))) eq_refl _ _).
  - left. reflexivity.
  - intros [E|[E|[E|[E|[]]]]]; discriminate E.
Defined.
